(** * One time step of the reacting-flow solver [SpEnergy.step]

    A shallow embedding of [solver_class_flame.py]: the fluid state
    [SpFluid], the projection [divergence_free], the mixture bounds
    [get_min_max_zf_zo], the boundary policy
    ([VelocityBoundary_y], [VelocityBoundary_x], the species and temperature
    masks) and the step [SpEnergy.step] that sequences them.

    Numbers.  The fields hold NumPy floats.  The embedding of the step keeps
    what does not depend on the float width: the special values [NaN],
    [+Inf], [-Inf] and their propagation rules (NumPy warns on a division by
    zero and goes on), while finite values are exact rationals ([Qc]).
    Rounding, overflow, underflow and the sign of zero are in the module
    [Ieee], which evaluates the arithmetic of single source lines in IEEE
    754 binary32 and binary64.

    Arrays.  An [ndarray] is a shape and an indexing function; slices follow
    NumPy: bounds are clipped to the axis, negative bounds count from the
    end, an integer index out of range raises [IndexError], an array
    assigned to a slice is broadcast or raises [ValueError].

    State.  Grids are immutable structs: [x += y] on a grid rebinds the
    local name [x].  The one write of the step to an object is the
    assignment [fluid.solve_info = ...]; the object [fluid] refers to is the
    state of the computation monad [M].

    Library.  PhiFlow (advection, diffusion, pressure solve, grid
    interpolation, effects) is not part of the file under study; its
    operators are the fields of the interface [PhiFlow] and may raise. *)

From Stdlib Require Import ZArith QArith Qcanon Lqa Lia Bool List.
From Stdlib Require Import FunctionalExtensionality.
From Stdlib Require SpecFloat.
From stdpp Require Import gmap strings.

Set Implicit Arguments.

(* ===================================================================== *)
(** ** Floats with their special values *)
(* ===================================================================== *)

Module Fl.

Local Open Scope Qc_scope.

Inductive fl : Type :=
| Fin (q : Qc)
| PInf
| NInf
| NaN.

(** A decimal literal [n / d]. *)
Definition dec (n : Z) (d : positive) : fl := Fin (Q2Qc (n # d)).
Definition of_Z (n : Z) : fl := Fin (Q2Qc (inject_Z n)).

Definition zero : fl := of_Z 0.
Definition one : fl := of_Z 1.

Definition is_finite (x : fl) : bool :=
  match x with Fin _ => true | _ => false end.

Definition is_nan (x : fl) : bool :=
  match x with NaN => true | _ => false end.

Definition is_inf (x : fl) : bool :=
  match x with PInf | NInf => true | _ => false end.

(** Sign of a rational: [Lt] negative, [Eq] zero, [Gt] positive. *)
Definition sgn (q : Qc) : comparison := Qccompare q 0.

Definition inf_of (s : comparison) : fl :=
  match s with Lt => NInf | Eq => NaN | Gt => PInf end.

Definition flip (s : comparison) : comparison := CompOpp s.

Definition neg (x : fl) : fl :=
  match x with
  | Fin q => Fin (- q)
  | PInf => NInf
  | NInf => PInf
  | NaN => NaN
  end.

Definition add (x y : fl) : fl :=
  match x, y with
  | NaN, _ | _, NaN => NaN
  | PInf, NInf | NInf, PInf => NaN
  | PInf, _ | _, PInf => PInf
  | NInf, _ | _, NInf => NInf
  | Fin a, Fin b => Fin (a + b)
  end.

Definition sub (x y : fl) : fl := add x (neg y).

(** [inf * 0] is [NaN]; otherwise the signs multiply. *)
Definition mul (x y : fl) : fl :=
  match x, y with
  | NaN, _ | _, NaN => NaN
  | Fin a, Fin b => Fin (a * b)
  | PInf, Fin b | Fin b, PInf => inf_of (sgn b)
  | NInf, Fin b | Fin b, NInf => inf_of (flip (sgn b))
  | PInf, PInf | NInf, NInf => PInf
  | PInf, NInf | NInf, PInf => NInf
  end.

(** NumPy division: [0/0] and [inf/inf] are [NaN], a non-zero finite value
    over zero is an infinity (no exception is raised), a finite value over an
    infinity is zero. *)
Definition div (x y : fl) : fl :=
  match x, y with
  | NaN, _ | _, NaN => NaN
  | Fin a, Fin b =>
      match sgn b with
      | Eq => inf_of (sgn a)
      | _ => Fin (a / b)
      end
  | Fin _, PInf | Fin _, NInf => zero
  | PInf, Fin b =>
      match sgn b with Lt => NInf | _ => PInf end
  | NInf, Fin b =>
      match sgn b with Lt => PInf | _ => NInf end
  | PInf, PInf | PInf, NInf | NInf, PInf | NInf, NInf => NaN
  end.

(** [x ** (-1)]. *)
Definition pow_neg1 (x : fl) : fl := div one x.

(** [np.absolute]. *)
Definition abs (x : fl) : fl :=
  match x with
  | Fin q => Fin (match sgn q with Lt => - q | _ => q end)
  | PInf | NInf => PInf
  | NaN => NaN
  end.

(** Order on the values that are not [NaN]. *)
Definition ltb (x y : fl) : bool :=
  match x, y with
  | NaN, _ | _, NaN => false
  | NInf, NInf => false
  | NInf, _ => true
  | _, NInf => false
  | PInf, _ => false
  | _, PInf => true
  | Fin a, Fin b => match Qccompare a b with Lt => true | _ => false end
  end.

(** [np.min] and [np.max] of two values: a [NaN] wins. *)
Definition min2 (x y : fl) : fl :=
  match x, y with
  | NaN, _ | _, NaN => NaN
  | _, _ => if ltb y x then y else x
  end.

Definition max2 (x y : fl) : fl :=
  match x, y with
  | NaN, _ | _, NaN => NaN
  | _, _ => if ltb x y then y else x
  end.

(** Same value (two [NaN] are the same value). *)
Definition eqb (x y : fl) : bool :=
  match x, y with
  | Fin a, Fin b => match Qccompare a b with Eq => true | _ => false end
  | PInf, PInf | NInf, NInf | NaN, NaN => true
  | _, _ => false
  end.

End Fl.

Export Fl.

Declare Scope fl_scope.
Delimit Scope fl_scope with fl.
Bind Scope fl_scope with fl.
Infix "+" := Fl.add : fl_scope.
Infix "-" := Fl.sub : fl_scope.
Infix "*" := Fl.mul : fl_scope.
Infix "/" := Fl.div : fl_scope.

(* ===================================================================== *)
(** ** Exceptions *)
(* ===================================================================== *)

(** The exceptions the step can raise: NumPy's own, and whatever a PhiFlow
    operator raises. *)
Inductive exn : Type :=
| IndexError
| ValueError
| TypeError
| LibraryError (msg : string).

(** [inl e]: the exception [e] was raised; [inr a]: the value [a]. *)
Definition result (A : Type) : Type := (exn + A)%type.

Definition rbind {A B : Type} (r : result A) (k : A -> result B) : result B :=
  match r with
  | inl e => inl e
  | inr a => k a
  end.

(* ===================================================================== *)
(** ** NumPy arrays and slices *)
(* ===================================================================== *)

Module Np.

Local Open Scope Z_scope.

(** One entry of a subscript: [:], [a:], [a:b], or an integer. *)
Inductive sel : Type :=
| All
| From (a : Z)
| Range (a b : Z)
| At (i : Z).

(** A slice bound against an axis of length [n], as [slice.indices]. *)
Definition clip (n : nat) (i : Z) : Z :=
  if i <? 0 then Z.max (i + Z.of_nat n) 0 else Z.min i (Z.of_nat n).

Definition sel_lo (n : nat) (s : sel) : Z :=
  match s with
  | All => 0
  | From a | Range a _ => clip n a
  | At i => if i <? 0 then i + Z.of_nat n else i
  end.

Definition sel_hi (n : nat) (s : sel) : Z :=
  match s with
  | All | From _ => Z.of_nat n
  | Range _ b => clip n b
  | At _ => sel_lo n s + 1
  end.

(** An integer index must fall inside the axis. *)
Definition sel_ok (n : nat) (s : sel) : bool :=
  match s with
  | At _ => (0 <=? sel_lo n s) && (sel_lo n s <? Z.of_nat n)
  | _ => true
  end.

Definition sel_mem (n : nat) (s : sel) (i : nat) : bool :=
  (sel_lo n s <=? Z.of_nat i) && (Z.of_nat i <? sel_hi n s).

Definition sel_len (n : nat) (s : sel) : nat :=
  Z.to_nat (sel_hi n s - sel_lo n s).

(** Position of the axis index [i] inside the selection. *)
Definition sel_off (n : nat) (s : sel) (i : nat) : nat :=
  Z.to_nat (Z.of_nat i - sel_lo n s).

(** The axis index of an integer subscript. *)
Definition sel_at (n : nat) (s : sel) : nat := Z.to_nat (sel_lo n s).

(** Rank 4: [batch, y, x, component], the layout of every grid. *)
Record Shape : Type := mkShape
  { batch : nat; rows : nat; cols : nat; comps : nat }.

Record ndarray : Type := mkArray
  { shape : Shape; item : nat -> nat -> nat -> nat -> fl }.

Definition inside (s : Shape) (b y x k : nat) : Prop :=
  (b < batch s)%nat /\ (y < rows s)%nat /\ (x < cols s)%nat /\ (k < comps s)%nat.

Definition full (s : Shape) (v : fl) : ndarray :=
  mkArray s (fun _ _ _ _ => v).

Definition ones (s : Shape) : ndarray := full s one.
Definition zeros (s : Shape) : ndarray := full s zero.

Definition map1 (f : fl -> fl) (a : ndarray) : ndarray :=
  mkArray (shape a) (fun b y x k => f (item a b y x k)).

(** Elementwise operation of two arrays of one shape. *)
Definition map2 (f : fl -> fl -> fl) (a c : ndarray) : ndarray :=
  mkArray (shape a) (fun b y x k => f (item a b y x k) (item c b y x k)).

Definition covers (s : Shape) (s0 s1 s2 s3 : sel) (b y x k : nat) : bool :=
  sel_mem (batch s) s0 b && sel_mem (rows s) s1 y
  && sel_mem (cols s) s2 x && sel_mem (comps s) s3 k.

Definition subscript_ok (s : Shape) (s0 s1 s2 s3 : sel) : bool :=
  sel_ok (batch s) s0 && sel_ok (rows s) s1
  && sel_ok (cols s) s2 && sel_ok (comps s) s3.

(** [a[s0, s1, s2, s3] = v] for a scalar [v]. *)
Definition assign (a : ndarray) (s0 s1 s2 s3 : sel) (v : fl) : result ndarray :=
  if subscript_ok (shape a) s0 s1 s2 s3 then
    inr (mkArray (shape a)
           (fun b y x k =>
              if covers (shape a) s0 s1 s2 s3 b y x k then v
              else item a b y x k))
  else inl IndexError.

(** Rank 3, the roughness array: [layer, row, column]. *)
Record Array3 : Type := mkArray3
  { layers : nat; rows3 : nat; cols3 : nat; item3 : nat -> nat -> nat -> fl }.

Record Array2 : Type := mkArray2
  { rows2 : nat; cols2 : nat; item2 : nat -> nat -> fl }.

Record Array1 : Type := mkArray1
  { len1 : nat; item1 : nat -> fl }.

(** [a[i, :, :]] *)
Definition layer (a : Array3) (i : Z) : result Array2 :=
  if sel_ok (layers a) (At i) then
    inr (mkArray2 (rows3 a) (cols3 a) (item3 a (sel_at (layers a) (At i))))
  else inl IndexError.

(** [a[s0, s1, j]] with two slices and an integer column. *)
Definition slab (a : Array3) (s0 s1 : sel) (j : Z) : result Array2 :=
  if sel_ok (cols3 a) (At j) then
    inr (mkArray2 (sel_len (layers a) s0) (sel_len (rows3 a) s1)
           (fun l r =>
              item3 a (Z.to_nat (sel_lo (layers a) s0) + l)%nat
                      (Z.to_nat (sel_lo (rows3 a) s1) + r)%nat
                      (sel_at (cols3 a) (At j))))
  else inl IndexError.

(** [a[s0, i, j]] with one slice and two integers. *)
Definition rod (a : Array3) (s0 : sel) (i j : Z) : result Array1 :=
  if sel_ok (rows3 a) (At i) && sel_ok (cols3 a) (At j) then
    inr (mkArray1 (sel_len (layers a) s0)
           (fun l =>
              item3 a (Z.to_nat (sel_lo (layers a) s0) + l)%nat
                      (sel_at (rows3 a) (At i))
                      (sel_at (cols3 a) (At j))))
  else inl IndexError.

Definition map_2 (f : fl -> fl) (a : Array2) : Array2 :=
  mkArray2 (rows2 a) (cols2 a) (fun i j => f (item2 a i j)).

Definition map_1 (f : fl -> fl) (a : Array1) : Array1 :=
  mkArray1 (len1 a) (fun i => f (item1 a i)).

(** All entries of a rank-2 array, row by row. *)
Definition entries (a : Array2) : list fl :=
  flat_map (fun i => map (item2 a i) (seq 0 (cols2 a))) (seq 0 (rows2 a)).

(** [np.min], [np.max]: an empty array raises [ValueError]. *)
Definition reduce (f : fl -> fl -> fl) (a : Array2) : result fl :=
  match entries a with
  | [] => inl ValueError
  | x :: l => inr (fold_left f l x)
  end.

Definition min (a : Array2) : result fl := reduce min2 a.
Definition max (a : Array2) : result fl := reduce max2 a.

(** A value axis of length [v] broadcasts to a target axis of length [t]. *)
Definition broadcasts (v t : nat) : bool :=
  Nat.eqb v t || Nat.eqb v 1.

(** Index into a value axis of length [v] for the target offset [o]. *)
Definition bidx (v o : nat) : nat := if Nat.eqb v 1 then O else o.

(** [a[At b0, s1, s2, At k0] = v] for a rank-2 value [v]. *)
Definition assign2 (a : ndarray) (b0 : Z) (s1 s2 : sel) (k0 : Z) (v : Array2)
  : result ndarray :=
  let s := shape a in
  if subscript_ok s (At b0) s1 s2 (At k0) then
    if broadcasts (rows2 v) (sel_len (rows s) s1)
       && broadcasts (cols2 v) (sel_len (cols s) s2) then
      inr (mkArray s
             (fun b y x k =>
                if covers s (At b0) s1 s2 (At k0) b y x k then
                  item2 v (bidx (rows2 v) (sel_off (rows s) s1 y))
                          (bidx (cols2 v) (sel_off (cols s) s2 x))
                else item a b y x k))
    else inl ValueError
  else inl IndexError.

(** The same for a rank-1 value, which lines up with the last target axis. *)
Definition assign1 (a : ndarray) (b0 : Z) (s1 s2 : sel) (k0 : Z) (v : Array1)
  : result ndarray :=
  let s := shape a in
  if subscript_ok s (At b0) s1 s2 (At k0) then
    if broadcasts (len1 v) (sel_len (cols s) s2) then
      inr (mkArray s
             (fun b y x k =>
                if covers s (At b0) s1 s2 (At k0) b y x k then
                  item1 v (bidx (len1 v) (sel_off (cols s) s2 x))
                else item a b y x k))
    else inl ValueError
  else inl IndexError.

End Np.

(* ===================================================================== *)
(** ** Module-level constants and the mixture bounds *)
(* ===================================================================== *)

Local Open Scope fl_scope.

Record Fuel : Type := mkFuel
  { A_m : fl; n_m : fl; E_m : fl;
    hk : fl; cp : fl;
    Wf : fl; Wo : fl; Wp : fl;
    Vf : fl; Vo : fl }.

Definition fuel_type : string := "methane"%string.

(** The module selects its constants by [fuel_type]; the source has no
    [else] branch, [fuel_type] being one of the two names. *)
Definition constants : Fuel :=
  if String.eqb fuel_type "methane" then
    mkFuel (of_Z 51000) (of_Z 0) (of_Z 93600)
           (of_Z 50100000) (of_Z 1450)
           (dec 16 1000) (dec 32 1000) (dec 62 1000)
           (of_Z (-1)) (of_Z (-2))
  else
    mkFuel (of_Z 275000000) (of_Z 0) (of_Z 130317)
           (of_Z 46600000) (of_Z 1300)
           (dec 44 1000) (dec 32 1000) (dec 62 1000)
           (of_Z (-1)) (of_Z (-5)).

(** [get_min_max_zf_zo(eq)]: returns [(Zf_min, Zf_max, Zo_min, Zo_max)]. *)
Definition get_min_max_zf_zo (eq : fl) : fl * fl * fl * fl :=
  let eq_min := dec 8 10 in
  let eq_max := dec 10 10 in
  let Zf_min := one / (one + (of_Z 4 * dec 429 100 / eq_min)) in
  let Zf_max := one / (one + (of_Z 4 * dec 429 100 / eq_max)) in
  let Zo_min := one - Zf_max in
  let Zo_max := one - Zf_min in
  (Zf_min, Zf_max, Zo_min, Zo_max).

(** [get_zf_bc_vector(rd_yk, equi_ratio)] *)
Definition get_zf_bc_vector (rd_yk : Np.Array2) (equi_ratio : fl) : Np.Array2 :=
  let '(Zf_min, Zf_max, Zo_min, Zo_max) := get_min_max_zf_zo equi_ratio in
  Np.map_2 (fun r => r * (Zf_max - Zf_min) + Zf_min) rd_yk.

(** The state equation in the words of the specification, at one cell:
    [(1/R) * pressure * ((Yf/Wf + Yo/Wo + (1-Yf-Yo)/Wp) * temperature)^-1]
    with [R = 8.314] and the methane constants [Wf = 0.016], [Wo = 0.032],
    [Wp = 0.062]. *)
Definition ideal_gas_density (pressure temperature Yf Yo : fl) : fl :=
  (one / dec 8314 1000) * pressure
  * pow_neg1 ((Yf / dec 16 1000 + Yo / dec 32 1000
               + (one - Yf - Yo) / dec 62 1000) * temperature).


(** The boundary update [c * mask + bc] on raw arrays. *)
Definition masked (c mask bc : Np.ndarray) : Np.ndarray :=
  Np.map2 Fl.add (Np.map2 Fl.mul c mask) bc.

(** [mask = ones; mask[:, 0:1, :, :] = 0; bc = zeros; bc[:, 0:1, :, :] = v]:
    the species masks of the step, for a field of shape [s]. *)
Definition species_masks (s : Np.Shape) (v : fl) : result (Np.ndarray * Np.ndarray) :=
  rbind (Np.assign (Np.ones s) Np.All (Np.Range 0 1) Np.All Np.All zero) (fun mask =>
  rbind (Np.assign (Np.zeros s) Np.All (Np.Range 0 1) Np.All Np.All v) (fun bc =>
  inr (mask, bc))).

(** The temperature masks of the step: rows [0] and [res-1] are fixed, to
    800 and 2000; the later assignment wins where the rows coincide. *)
Definition temperature_masks (s : Np.Shape) (res : Z) : result (Np.ndarray * Np.ndarray) :=
  rbind (Np.assign (Np.ones s) Np.All (Np.Range 0 1) Np.All Np.All zero) (fun m0 =>
  rbind (Np.assign m0 Np.All (Np.Range (res - 1) res) Np.All Np.All zero) (fun temp_mask =>
  rbind (Np.assign (Np.zeros s) Np.All (Np.Range 0 1) Np.All Np.All (of_Z 800)) (fun b0 =>
  rbind (Np.assign b0 Np.All (Np.Range (res - 1) res) Np.All Np.All (of_Z 2000)) (fun tempBC =>
  inr (temp_mask, tempBC))))).

(** The roughness normalisation of the step:
    [rd_yk = rd_array[20, :, :]] then
    [(rd_yk - np.min(rd_yk)) / (np.max(rd_yk) - np.min(rd_yk))]. *)
Definition normalized_roughness (rd_array : Np.Array3) : result Np.Array2 :=
  rbind (Np.layer rd_array 20) (fun rd_yk =>
  rbind (Np.min rd_yk) (fun lo =>
  rbind (Np.max rd_yk) (fun hi =>
  rbind (Np.min rd_yk) (fun lo' =>
  inr (Np.map_2 (fun r => (r - lo) / (hi - lo')) rd_yk))))).

(* ===================================================================== *)
(** ** Grids, the fluid state and the PhiFlow interface *)
(* ===================================================================== *)

Section Solver.

(** Types of the library that the file under study only passes around. *)
Context {Domain Box Obstacle Geometry Gravity Tensor Solver Effect : Type}.

(** A centered grid: its array and its box.  A staggered grid: one centered
    grid per axis ([data[0]] is the y component, [data[1]] the x component)
    and its box. *)
Record CenteredGrid : Type := mkGrid
  { data : Np.ndarray; box : Box }.

Record StaggeredGrid : Type := mkStaggered
  { sdata : list CenteredGrid; sbox : Box }.

(** Elementwise arithmetic of grids; the operands share one resolution and
    the result keeps the box of the left grid. *)
Definition g_map (f : fl -> fl) (g : CenteredGrid) : CenteredGrid :=
  mkGrid (Np.map1 f (data g)) (box g).

Definition g_map2 (f : fl -> fl -> fl) (g h : CenteredGrid) : CenteredGrid :=
  mkGrid (Np.map2 f (data g) (data h)) (box g).

Definition g_add := g_map2 Fl.add.
Definition g_sub := g_map2 Fl.sub.
Definition g_mul := g_map2 Fl.mul.
Definition g_div := g_map2 Fl.div.
(** [g * c], [c * g], [c - g], [g ** (-1)] *)
Definition g_scale (g : CenteredGrid) (c : fl) : CenteredGrid := g_map (fun x => x * c) g.
Definition g_lscale (c : fl) (g : CenteredGrid) : CenteredGrid := g_map (fun x => c * x) g.
Definition g_rsub (c : fl) (g : CenteredGrid) : CenteredGrid := g_map (fun x => c - x) g.
Definition g_pow_neg1 (g : CenteredGrid) : CenteredGrid := g_map pow_neg1 g.
(** [grid * ndarray] and [grid + ndarray] *)
Definition g_mul_nd (g : CenteredGrid) (a : Np.ndarray) : CenteredGrid :=
  mkGrid (Np.map2 Fl.mul (data g) a) (box g).
Definition g_add_nd (g : CenteredGrid) (a : Np.ndarray) : CenteredGrid :=
  mkGrid (Np.map2 Fl.add (data g) a) (box g).

(** Componentwise arithmetic of staggered grids. *)
Fixpoint zip_grids (f : fl -> fl -> fl) (l m : list CenteredGrid)
  : result (list CenteredGrid) :=
  match l, m with
  | [], [] => inr []
  | g :: l', h :: m' =>
      rbind (zip_grids f l' m') (fun r => inr (g_map2 f g h :: r))
  | _, _ => inl ValueError
  end.

Definition s_map2 (f : fl -> fl -> fl) (u v : StaggeredGrid) : result StaggeredGrid :=
  rbind (zip_grids f (sdata u) (sdata v)) (fun l => inr (mkStaggered l (sbox u))).

(** [field.data[i]] *)
Definition component (u : StaggeredGrid) (i : nat) : result CenteredGrid :=
  match nth_error (sdata u) i with
  | Some g => inr g
  | None => inl IndexError
  end.

(** Values of the [solve_info] dict. *)
Inductive Info : Type :=
| InfoGrid (g : CenteredGrid)
| InfoCount (n : nat).

(** [SpFluid]: the struct's variables and constants, the [age] of a state and
    the plain attribute [solve_info] set by [__init__]. *)
Record SpFluid : Type := mkFluid
  { domain : Domain;
    velocity : StaggeredGrid;
    temperature : CenteredGrid;
    density : CenteredGrid;
    pressure : CenteredGrid;
    rd : CenteredGrid;
    Yf : CenteredGrid;
    Yo : CenteredGrid;
    Wt : CenteredGrid;
    Wkf : CenteredGrid;
    Wko : CenteredGrid;
    buoyancy_factor : fl;
    amp : fl;
    eq : fl;
    tags : list string;
    name : string;
    age : fl;
    solve_info : gmap string Info }.

Record FluidDomain : Type := mkFluidDomain
  { fd_domain : Domain; active : CenteredGrid; accessible : CenteredGrid }.

(** The operators of PhiFlow used by [divergence_free] and [step]. *)
Record PhiFlow : Type := mkPhiFlow
  { (* step *)
    rank : Domain -> nat;
    gravity_tensor : Gravity -> nat -> result Tensor;
    semi_lagrangian : CenteredGrid -> StaggeredGrid -> fl -> result CenteredGrid;
    semi_lagrangian_v : StaggeredGrid -> StaggeredGrid -> fl -> result StaggeredGrid;
    diffuse : CenteredGrid -> fl -> nat -> result CenteredGrid;
    diffuse_v : StaggeredGrid -> fl -> nat -> result StaggeredGrid;
    times_tensor : CenteredGrid -> Tensor -> result CenteredGrid;
    at_ : CenteredGrid -> StaggeredGrid -> result StaggeredGrid;
    effect_applied : Effect -> CenteredGrid -> fl -> result CenteredGrid;
    effect_applied_v : Effect -> StaggeredGrid -> fl -> result StaggeredGrid;
    component_box : Box -> nat -> Box;
    (* divergence_free *)
    open_domain : StaggeredGrid -> Domain;
    geometry : Obstacle -> Geometry;
    union_mask : list Geometry -> option Geometry;
    mask_at_centers : Geometry -> StaggeredGrid -> result CenteredGrid;
    ones_active : Domain -> result CenteredGrid;
    accessible_of : Domain -> CenteredGrid -> CenteredGrid;
    divergence : StaggeredGrid -> result CenteredGrid;
    solve_pressure : CenteredGrid -> FluidDomain -> option Solver -> result (CenteredGrid * nat);
    dx0 : StaggeredGrid -> fl;
    gradient : CenteredGrid -> result StaggeredGrid;
    with_hard_boundary_conditions : FluidDomain -> StaggeredGrid -> result StaggeredGrid }.

Variable phi : PhiFlow.

(** [StaggeredGrid([a0, a1, ...], box)] *)
Definition staggered_of (arrays : list Np.ndarray) (b : Box) : StaggeredGrid :=
  mkStaggered (imap (fun i a => mkGrid a (component_box phi b i)) arrays) b.

(* --------------------------------------------------------------------- *)
(** *** The interpreter state: the object [fluid] refers to *)
(* --------------------------------------------------------------------- *)

(** A computation reads and writes the attributes of the input state object
    and returns a value or raises; what it wrote stays written when it
    raises. *)
Definition M (A : Type) : Type := SpFluid -> result A * SpFluid.

Definition ret {A : Type} (a : A) : M A := fun h => (inr a, h).

Definition raise {A : Type} (e : exn) : M A := fun h => (inl e, h).

Definition bind {A B : Type} (c : M A) (k : A -> M B) : M B :=
  fun h =>
    match c h with
    | (inl e, h') => (inl e, h')
    | (inr a, h') => k a h'
    end.

(** A pure computation that may raise. *)
Definition lift {A : Type} (r : result A) : M A := fun h => (r, h).

(** [fluid.attr] *)
Definition attr {A : Type} (f : SpFluid -> A) : M A := fun h => (inr (f h), h).

(** The object [h] with its attribute [solve_info] rebound to [info]. *)
Definition with_solve_info (h : SpFluid) (info : gmap string Info) : SpFluid :=
  mkFluid (domain h) (velocity h) (temperature h) (density h) (pressure h)
          (rd h) (Yf h) (Yo h) (Wt h) (Wkf h) (Wko h)
          (buoyancy_factor h) (amp h) (eq h) (tags h) (name h) (age h)
          info.

(** [fluid.solve_info = info] *)
Definition set_solve_info (info : gmap string Info) : M unit :=
  fun h => (inr tt, with_solve_info h info).

(** The struct fields of the object [h'] are those of [h]: only the
    attribute [solve_info] may differ. *)
Definition same_struct (h h' : SpFluid) : Prop :=
  h' = with_solve_info h (solve_info h').

(** A computation that, whatever its outcome, writes to [solve_info] only. *)
Definition preserves {A : Type} (c : M A) : Prop :=
  forall h r h', c h = (r, h') -> same_struct h h'.

End Solver.

Arguments CenteredGrid : clear implicits.
Arguments StaggeredGrid : clear implicits.
Arguments Info : clear implicits.
Arguments FluidDomain : clear implicits.
Arguments SpFluid : clear implicits.
Arguments PhiFlow : clear implicits.

Notation "x <- c ;; k" := (bind c (fun x => k))
  (at level 20, c at level 99, k at level 200, only parsing).
Notation "' p <- c ;; k" := (bind c (fun x => let 'p := x in k))
  (at level 20, p pattern, c at level 99, k at level 200, only parsing).
Notation "x <~ c ;; k" := (rbind c (fun x => k))
  (at level 20, c at level 99, k at level 200, only parsing).
Notation "' p <~ c ;; k" := (rbind c (fun x => let 'p := x in k))
  (at level 20, p pattern, c at level 99, k at level 200, only parsing).

(* ===================================================================== *)
(** ** The boundary policy, the projection and the step *)
(* ===================================================================== *)

Section Step.

Context {Domain Box Obstacle Geometry Gravity Tensor Solver Effect : Type}.

Abbreviation Grid := (CenteredGrid Box).
Abbreviation Staggered := (StaggeredGrid Box).
Abbreviation Fluid := (SpFluid Domain Box).
Abbreviation Library := (PhiFlow Domain Box Obstacle Geometry Gravity Tensor Solver Effect).

Variable phi : Library.

(** [divergence_free(velocity, density, domain, obstacles, pressure_solver,
    return_info)]: the projected velocity, with the info dict when
    [return_info] is set. *)
Definition divergence_free (velocity : Staggered) (density : Grid)
    (domain : option Domain) (obstacles : list Obstacle)
    (pressure_solver : option Solver) (return_info : bool)
  : result (Staggered * option (gmap string (Info Box))) :=
  let domain :=
    match domain with
    | None => open_domain phi velocity
    | Some d => d
    end in
  let obstacle_mask := union_mask phi (map (geometry phi) obstacles) in
  active_mask <~
    (match obstacle_mask with
     | Some m =>
         (obstacle_grid <~ mask_at_centers phi m velocity ;;
          inr (g_rsub one obstacle_grid))
     | None => ones_active phi domain
     end) ;;
  let accessible_mask := accessible_of phi domain active_mask in
  let fluiddomain := mkFluidDomain domain active_mask accessible_mask in
  (* --- Boundary Conditions, Pressure Solve --- *)
  density_v <~ at_ phi density velocity ;;
  rho_u <~ s_map2 Fl.mul velocity density_v ;;
  divergence_field <~ divergence phi rho_u ;;
  '(pressure_c, iterations) <~
    solve_pressure phi divergence_field fluiddomain pressure_solver ;;
  let pressure_c := g_scale pressure_c (dx0 phi velocity) in
  gradp <~ gradient phi pressure_c ;;
  density_v' <~ at_ phi density velocity ;;
  quotient <~ s_map2 Fl.div gradp density_v' ;;
  correction <~ with_hard_boundary_conditions phi fluiddomain quotient ;;
  velocity <~ s_map2 Fl.sub velocity correction ;;
  inr (velocity,
       if return_info then
         Some (<["pressure_c"%string := InfoGrid pressure_c]>
               (<["iterations"%string := @InfoCount Box iterations]>
               (<["divergence"%string := InfoGrid divergence_field]> ∅)))
       else None).

(** [VelocityBoundary_y(field, rd_array, res, rd_yk, equi_ratio)]: the pair
    [(velBCy, velBCyMask)]. *)
Definition VelocityBoundary_y (field : Staggered) (rd_array : Np.Array3)
    (res : Z) (rd_yk : Np.Array2) (equi_ratio : fl)
  : result (Np.ndarray * Np.ndarray) :=
  f0 <~ component field 0 ;;
  let vn := Np.zeros (Np.shape (data f0)) in
  v1 <~ Np.slab rd_array (Np.Range 0 1) (Np.Range 0 res) 0 ;;
  vn <~ Np.assign2 vn 0 (Np.Range 0 1) (Np.Range 0 res) 0
          (Np.map_2 (fun r => abs r * of_Z 4 + of_Z 6) v1) ;;
  v2 <~ Np.rod rd_array (Np.Range 0 1) (-1) 0 ;;
  vn <~ Np.assign1 vn 0 (Np.Range 0 1) (Np.Range res (res + 1)) 0
          (Np.map_1 (fun r => abs r * of_Z 4 + of_Z 6) v2) ;;
  let velBCy := vn in
  f0' <~ component field 0 ;;
  let vm := Np.ones (Np.shape (data f0')) in
  vm <~ Np.assign vm Np.All (Np.Range 0 1) Np.All (Np.At 0) zero ;;
  vm <~ Np.assign vm Np.All (Np.From (Z.quot res 4)) (Np.Range 0 1) (Np.At 0) zero ;;
  vm <~ Np.assign vm Np.All (Np.From (Z.quot res 4)) (Np.From (res - 1)) (Np.At 0) zero ;;
  let velBCyMask := vm in
  inr (velBCy, velBCyMask).

(** [VelocityBoundary_x(field)]: the pair [(velBCx, velBCxMask)]. *)
Definition VelocityBoundary_x (field : Staggered)
  : result (Np.ndarray * Np.ndarray) :=
  f1 <~ component field 1 ;;
  let vn := Np.ones (Np.shape (data f1)) in
  vn <~ Np.assign vn Np.All (Np.Range 0 1) Np.All (Np.At 0) zero ;;
  let velBCx := vn in
  let velBCxMask := vn in
  inr (velBCx, velBCxMask).

(** The state equation of the step:
    [(1.0 / 8.314) * pressure * (((Yf * (1 / Wf) + Yo * (1 / Wo)
      + (1 - Yf - Yo) * (1 / Wp)) * temperature) ** (-1))]. *)
Definition state_equation (pressure temperature Yf Yo : Grid) : Grid :=
  g_mul (g_lscale (one / dec 8314 1000) pressure)
        (g_pow_neg1
           (g_mul
              (g_add
                 (g_add (g_scale Yf (one / Wf constants))
                        (g_scale Yo (one / Wo constants)))
                 (g_scale (g_sub (g_rsub one Yf) Yo) (one / Wp constants)))
              temperature)).

(** [for effect in effects: field = effect_applied(effect, field, dt)] *)
Fixpoint apply_effects {F : Type} (apply : Effect -> F -> fl -> result F)
    (effects : list Effect) (field : F) (dt : fl) : result F :=
  match effects with
  | [] => inr field
  | effect :: rest =>
      field <~ apply effect field dt ;;
      apply_effects apply rest field dt
  end.

(** Local variables of [step] that are live after the pressure solve. *)
Record Projected : Type := mkProjected
  { p_temperature : Grid;
    p_pressure : Grid;
    p_Yf : Grid;
    p_Yo : Grid;
    p_wt : Grid;
    p_wkf : Grid;
    p_wko : Grid;
    p_Zf_max : fl;
    p_Zo_min : fl;
    p_rd_yk : Np.Array2;
    p_density : Grid;
    p_velocity : Staggered }.

(** Local variables of [step] that are live after the species transport. *)
Record Transported : Type := mkTransported
  { t_velocity : Staggered;
    t_temperature : Grid;
    t_density : Grid;
    t_pressure : Grid;
    t_Yf : Grid;
    t_Yo : Grid;
    t_wt : Grid;
    t_wkf : Grid;
    t_wko : Grid;
    t_Zf_max : fl;
    t_Zo_min : fl }.

(** [step], from its first line to the pressure solve. *)
Definition step_projection (pressure_solver : option Solver)
    (rd_array : Np.Array3) (res : Z) (dt : fl) (obstacles : list Obstacle)
    (gravity : Gravity) (density_effects velocity_effects : list Effect)
  : M Projected :=
  let diffusion_substeps := 1%nat in
  fluid_rank <- attr (fun fluid : Fluid => rank phi (domain fluid)) ;;
  gravity <- lift (gravity_tensor phi gravity fluid_rank) ;;
  velocity <- attr (@velocity Domain Box) ;;
  temperature <- attr (@temperature Domain Box) ;;
  pressure <- attr (@pressure Domain Box) ;;
  Yf <- attr (@Yf Domain Box) ;;
  Yo <- attr (@Yo Domain Box) ;;
  wt <- attr (@Wt Domain Box) ;;
  wkf <- attr (@Wkf Domain Box) ;;
  wko <- attr (@Wko Domain Box) ;;
  fluid_eq <- attr (@eq Domain Box) ;;
  let '(Zf_min, Zf_max, Zo_min, Zo_max) := get_min_max_zf_zo fluid_eq in
  rd_yk <- lift (normalized_roughness rd_array) ;;
  (* --- update density using state equation --- *)
  let density := state_equation pressure temperature Yf Yo in
  (* --- momentum equation : Advection and diffusion velocity --- *)
  velocity <- lift (semi_lagrangian_v phi velocity velocity dt) ;;
  velocity <- lift (diffuse_v phi velocity (dec 1 10 * dt) diffusion_substeps) ;;
  weight <- lift (times_tensor phi density gravity) ;;
  factor <- attr (@buoyancy_factor Domain Box) ;;
  force <- lift (at_ phi (g_scale (g_scale weight factor) dt) velocity) ;;
  velocity <- lift (s_map2 Fl.add velocity force) ;;
  (* --- Effects --- *)
  density <- lift (apply_effects (effect_applied phi) density_effects density dt) ;;
  velocity <- lift (apply_effects (effect_applied_v phi) velocity_effects velocity dt) ;;
  (* --- Pressure solve --- *)
  fluid_domain <- attr (@domain Domain Box) ;;
  r <- lift (divergence_free velocity density (Some fluid_domain) obstacles
               pressure_solver true) ;;
  match r with
  | (velocity, Some info) =>
      _ <- set_solve_info info ;;
      ret (mkProjected temperature pressure Yf Yo wt wkf wko Zf_max Zo_min
                       rd_yk density velocity)
  | (_, None) => raise TypeError
  end.

(** [step], from the velocity boundary conditions to the species
    transport. *)
Definition step_transport (rd_array : Np.Array3) (res : Z) (dt : fl)
    (p : Projected) : M Transported :=
  let diffusion_substeps := 1%nat in
  let velocity := p_velocity p in
  let density := p_density p in
  cx <- lift (component velocity 1) ;;
  cy <- lift (component velocity 0) ;;
  fluid_eq <- attr (@eq Domain Box) ;;
  '(velBCy, velBCyMask) <-
    lift (VelocityBoundary_y velocity rd_array res (p_rd_yk p) fluid_eq) ;;
  '(velBCx, velBCxMask) <- lift (VelocityBoundary_x velocity) ;;
  let cy := g_add_nd (g_mul_nd cy velBCyMask) velBCy in
  let cx := g_mul_nd cx velBCxMask in
  let velocity := staggered_of phi [data cy; data cx] (sbox velocity) in
  info <- attr (@solve_info Domain Box) ;;
  pressure <-
    (match info !! "pressure_c"%string with
     | Some (InfoGrid pressure_c) => ret (g_add (p_pressure p) pressure_c)
     | Some (InfoCount n) =>
         ret (g_map (fun x => x + of_Z (Z.of_nat n)) (p_pressure p))
     | None => raise TypeError
     end) ;;
  (* --- energy equation : Advection and diffusion temperature --- *)
  temperature <- lift (semi_lagrangian phi (p_temperature p) velocity dt) ;;
  temperature <- lift (diffuse phi temperature (dt * dec 1 10) diffusion_substeps) ;;
  let temperature :=
    g_sub temperature
          (g_mul (g_scale (p_wt p) dt)
                 (g_pow_neg1 (g_scale density (cp constants)))) in
  (* --- species transport --- *)
  Yf <- lift (semi_lagrangian phi (p_Yf p) velocity dt) ;;
  Yf <- lift (diffuse phi Yf (dec 1 10 * dt) diffusion_substeps) ;;
  let Yf := g_add Yf (g_mul (g_scale (p_wkf p) dt) (g_pow_neg1 density)) in
  Yo <- lift (semi_lagrangian phi (p_Yo p) velocity dt) ;;
  Yo <- lift (diffuse phi Yo (dec 1 10 * dt) diffusion_substeps) ;;
  let Yo := g_add Yo (g_mul (g_scale (p_wko p) dt) (g_pow_neg1 density)) in
  ret (mkTransported velocity temperature density pressure Yf Yo
                     (p_wt p) (p_wkf p) (p_wko p) (p_Zf_max p) (p_Zo_min p)).

(** [fluid.copied_with(velocity=..., temperature=..., density=...,
    pressure=..., Yf=..., Yo=..., Wt=..., Wkf=..., Wko=..., age=...)]: a copy
    of the object with these attributes replaced. *)
Definition copied_with (fluid : Fluid) (velocity : Staggered)
    (temperature density pressure Yf Yo Wt Wkf Wko : Grid) (age : fl) : Fluid :=
  mkFluid (domain fluid) velocity temperature density pressure (rd fluid)
          Yf Yo Wt Wkf Wko
          (buoyancy_factor fluid) (amp fluid) (eq fluid)
          (tags fluid) (name fluid) age (solve_info fluid).

(** [step], from the species and temperature boundary conditions to the
    returned state. *)
Definition step_boundary (res : Z) (dt : fl) (t : Transported) : M Fluid :=
  let Yf := t_Yf t in
  let Yo := t_Yo t in
  let temperature := t_temperature t in
  '(yf_mask, yf) <- lift (species_masks (Np.shape (data Yf)) (t_Zf_max t)) ;;
  '(yo_mask, yo) <- lift (species_masks (Np.shape (data Yo)) (t_Zo_min t)) ;;
  let Yf := mkGrid (masked (data Yf) yf_mask yf) (box Yf) in
  let Yo := mkGrid (masked (data Yo) yo_mask yo) (box Yo) in
  '(temp_mask, tempBC) <-
    lift (temperature_masks (Np.shape (data temperature)) res) ;;
  let temperature :=
    mkGrid (masked (data temperature) temp_mask tempBC) (box temperature) in
  fluid <- attr (fun fluid : Fluid => fluid) ;;
  ret (copied_with fluid (t_velocity t) temperature (t_density t)
                   (t_pressure t) Yf Yo (t_wt t) (t_wkf t) (t_wko t)
                   (age fluid + dt)).

(** [SpEnergy]: the physics object holds the pressure solver. *)
Record SpEnergy : Type := mkSpEnergy
  { pressure_solver : option Solver }.

(** [SpeciesEnergy = SpEnergy()] *)
Definition SpeciesEnergy : SpEnergy := mkSpEnergy None.

(** [SpEnergy.step(self, fluid, rd_array, res, dt, obstacles, gravity,
    density_effects, velocity_effects)]; the object [fluid] is the state of
    the computation. *)
Definition step (self : SpEnergy) (rd_array : Np.Array3) (res : Z) (dt : fl)
    (obstacles : list Obstacle) (gravity : Gravity)
    (density_effects velocity_effects : list Effect) : M Fluid :=
  p <- step_projection (pressure_solver self) rd_array res dt obstacles
         gravity density_effects velocity_effects ;;
  t <- step_transport rd_array res dt p ;;
  step_boundary res dt t.

End Step.

(* ===================================================================== *)
(** ** Libraries whose operators return *)
(* ===================================================================== *)

Section Returning.

Context {Domain Box Obstacle Geometry Gravity Tensor Solver Effect : Type}.

(** The layout of a staggered grid: the shapes of its components. *)
Definition layout (v : StaggeredGrid Box) : list Np.Shape :=
  map (fun c : CenteredGrid Box => Np.shape (data c)) (sdata v).

(** A library over a two-dimensional domain none of whose operators raises:
    transport, diffusion and effects keep the layout of a staggered grid,
    interpolation onto a staggered grid and the hard boundary conditions
    keep its number of components, the gradient has two components. *)
Record Returns
    (phi : PhiFlow Domain Box Obstacle Geometry Gravity Tensor Solver Effect)
  : Prop := mkReturns
  { gravity_tensor_returns :
      forall g n, exists t, gravity_tensor phi g n = inr t;
    semi_lagrangian_returns :
      forall g u dt, exists w, semi_lagrangian phi g u dt = inr w;
    semi_lagrangian_v_returns :
      forall v u dt, exists w,
        semi_lagrangian_v phi v u dt = inr w /\ layout w = layout v;
    diffuse_returns :
      forall g a n, exists w, diffuse phi g a n = inr w;
    diffuse_v_returns :
      forall v a n, exists w, diffuse_v phi v a n = inr w /\ layout w = layout v;
    times_tensor_returns :
      forall g t, exists w, times_tensor phi g t = inr w;
    at_returns :
      forall g v, exists w,
        at_ phi g v = inr w /\ length (sdata w) = length (sdata v);
    effect_applied_returns :
      forall e g dt, exists w, effect_applied phi e g dt = inr w;
    effect_applied_v_returns :
      forall e v dt, exists w,
        effect_applied_v phi e v dt = inr w /\ layout w = layout v;
    mask_at_centers_returns :
      forall m v, exists g, mask_at_centers phi m v = inr g;
    ones_active_returns :
      forall d, exists g, ones_active phi d = inr g;
    divergence_returns :
      forall v, exists g, divergence phi v = inr g;
    solve_pressure_returns :
      forall g fd s, exists r, solve_pressure phi g fd s = inr r;
    gradient_returns :
      forall g, exists w, gradient phi g = inr w /\ length (sdata w) = 2%nat;
    with_hard_boundary_conditions_returns :
      forall fd v, exists w,
        with_hard_boundary_conditions phi fd v = inr w
        /\ length (sdata w) = length (sdata v) }.

End Returning.

(* ===================================================================== *)
(** ** A small concrete library and concrete states *)
(* ===================================================================== *)

(** A stand-in for PhiFlow on which the step can be run: transport and
    diffusion leave a field as it is, interpolation samples the centered
    field at the same index, the pressure solve returns a zero pressure after
    no iteration.  Domains, boxes, obstacles, gravity, solvers and effects
    carry no information. *)
Module Still.

Definition G : Type := CenteredGrid unit.
Definition S : Type := StaggeredGrid unit.

Definition sample (g : G) (v : S) : S :=
  mkStaggered
    (map (fun c : G => mkGrid (Np.mkArray (Np.shape (data c)) (Np.item (data g))) tt)
         (sdata v))
    tt.

Definition cells_of (v : S) : Np.Shape :=
  match sdata v with
  | c :: _ =>
      Np.mkShape (Np.batch (Np.shape (data c))) (Np.rows (Np.shape (data c)) - 1)
                 (Np.cols (Np.shape (data c))) 1
  | [] => Np.mkShape 0 0 0 0
  end.

Definition faces_of (g : G) : S :=
  let s := Np.shape (data g) in
  mkStaggered
    [ mkGrid (Np.zeros (Np.mkShape (Np.batch s) (Np.rows s + 1) (Np.cols s) 1)) tt;
      mkGrid (Np.zeros (Np.mkShape (Np.batch s) (Np.rows s) (Np.cols s + 1) 1)) tt ]
    tt.

Definition phi : PhiFlow unit unit unit unit unit unit unit unit :=
  {| rank := fun _ => 2%nat;
     gravity_tensor := fun _ _ => inr tt;
     semi_lagrangian := fun g _ _ => inr g;
     semi_lagrangian_v := fun v _ _ => inr v;
     diffuse := fun g _ _ => inr g;
     diffuse_v := fun v _ _ => inr v;
     times_tensor := fun g _ => inr g;
     at_ := fun g v => inr (sample g v);
     effect_applied := fun _ g _ => inr g;
     effect_applied_v := fun _ v _ => inr v;
     component_box := fun b _ => b;
     open_domain := fun _ => tt;
     geometry := fun o => o;
     union_mask := fun _ => None;
     mask_at_centers := fun _ v => inr (mkGrid (Np.zeros (cells_of v)) tt);
     ones_active := fun _ => inr (mkGrid (Np.ones (Np.mkShape 0 0 0 0)) tt);
     accessible_of := fun _ g => g;
     divergence := fun v => inr (mkGrid (Np.zeros (cells_of v)) tt);
     solve_pressure := fun g _ _ => inr (mkGrid (Np.zeros (Np.shape (data g))) tt, 0%nat);
     dx0 := fun _ => one;
     gradient := fun g => inr (faces_of g);
     with_hard_boundary_conditions := fun _ v => inr v |}.

Definition uniform (s : Np.Shape) (v : fl) : G := mkGrid (Np.full s v) tt.

(** A staggered velocity at rest over [n] by [n] cells. *)
Definition at_rest (n : nat) : S :=
  mkStaggered [ uniform (Np.mkShape 1 (n + 1) n 1) zero;
                uniform (Np.mkShape 1 n (n + 1) 1) zero ] tt.

(** The uniform initial state: [T = 800], [Yf = 1], [Yo = 0],
    [pressure = p], velocity at rest, no buoyancy, [eq = 1], on [n] by [n]
    cells; [solve_info] is empty as [__init__] leaves it. *)
Definition initial (n : nat) (p : fl) : SpFluid unit unit :=
  let s := Np.mkShape 1 n n 1 in
  mkFluid tt (at_rest n) (uniform s (of_Z 800)) (uniform s zero)
          (uniform s p) (uniform s zero) (uniform s one) (uniform s zero)
          (uniform s zero) (uniform s zero) (uniform s zero)
          zero one one ["fluid"%string; "velocityfield"%string] "fluid"%string
          zero ∅.


(** A roughness array of 21 layers whose entry at [(l, r, c)] is [f l r c]. *)
Definition roughness (n : nat) (f : nat -> nat -> nat -> fl) : Np.Array3 :=
  Np.mkArray3 21 n n f.

(** Layer 20 grows along the rows and columns, the other layers are zero. *)
Definition ramp (l r c : nat) : fl :=
  if Nat.eqb l 20 then of_Z (Z.of_nat (r + c)) else zero.

Definition run (n : nat) (p : fl) (rd_array : Np.Array3) (res : Z) (dt : fl)
  : result (SpFluid unit unit) * SpFluid unit unit :=
  step phi (SpeciesEnergy (Solver := unit)) rd_array res dt [] tt [] []
       (initial n p).

(** Layer 0 is 5 everywhere, layer 20 is the ramp. *)
Definition steep (l r c : nat) : fl :=
  if Nat.eqb l 0 then of_Z 5 else ramp l r c.

(** Layer 0 is infinite, layer 20 is the ramp. *)
Definition torn (l r c : nat) : fl :=
  if Nat.eqb l 0 then PInf else ramp l r c.

(** Every layer is zero: slice 20 is constant. *)
Definition flat (l r c : nat) : fl := zero.

(** The pair a boundary function returned (two empty arrays when it
    raised). *)
Definition pair_of (r : result (Np.ndarray * Np.ndarray)) : Np.ndarray * Np.ndarray :=
  match r with
  | inr masks => masks
  | inl _ => (Np.zeros (Np.mkShape 0 0 0 0), Np.zeros (Np.mkShape 0 0 0 0))
  end.

(** The pair [(velBCy, velBCyMask)] for a velocity at rest over 2 by 2 cells
    and the roughness [f]. *)
Definition inflow (f : nat -> nat -> nat -> fl) : Np.ndarray * Np.ndarray :=
  pair_of (VelocityBoundary_y (at_rest 2) (roughness 2 f) 2
             (Np.mkArray2 0 0 (fun _ _ => zero)) one).

(** The pair [(velBCx, velBCxMask)] for a velocity at rest over 2 by 2
    cells. *)
Definition noslip : Np.ndarray * Np.ndarray :=
  pair_of (VelocityBoundary_x (at_rest 2)).

(** The y component of a velocity, an empty array when it has none. *)
Definition velocity_y (st : SpFluid unit unit) : Np.ndarray :=
  match component (velocity st) 0 with
  | inr c => data c
  | inl _ => Np.zeros (Np.mkShape 0 0 0 0)
  end.

(** The x component of a velocity, an empty array when it has none. *)
Definition velocity_x (st : SpFluid unit unit) : Np.ndarray :=
  match component (velocity st) 1 with
  | inr c => data c
  | inl _ => Np.zeros (Np.mkShape 0 0 0 0)
  end.

(** The state a run returned (the object itself when it raised). *)
Definition returned (r : result (SpFluid unit unit) * SpFluid unit unit)
  : SpFluid unit unit :=
  match fst r with
  | inr st => st
  | inl _ => snd r
  end.

(** The scenario of the specification: the uniform initial state on 32 by 32
    cells at atmospheric pressure, [dt = 0.01], no obstacle, no effect. *)
Definition scenario : result (SpFluid unit unit) * SpFluid unit unit :=
  run 32 (of_Z 101325) (roughness 32 ramp) 32 (dec 1 100).

(** The same on 2 by 2 cells with a pressure field that is zero. *)
Definition vacuum : result (SpFluid unit unit) * SpFluid unit unit :=
  run 2 zero (roughness 2 ramp) 2 (dec 1 100).


(** 2 by 2 cells at atmospheric pressure with the roughness [f] and the time
    step [dt]. *)
Definition small (f : nat -> nat -> nat -> fl) (dt : fl)
  : result (SpFluid unit unit) * SpFluid unit unit :=
  run 2 (of_Z 101325) (roughness 2 f) 2 dt.

End Still.

(* ===================================================================== *)
(** ** Storage in the dtype of a grid *)
(* ===================================================================== *)

Section Storage.

Context {Domain Box : Type}.

(** The struct variables ([temperature], [density], ..., [Wko]) hand each
    field given to [copied_with] to the library's [centered_grid] or
    [staggered_grid], which stores the array in the dtype of the grid
    (float32 in PhiFlow): [cast] is that conversion, applied to every
    entry. *)
Definition stored_grid (cast : fl -> fl) (g : CenteredGrid Box) : CenteredGrid Box :=
  g_map cast g.

Definition stored (cast : fl -> fl) (st : SpFluid Domain Box) : SpFluid Domain Box :=
  mkFluid (domain st)
          (mkStaggered (map (stored_grid cast) (sdata (velocity st)))
                       (sbox (velocity st)))
          (stored_grid cast (temperature st)) (stored_grid cast (density st))
          (stored_grid cast (pressure st)) (stored_grid cast (rd st))
          (stored_grid cast (Yf st)) (stored_grid cast (Yo st))
          (stored_grid cast (Wt st)) (stored_grid cast (Wkf st))
          (stored_grid cast (Wko st))
          (buoyancy_factor st) (amp st) (eq st) (tags st) (name st) (age st)
          (solve_info st).

End Storage.

(* ===================================================================== *)
(** ** IEEE 754 arithmetic of single source lines *)
(* ===================================================================== *)

(** Binary floating point as NumPy computes it: round to nearest, ties to
    even, overflow to an infinity, gradual underflow, signed zeros.  The
    operations are those of the specification of floats of the standard
    library ([SpecFloat]), for a format given by its precision and its
    largest exponent. *)
Module Ieee.

Import SpecFloat.

Record format : Type := mkFormat { prec : Z; emax : Z }.

Definition binary32 : format := mkFormat 24 128.
Definition binary64 : format := mkFormat 53 1024.

(** The formats of the fields: PhiFlow's grids are binary32, NumPy's default
    is binary64. *)
Definition supported (f : format) : Prop := f = binary32 \/ f = binary64.

Definition float : Type := spec_float.

Definition of_Z (n : Z) : float :=
  match n with
  | Z0 => S754_zero false
  | Zpos p => S754_finite false p 0
  | Zneg p => S754_finite true p 0
  end.

Definition add (f : format) : float -> float -> float := SFadd (prec f) (emax f).
Definition sub (f : format) : float -> float -> float := SFsub (prec f) (emax f).
Definition mul (f : format) : float -> float -> float := SFmul (prec f) (emax f).
Definition div (f : format) : float -> float -> float := SFdiv (prec f) (emax f).
Definition abs : float -> float := SFabs.
Definition one (f : format) : float := SFone (prec f) (emax f).

(** [x ** (-1)] *)
Definition pow_neg1 (f : format) (x : float) : float := div f (one f) x.

Definition is_inf (x : float) : bool :=
  match x with S754_infinity _ => true | _ => false end.

Definition is_nan (x : float) : bool :=
  match x with S754_nan => true | _ => false end.

Definition is_zero (x : float) : bool :=
  match x with S754_zero _ => true | _ => false end.

(** The sign bit: [true] for a negative float, [-0.0] included; [false] for
    a NaN. *)
Definition sign (x : float) : bool :=
  match x with
  | S754_zero s | S754_infinity s | S754_finite s _ _ => s
  | S754_nan => false
  end.

(** A float of the format: its mantissa fills the precision or its exponent
    is the least one. *)
Definition valid (f : format) (x : float) : bool :=
  valid_binary (prec f) (emax f) x.

(** A Python float literal: the decimal [n / d] correctly rounded to
    binary64. *)
Definition lit (q : Q) : float :=
  div binary64 (of_Z (Qnum q)) (of_Z (Zpos (Qden q))).

(** The conversion of a float to the format [f]; NumPy converts a Python
    scalar to the dtype of the array it meets. *)
Definition cast (f : format) (x : float) : float :=
  match x with
  | S754_finite s m e => binary_round (prec f) (emax f) s m e
  | _ => x
  end.

(** The number a float stands for; the sign of a zero is lost. *)
Definition value (x : float) : fl :=
  match x with
  | S754_zero _ => zero
  | S754_infinity false => PInf
  | S754_infinity true => NInf
  | S754_nan => NaN
  | S754_finite s m e =>
      Fin (Q2Qc (inject_Z (if s then Zneg m else Zpos m) * Qpower 2 e))
  end.

(** The float of the format [f] nearest to a number. *)
Definition nearest (f : format) (x : fl) : float :=
  match x with
  | Fin q => div f (of_Z (Qnum q)) (of_Z (Zpos (Qden q)))
  | PInf => S754_infinity false
  | NInf => S754_infinity true
  | NaN => S754_nan
  end.

(** The conversion to the dtype [f] as a map on numbers. *)
Definition rounded (f : format) (x : fl) : fl := value (nearest f x).

(** The constants of the module, as Python computes them in binary64. *)
Definition R_inverse : float := div binary64 (lit 1) (lit (8314 # 1000)).
Definition Wf_inverse : float := div binary64 (lit 1) (lit (16 # 1000)).
Definition Wo_inverse : float := div binary64 (lit 1) (lit (32 # 1000)).
Definition Wp_inverse : float := div binary64 (lit 1) (lit (62 # 1000)).

(** The state equation at one cell, in the dtype [f] of the fields:
    [(1.0 / 8.314) * pressure], the mixing term
    [Yf * (1 / Wf) + Yo * (1 / Wo) + (1 - Yf - Yo) * (1 / Wp)], and
    [(1.0 / 8.314) * pressure * ((mixing * temperature) ** (-1))]. *)
Definition prefactor (f : format) (pressure : float) : float :=
  mul f (cast f R_inverse) pressure.

Definition mixing (f : format) (Yf Yo : float) : float :=
  add f (add f (mul f Yf (cast f Wf_inverse)) (mul f Yo (cast f Wo_inverse)))
        (mul f (sub f (sub f (cast f (lit 1)) Yf) Yo) (cast f Wp_inverse)).

Definition density (f : format) (pressure temperature Yf Yo : float) : float :=
  mul f (prefactor f pressure)
        (pow_neg1 f (mul f (mixing f Yf Yo) temperature)).

(** [np.absolute(r) * 4 + 6], the inflow speed of [VelocityBoundary_y]. *)
Definition inflow (f : format) (r : float) : float :=
  add f (mul f (abs r) (cast f (lit 4))) (cast f (lit 6)).

(** The boundary updates at one cell: [c * mask + bc] and [c * mask]. *)
Definition masked (f : format) (c mask bc : float) : float :=
  add f (mul f c mask) bc.

Definition scaled (f : format) (c mask : float) : float := mul f c mask.

(** The roughness normalisation at one entry:
    [(r - np.min(rd_yk)) / (np.max(rd_yk) - np.min(rd_yk))]. *)
Definition normalised (f : format) (r lo hi : float) : float :=
  div f (sub f r lo) (sub f hi lo).

End Ieee.

(* ===================================================================== *)
(** ** Facts about the numbers *)
(* ===================================================================== *)

Unset Implicit Arguments.

Module FlFacts.

Local Open Scope Qc_scope.

Lemma eqb_eq (x y : fl) : Fl.eqb x y = true <-> x = y.
Proof.
  split.
  - destruct x as [a| | |], y as [b| | |]; simpl; try discriminate; auto.
    destruct (Qccompare a b) eqn:E; try discriminate.
    intros _. f_equal. now apply Qceq_alt.
  - intros ->. destruct y as [b| | |]; simpl; auto.
    assert (E : Qccompare b b = Eq) by now apply Qceq_alt.
    now rewrite E.
Qed.

Lemma eqb_neq (x y : fl) : Fl.eqb x y = false <-> x <> y.
Proof.
  split.
  - intros E H. apply eqb_eq in H. congruence.
  - intros H. destruct (Fl.eqb x y) eqn:E; auto.
    apply eqb_eq in E. contradiction.
Qed.

Lemma sgn_0 : sgn 0 = Eq.
Proof. reflexivity. Qed.

Lemma sgn_Eq (q : Qc) : sgn q = Eq <-> q = 0.
Proof. unfold sgn. symmetry. apply Qceq_alt. Qed.

Lemma sgn_Gt (q : Qc) : sgn q = Gt <-> 0 < q.
Proof. unfold sgn. symmetry. apply Qcgt_alt. Qed.

Lemma sgn_Lt (q : Qc) : sgn q = Lt <-> q < 0.
Proof. unfold sgn. symmetry. apply Qclt_alt. Qed.

(** A finite value times zero is zero; [NaN] and the infinities times zero
    are [NaN]. *)
Lemma mul_zero_finite (x : fl) : is_finite x = true -> (x * zero)%fl = zero.
Proof.
  destruct x as [a| | |]; try discriminate. intros _.
  unfold zero, of_Z. simpl. f_equal. apply Qcmult_0_r.
Qed.

Lemma mul_zero_other (x : fl) : is_finite x = false -> (x * zero)%fl = NaN.
Proof. destruct x; try discriminate; reflexivity. Qed.

Lemma mul_one (x : fl) : (x * one)%fl = x.
Proof.
  destruct x as [a| | |]; try reflexivity.
  unfold one, of_Z. simpl. f_equal. apply Qcmult_1_r.
Qed.

Lemma add_zero (x : fl) : (x + zero)%fl = x.
Proof.
  destruct x as [a| | |]; try reflexivity.
  unfold zero, of_Z. simpl. f_equal. apply Qcplus_0_r.
Qed.

Lemma zero_add (x : fl) : (zero + x)%fl = x.
Proof.
  destruct x as [a| | |]; try reflexivity.
  unfold zero, of_Z. simpl. f_equal. apply Qcplus_0_l.
Qed.

Lemma nan_add (x : fl) : (NaN + x)%fl = NaN.
Proof. now destruct x. Qed.

Lemma Qcinv_pos (w : Qc) : 0 < w -> 0 < / w.
Proof.
  unfold Qclt. intros H. change (0 < Qred (/ w))%Q.
  rewrite Qred_correct. now apply Qinv_lt_0_compat.
Qed.

Lemma Qcmult_pos (a b : Qc) : 0 < a -> 0 < b -> 0 < a * b.
Proof.
  unfold Qclt. intros Ha Hb. change (0 < Qred (a * b))%Q.
  rewrite Qred_correct. now apply Qmult_lt_0_compat.
Qed.

(** Multiplying by the inverse of a positive constant is dividing by it. *)
Lemma mul_inverse (x : fl) (w : Qc) :
  0 < w -> (x * (one / Fin w))%fl = (x / Fin w)%fl.
Proof.
  intros Hw. unfold one, of_Z. simpl.
  assert (Ew : sgn w = Gt) by now apply sgn_Gt.
  assert (Hi : sgn (Q2Qc (inject_Z 1) / w) = Gt).
  { apply sgn_Gt. unfold Qcdiv. rewrite Qcmult_1_l. now apply Qcinv_pos. }
  rewrite Ew.
  destruct x as [a| | |]; simpl; rewrite ?Ew, ?Hi; try reflexivity.
  f_equal. unfold Qcdiv. now rewrite Qcmult_1_l.
Qed.

End FlFacts.

(* ===================================================================== *)
(** ** Facts about slices and masks *)
(* ===================================================================== *)

Module NpFacts.

Import Np.

Lemma clip_range (n : nat) (i : Z) : (0 <= clip n i <= Z.of_nat n)%Z.
Proof. unfold clip. destruct (Z.ltb_spec i 0); lia. Qed.

Lemma sel_mem_iff (n : nat) (s : sel) (i : nat) :
  sel_mem n s i = true <-> (sel_lo n s <= Z.of_nat i < sel_hi n s)%Z.
Proof.
  unfold sel_mem. rewrite andb_true_iff, Z.leb_le, Z.ltb_lt. tauto.
Qed.

(** A selected index lies on the axis. *)
Lemma sel_mem_lt (n : nat) (s : sel) (i : nat) :
  sel_ok n s = true -> sel_mem n s i = true -> (i < n)%nat.
Proof.
  intros Hok Hm. apply sel_mem_iff in Hm.
  destruct s as [|a|a b|j]; simpl in *.
  - lia.
  - lia.
  - pose proof (clip_range n b). lia.
  - apply andb_true_iff in Hok. rewrite Z.leb_le, Z.ltb_lt in Hok. lia.
Qed.

Lemma sel_mem_All (n i : nat) : (i < n)%nat -> sel_mem n All i = true.
Proof. intros H. apply sel_mem_iff. simpl. lia. Qed.

(** [0:1] selects row 0 of a non-empty axis. *)
Lemma sel_mem_first (n i : nat) :
  (i < n)%nat -> sel_mem n (Range 0 1) i = Nat.eqb i 0.
Proof.
  intros H. destruct (Nat.eqb_spec i 0) as [->|Hne].
  - apply sel_mem_iff. simpl. unfold clip. simpl. lia.
  - apply not_true_is_false. rewrite sel_mem_iff. simpl. unfold clip. simpl. lia.
Qed.

Lemma sel_mem_first_inv (n i : nat) :
  sel_mem n (Range 0 1) i = true -> i = 0%nat /\ (0 < n)%nat.
Proof.
  rewrite sel_mem_iff. simpl. unfold clip. simpl. lia.
Qed.

Lemma sel_mem_At0 (n i : nat) :
  sel_mem n (At 0) i = true -> i = 0%nat.
Proof. rewrite sel_mem_iff. simpl. lia. Qed.

Lemma sel_mem_At0_zero (n : nat) : sel_mem n (At 0) 0 = true.
Proof. apply sel_mem_iff. simpl. lia. Qed.

Lemma sel_ok_At0 (n : nat) : sel_ok n (At 0) = true <-> (0 < n)%nat.
Proof.
  cbv [sel_ok sel_lo]. change (0 <? 0)%Z with false. cbv iota.
  rewrite andb_true_iff, Z.leb_le, Z.ltb_lt. lia.
Qed.

(** [(res-1):res] selects row [res - 1] when that row exists. *)
Lemma sel_mem_last (n : nat) (res : Z) (i : nat) :
  (1 <= res)%Z -> (i < n)%nat ->
  sel_mem n (Range (res - 1) res) i = (Z.of_nat i =? res - 1)%Z.
Proof.
  intros Hres Hi. destruct (Z.eqb_spec (Z.of_nat i) (res - 1)) as [E|E].
  - apply sel_mem_iff. simpl. unfold clip.
    destruct (Z.ltb_spec (res - 1) 0), (Z.ltb_spec res 0); lia.
  - apply not_true_is_false. rewrite sel_mem_iff. simpl. unfold clip.
    destruct (Z.ltb_spec (res - 1) 0), (Z.ltb_spec res 0); lia.
Qed.

(** [0:res] selects the columns below [res]. *)
Lemma sel_mem_below (n : nat) (res : Z) (i : nat) :
  (0 <= res)%Z -> (i < n)%nat ->
  sel_mem n (Range 0 res) i = (Z.of_nat i <? res)%Z.
Proof.
  intros Hres Hi. destruct (Z.ltb_spec (Z.of_nat i) res) as [E|E].
  - apply sel_mem_iff. simpl. unfold clip. simpl.
    destruct (Z.ltb_spec res 0); lia.
  - apply not_true_is_false. rewrite sel_mem_iff. simpl. unfold clip. simpl.
    destruct (Z.ltb_spec res 0); lia.
Qed.

(** [res:(res+1)] selects column [res] when that column exists. *)
Lemma sel_mem_next (n : nat) (res : Z) (i : nat) :
  (0 <= res)%Z -> (i < n)%nat ->
  sel_mem n (Range res (res + 1)) i = (Z.of_nat i =? res)%Z.
Proof.
  intros Hres Hi. destruct (Z.eqb_spec (Z.of_nat i) res) as [E|E].
  - apply sel_mem_iff. simpl. unfold clip.
    destruct (Z.ltb_spec res 0), (Z.ltb_spec (res + 1) 0); lia.
  - apply not_true_is_false. rewrite sel_mem_iff. simpl. unfold clip.
    destruct (Z.ltb_spec res 0), (Z.ltb_spec (res + 1) 0); lia.
Qed.

Lemma covers_inside (s : Shape) (s0 s1 s2 s3 : sel) (b y x k : nat) :
  subscript_ok s s0 s1 s2 s3 = true ->
  covers s s0 s1 s2 s3 b y x k = true -> inside s b y x k.
Proof.
  unfold subscript_ok, covers, inside. rewrite !andb_true_iff.
  intros [[[? ?] ?] ?] [[[? ?] ?] ?].
  repeat split; eapply sel_mem_lt; eauto.
Qed.

End NpFacts.

(* ===================================================================== *)
(** ** The computation monad *)
(* ===================================================================== *)

Section MonadFacts.

Context {Domain Box : Type}.

Abbreviation Heap := (SpFluid Domain Box).

Lemma rbind_inr {A B : Type} (r : result A) (k : A -> result B) (b : B) :
  rbind r k = inr b -> exists a, r = inr a /\ k a = inr b.
Proof. destruct r as [e|a]; simpl; [discriminate | eauto]. Qed.

Lemma bind_inr {A B : Type} (c : @M Domain Box A) (k : A -> @M Domain Box B)
    (h h' : Heap) (b : B) :
  bind c k h = (inr b, h') ->
  exists a h1, c h = (inr a, h1) /\ k a h1 = (inr b, h').
Proof.
  unfold bind. destruct (c h) as [[e|a] h1]; [discriminate | eauto].
Qed.

Lemma lift_inr {A : Type} (r : result A) (h h' : Heap) (a : A) :
  lift r h = (inr a, h') -> r = inr a /\ h' = h.
Proof. unfold lift. intros E. inversion E. auto. Qed.

Lemma attr_inr {A : Type} (f : Heap -> A) (h h' : Heap) (a : A) :
  attr f h = (inr a, h') -> a = f h /\ h' = h.
Proof. unfold attr. intros E. inversion E. auto. Qed.

Lemma ret_inr {A : Type} (a b : A) (h h' : Heap) :
  ret a h = (inr b, h') -> b = a /\ h' = h.
Proof. unfold ret. intros E. inversion E. auto. Qed.

Lemma same_struct_refl (h : Heap) : same_struct h h.
Proof. now destruct h. Qed.

Lemma same_struct_trans (h1 h2 h3 : Heap) :
  same_struct h1 h2 -> same_struct h2 h3 -> same_struct h1 h3.
Proof. unfold same_struct. intros E1 E2. rewrite E2 at 1. now rewrite E1. Qed.

Lemma preserves_ret {A : Type} (a : A) : preserves (ret (Domain := Domain) (Box := Box) a).
Proof. intros h r h' E. inversion E. apply same_struct_refl. Qed.

Lemma preserves_raise {A : Type} (e : exn) :
  preserves (raise (Domain := Domain) (Box := Box) (A := A) e).
Proof. intros h r h' E. inversion E. apply same_struct_refl. Qed.

Lemma preserves_lift {A : Type} (r : result A) :
  preserves (lift (Domain := Domain) (Box := Box) r).
Proof. intros h r' h' E. inversion E. apply same_struct_refl. Qed.

Lemma preserves_attr {A : Type} (f : Heap -> A) : preserves (attr f).
Proof. intros h r h' E. inversion E. apply same_struct_refl. Qed.

Lemma preserves_set_solve_info (info : gmap string (Info Box)) :
  preserves (set_solve_info (Domain := Domain) info).
Proof. intros h r h' E. inversion E. reflexivity. Qed.

Lemma preserves_bind {A B : Type} (c : @M Domain Box A) (k : A -> @M Domain Box B) :
  preserves c -> (forall a, preserves (k a)) -> preserves (bind c k).
Proof.
  intros Hc Hk h r h'. unfold bind.
  destruct (c h) as [[e|a] h1] eqn:E.
  - intros E'. inversion E'. subst. eapply Hc; eauto.
  - intros E'. eapply same_struct_trans; [eapply Hc | eapply Hk]; eauto.
Qed.

End MonadFacts.

Create HintDb frame.
#[export] Hint Resolve preserves_ret preserves_raise preserves_lift
  preserves_attr preserves_set_solve_info : frame.

(** Split a local variable that holds a tuple. *)
Ltac split_tuple H :=
  match type of H with
  | context [match ?x with pair _ _ => _ end] => is_var x; destruct x
  end.

(** Invert a computation that returned: one step per [bind]. *)
Ltac minv H :=
  repeat
    (cbv beta in H;
     first
       [ let a := fresh "a" in
         let h1 := fresh "h" in
         let E := fresh "E" in
         apply bind_inr in H; destruct H as (a & h1 & E & H);
         first
           [ apply lift_inr in E; destruct E as [E ->]
           | apply attr_inr in E; destruct E as [-> ->]
           | idtac ]
       | split_tuple H ]).

(** Replace the variables bound to attribute reads by the attributes. *)
Ltac reads :=
  repeat
    match goal with
    | E : inr _ = inr ?a |- _ => is_var a; injection E as E; subst a
    | E : (inr _, _) = (inr ?a, _) |- _ => is_var a; injection E as E; subst
    end.

(** Invert a pure computation that returned. *)
Ltac rinv H :=
  repeat
    (cbv beta in H;
     first
       [ let a := fresh "a" in
         let E := fresh "E" in
         apply rbind_inr in H; destruct H as (a & E & H)
       | split_tuple H ]).

(* ===================================================================== *)
(** ** The three parts of the step *)
(* ===================================================================== *)

Section StepFacts.

Context {Domain Box Obstacle Geometry Gravity Tensor Solver Effect : Type}.

Abbreviation Grid' := (CenteredGrid Box).
Abbreviation Staggered' := (StaggeredGrid Box).
Abbreviation Fluid' := (SpFluid Domain Box).

Variable phi : PhiFlow Domain Box Obstacle Geometry Gravity Tensor Solver Effect.

(** When the projection returns the info dict, it holds the pressure
    increment as a grid. *)
Lemma divergence_free_info (velocity : Staggered') (density : Grid')
    (domain : option Domain) (obstacles : list Obstacle)
    (solver : option Solver) (v : Staggered') (info : gmap string (Info Box)) :
  divergence_free phi velocity density domain obstacles solver true
    = inr (v, Some info) ->
  exists g, info !! "pressure_c"%string = Some (InfoGrid g).
Proof.
  unfold divergence_free. intros H. rinv H.
  inversion H; subst. eexists. apply lookup_insert_eq.
Qed.

(** What the first part of the step leaves in the local variables and in the
    object. *)
Lemma step_projection_inv (solver : option Solver) (rd_array : Np.Array3)
    (res : Z) (dt : fl) (obstacles : list Obstacle) (gravity : Gravity)
    (density_effects velocity_effects : list Effect)
    (h h' : Fluid') (p : Projected) :
  step_projection phi solver rd_array res dt obstacles gravity
    density_effects velocity_effects h = (inr p, h') ->
  p_temperature p = temperature h /\ p_pressure p = pressure h
  /\ p_Yf p = Yf h /\ p_Yo p = Yo h
  /\ p_wt p = Wt h /\ p_wkf p = Wkf h /\ p_wko p = Wko h
  /\ p_Zf_max p = snd (fst (fst (get_min_max_zf_zo (eq h))))
  /\ p_Zo_min p = snd (fst (get_min_max_zf_zo (eq h)))
  /\ normalized_roughness rd_array = inr (p_rd_yk p)
  /\ apply_effects (effect_applied phi) density_effects
       (state_equation (pressure h) (temperature h) (Yf h) (Yo h)) dt
     = inr (p_density p)
  /\ exists info g,
       h' = with_solve_info h info
       /\ info !! "pressure_c"%string = Some (InfoGrid g).
Proof.
  unfold step_projection. intros H. minv H. reads.
  match goal with
  | E : divergence_free _ _ _ _ _ _ _ = inr (_, ?o) |- _ => destruct o as [info|]
  end; [|discriminate].
  minv H. apply ret_inr in H. destruct H as [-> ->].
  match goal with
  | E : divergence_free _ _ _ _ _ _ _ = _ |- _ =>
      apply divergence_free_info in E; destruct E as [g Hg]
  end.
  cbn [p_temperature p_pressure p_Yf p_Yo p_wt p_wkf p_wko p_Zf_max p_Zo_min
       p_rd_yk p_density p_velocity].
  repeat split; eauto.
Qed.

(** The second part of the step does not write to the object; the velocity it
    leaves is the projected one under the two velocity boundary updates. *)
Lemma step_transport_inv (rd_array : Np.Array3) (res : Z) (dt : fl)
    (p : Projected) (h h' : Fluid') (t : Transported) :
  step_transport phi rd_array res dt p h = (inr t, h') ->
  h' = h
  /\ t_density t = p_density p
  /\ t_wt t = p_wt p /\ t_wkf t = p_wkf p /\ t_wko t = p_wko p
  /\ t_Zf_max t = p_Zf_max p /\ t_Zo_min t = p_Zo_min p
  /\ exists cx cy velBCy velBCyMask velBCx velBCxMask,
       component (p_velocity p) 1 = inr cx
       /\ component (p_velocity p) 0 = inr cy
       /\ VelocityBoundary_y (p_velocity p) rd_array res (p_rd_yk p) (eq h)
          = inr (velBCy, velBCyMask)
       /\ VelocityBoundary_x (p_velocity p) = inr (velBCx, velBCxMask)
       /\ t_velocity t
          = staggered_of phi
              [masked (data cy) velBCyMask velBCy;
               Np.map2 Fl.mul (data cx) velBCxMask]
              (sbox (p_velocity p)).
Proof.
  unfold step_transport. intros H. minv H. reads.
  apply ret_inr in H. destruct H as [-> ->].
  lazymatch goal with
  | E : context [match ?o with Some _ => _ | None => _ end] |- _ =>
      destruct o as [[?|?]|];
      [ | | discriminate E];
      apply ret_inr in E; destruct E as [-> ->]
  end.
  all: cbn [t_velocity t_temperature t_density t_pressure t_Yf t_Yo t_wt
            t_wkf t_wko t_Zf_max t_Zo_min].
  all: repeat split; try reflexivity.
  all: do 6 eexists; repeat split; eauto.
Qed.

End StepFacts.

(* ===================================================================== *)
(** ** The boundary policy *)
(* ===================================================================== *)

Section BoundaryFacts.

Import Np.

Lemma covers_bottom (s : Shape) (b x k : nat) :
  inside s b 0 x k -> covers s All (Range 0 1) All All b 0 x k = true.
Proof.
  intros (Hb & Hy & Hx & Hk). unfold covers.
  rewrite !NpFacts.sel_mem_All, NpFacts.sel_mem_first by assumption.
  reflexivity.
Qed.

Lemma covers_bottom_inv (s : Shape) (s0 s2 s3 : sel) (b y x k : nat) :
  covers s s0 (Range 0 1) s2 s3 b y x k = true -> y = 0%nat.
Proof.
  unfold covers. rewrite !andb_true_iff. intros [[[_ Hy] _] _].
  apply NpFacts.sel_mem_first_inv in Hy. tauto.
Qed.

Lemma covers_interior (s : Shape) (s0 s2 s3 : sel) (b y x k : nat) :
  y <> 0%nat -> covers s s0 (Range 0 1) s2 s3 b y x k = false.
Proof.
  intros Hy. apply not_true_is_false. intros H.
  apply covers_bottom_inv in H. contradiction.
Qed.

Lemma covers_top (s : Shape) (res : Z) (b y x k : nat) :
  (1 <= res)%Z -> inside s b y x k ->
  covers s All (Range (res - 1) res) All All b y x k
  = (Z.of_nat y =? res - 1)%Z.
Proof.
  intros Hres (Hb & Hy & Hx & Hk). unfold covers.
  rewrite !NpFacts.sel_mem_All, NpFacts.sel_mem_last by assumption.
  now rewrite !andb_true_r.
Qed.

(** The species masks: zero and [v] on the bottom row, one and zero
    elsewhere. *)
Lemma species_masks_inr (s : Shape) (v : fl) :
  exists mask bc,
    species_masks s v = inr (mask, bc)
    /\ shape mask = s /\ shape bc = s
    /\ forall b y x k,
         item mask b y x k
         = (if covers s All (Range 0 1) All All b y x k then zero else one)
         /\ item bc b y x k
            = (if covers s All (Range 0 1) All All b y x k then v else zero).
Proof. do 2 eexists. repeat split. Qed.

(** The temperature masks. *)
Lemma temperature_masks_inr (s : Shape) (res : Z) :
  exists mask bc,
    temperature_masks s res = inr (mask, bc)
    /\ shape mask = s /\ shape bc = s
    /\ forall b y x k,
         item mask b y x k
         = (if covers s All (Range (res - 1) res) All All b y x k then zero
            else if covers s All (Range 0 1) All All b y x k then zero
            else one)
         /\ item bc b y x k
            = (if covers s All (Range (res - 1) res) All All b y x k
               then of_Z 2000
               else if covers s All (Range 0 1) All All b y x k then of_Z 800
               else zero).
Proof. do 2 eexists. repeat split. Qed.

End BoundaryFacts.

Section VelocityFacts.

Import Np.

Context {Box : Type}.

(** [VelocityBoundary_x]: value and mask are one array, zero on the bottom
    row of component index 0 and one elsewhere. *)
Lemma VelocityBoundary_x_inr (field : StaggeredGrid Box) (velBCx velBCxMask : ndarray) :
  VelocityBoundary_x field = inr (velBCx, velBCxMask) ->
  exists f1,
    component field 1 = inr f1
    /\ (0 < comps (shape (data f1)))%nat
    /\ velBCx = velBCxMask
    /\ shape velBCxMask = shape (data f1)
    /\ forall b y x k,
         item velBCxMask b y x k
         = (if covers (shape (data f1)) All (Range 0 1) All (At 0) b y x k
            then zero else one).
Proof.
  unfold VelocityBoundary_x. intros H. rinv H.
  match goal with
  | E : assign _ _ _ _ _ _ = inr _ |- _ =>
      unfold assign, subscript_ok in E; cbn [shape ones full] in E;
      destruct (sel_ok (comps (shape (data a))) (At 0)) eqn:Ek;
      cbn [sel_ok andb] in E; [|discriminate E];
      injection E as <-
  end.
  injection H as <- <-.
  exists a. repeat split; auto.
  now apply NpFacts.sel_ok_At0.
Qed.

(** [VelocityBoundary_y]: the values come from layer 0 of [rd_array]; the
    mask is zero on the bottom row and on the two upper side walls. *)
Lemma VelocityBoundary_y_inr (field : StaggeredGrid Box) (rd_array : Array3)
    (res : Z) (rd_yk : Array2) (equi_ratio : fl) (velBCy velBCyMask : ndarray) :
  VelocityBoundary_y field rd_array res rd_yk equi_ratio
    = inr (velBCy, velBCyMask) ->
  exists f0 v1 v2,
    component field 0 = inr f0
    /\ slab rd_array (Range 0 1) (Range 0 res) 0 = inr v1
    /\ rod rd_array (Range 0 1) (-1) 0 = inr v2
    /\ subscript_ok (shape (data f0)) (At 0) (Range 0 1) All (At 0) = true
    /\ shape velBCy = shape (data f0)
    /\ shape velBCyMask = shape (data f0)
    /\ (forall b y x k,
          item velBCy b y x k
          = (if covers (shape (data f0)) (At 0) (Range 0 1)
                       (Range res (res + 1)) (At 0) b y x k
             then abs (item1 v2 (bidx (len1 v2)
                         (sel_off (cols (shape (data f0)))
                                  (Range res (res + 1)) x)))
                  * of_Z 4 + of_Z 6
             else if covers (shape (data f0)) (At 0) (Range 0 1)
                            (Range 0 res) (At 0) b y x k
             then abs (item2 v1
                         (bidx (rows2 v1)
                            (sel_off (rows (shape (data f0))) (Range 0 1) y))
                         (bidx (cols2 v1)
                            (sel_off (cols (shape (data f0))) (Range 0 res) x)))
                  * of_Z 4 + of_Z 6
             else zero))
    /\ (forall b y x k,
          item velBCyMask b y x k
          = (if covers (shape (data f0)) All (From (Z.quot res 4))
                       (From (res - 1)) (At 0) b y x k then zero
             else if covers (shape (data f0)) All (From (Z.quot res 4))
                            (Range 0 1) (At 0) b y x k then zero
             else if covers (shape (data f0)) All (Range 0 1) All (At 0) b y x k
             then zero
             else one)).
Proof.
  unfold VelocityBoundary_y. intros H. rinv H.
  injection H as <- <-.
  repeat match goal with
  | E : component field 0 = inr ?x, E' : component field 0 = inr ?y |- _ =>
      rewrite E in E'; injection E' as <-
  end.
  repeat match goal with
  | E : assign _ _ _ _ _ _ = inr _ |- _ =>
      unfold assign in E;
      match type of E with
      | (if ?c then _ else _) = _ => destruct c eqn:?; [|discriminate E]
      end;
      injection E as <-
  | E : assign2 _ _ _ _ _ _ = inr _ |- _ =>
      unfold assign2 in E; cbv zeta in E;
      match type of E with
      | (if ?c then _ else _) = _ => destruct c eqn:?; [|discriminate E]
      end;
      match type of E with
      | (if ?c then _ else _) = _ => destruct c eqn:?; [|discriminate E]
      end;
      injection E as <-
  | E : assign1 _ _ _ _ _ _ = inr _ |- _ =>
      unfold assign1 in E; cbv zeta in E;
      match type of E with
      | (if ?c then _ else _) = _ => destruct c eqn:?; [|discriminate E]
      end;
      match type of E with
      | (if ?c then _ else _) = _ => destruct c eqn:?; [|discriminate E]
      end;
      injection E as <-
  end.
  cbn [shape item zeros ones full map_2 map_1 item2 item1 rows2 cols2 len1] in *.
  do 3 eexists. repeat split; eauto.
Qed.

End VelocityFacts.

Section MaskedFacts.

Import Np.

(** Where the mask is one and the value zero the update keeps the field;
    where the mask is zero and the value is not infinite, a second update
    changes nothing. *)
Lemma masked_twice (c mask bc : ndarray) (b y x k : nat) :
  (item mask b y x k = one /\ item bc b y x k = zero)
  \/ (item mask b y x k = zero /\ is_inf (item bc b y x k) = false) ->
  item (masked (masked c mask bc) mask bc) b y x k
  = item (masked c mask bc) b y x k.
Proof.
  unfold masked. cbn [item map2].
  intros [[-> ->]|[-> Hbc]].
  - now rewrite !FlFacts.mul_one, !FlFacts.add_zero.
  - destruct (is_finite (item c b y x k)) eqn:Hc.
    + rewrite (FlFacts.mul_zero_finite _ Hc), FlFacts.zero_add.
      destruct (item bc b y x k) as [q| | |] eqn:Eb; try discriminate.
      * rewrite FlFacts.mul_zero_finite by reflexivity.
        now rewrite FlFacts.zero_add.
      * reflexivity.
    + rewrite (FlFacts.mul_zero_other _ Hc), !FlFacts.nan_add.
      reflexivity.
Qed.

Lemma scaled_twice (c mask : ndarray) (b y x k : nat) :
  item mask b y x k = one \/ item mask b y x k = zero ->
  item (map2 Fl.mul (map2 Fl.mul c mask) mask) b y x k
  = item (map2 Fl.mul c mask) b y x k.
Proof.
  cbn [item map2]. intros [-> | ->].
  - now rewrite !FlFacts.mul_one.
  - destruct (is_finite (item c b y x k)) eqn:Hc.
    + rewrite (FlFacts.mul_zero_finite _ Hc).
      now rewrite FlFacts.mul_zero_finite.
    + now rewrite (FlFacts.mul_zero_other _ Hc).
Qed.

(** On a masked cell the update writes the boundary value over a finite
    field value, and [NaN] over any other. *)
Lemma masked_fixed (c mask bc : ndarray) (b y x k : nat) :
  item mask b y x k = zero ->
  item (masked c mask bc) b y x k
  = (if is_finite (item c b y x k) then item bc b y x k else NaN).
Proof.
  unfold masked. cbn [item map2]. intros ->.
  destruct (is_finite (item c b y x k)) eqn:Hc.
  - now rewrite (FlFacts.mul_zero_finite _ Hc), FlFacts.zero_add.
  - now rewrite (FlFacts.mul_zero_other _ Hc), FlFacts.nan_add.
Qed.

Lemma masked_free (c mask bc : ndarray) (b y x k : nat) :
  item mask b y x k = one -> item bc b y x k = zero ->
  item (masked c mask bc) b y x k = item c b y x k.
Proof.
  unfold masked. cbn [item map2]. intros -> ->.
  now rewrite FlFacts.mul_one, FlFacts.add_zero.
Qed.

Lemma roughness_value_not_inf (r : fl) :
  is_inf r = false -> is_inf (abs r * of_Z 4 + of_Z 6)%fl = false.
Proof. destruct r; try discriminate; reflexivity. Qed.

Lemma covers_widen (s : Shape) (s1 s2 : sel) (b y x k : nat) :
  subscript_ok s (At 0) s1 s2 (At 0) = true ->
  covers s (At 0) s1 s2 (At 0) b y x k = true ->
  covers s All s1 All (At 0) b y x k = true.
Proof.
  unfold subscript_ok, covers. rewrite !andb_true_iff.
  intros [[[H0 H1] H2] H3] [[[M0 M1] M2] M3].
  repeat split; auto; apply NpFacts.sel_mem_All; eapply NpFacts.sel_mem_lt; eauto.
Qed.

Context {Box : Type}.

(** The y-velocity pair: off the masked cells the value is zero. *)
Lemma VelocityBoundary_y_pair (field : StaggeredGrid Box) (rd_array : Array3)
    (res : Z) (rd_yk : Array2) (equi_ratio : fl) (velBCy velBCyMask : ndarray) :
  VelocityBoundary_y field rd_array res rd_yk equi_ratio
    = inr (velBCy, velBCyMask) ->
  forall b y x k,
    (item velBCyMask b y x k = one /\ item velBCy b y x k = zero)
    \/ item velBCyMask b y x k = zero.
Proof.
  intros H b y x k.
  apply VelocityBoundary_y_inr in H.
  destruct H as (f0 & v1 & v2 & _ & _ & _ & Hok & _ & _ & Hv & Hm).
  rewrite Hm, Hv.
  set (s := shape (data f0)) in *.
  destruct (covers s All (From (res ÷ 4)) (From (res - 1)) (At 0) b y x k);
    [now right|].
  destruct (covers s All (From (res ÷ 4)) (Range 0 1) (At 0) b y x k);
    [now right|].
  destruct (covers s All (Range 0 1) All (At 0) b y x k) eqn:E1; [now right|].
  left. split; [reflexivity|].
  destruct (covers s (At 0) (Range 0 1) (Range res (res + 1)) (At 0) b y x k) eqn:E2.
  { apply covers_widen in E2; [congruence | exact Hok]. }
  destruct (covers s (At 0) (Range 0 1) (Range 0 res) (At 0) b y x k) eqn:E3.
  { apply covers_widen in E3; [congruence | exact Hok]. }
  reflexivity.
Qed.

(** The y-velocity values are not infinite unless the roughness is. *)
Lemma VelocityBoundary_y_not_inf (field : StaggeredGrid Box) (rd_array : Array3)
    (res : Z) (rd_yk : Array2) (equi_ratio : fl) (velBCy velBCyMask : ndarray) :
  VelocityBoundary_y field rd_array res rd_yk equi_ratio
    = inr (velBCy, velBCyMask) ->
  (forall l r c, is_inf (item3 rd_array l r c) = false) ->
  forall b y x k, is_inf (item velBCy b y x k) = false.
Proof.
  intros H Hrd b y x k.
  apply VelocityBoundary_y_inr in H.
  destruct H as (f0 & v1 & v2 & _ & Hv1 & Hv2 & _ & _ & _ & Hv & _).
  rewrite Hv.
  unfold slab in Hv1. unfold rod in Hv2.
  destruct (sel_ok (cols3 rd_array) (At 0)); [|discriminate].
  destruct (sel_ok (rows3 rd_array) (At (-1))); [|discriminate].
  cbn [andb] in Hv2. injection Hv1 as <-. injection Hv2 as <-.
  cbn [item1 item2 len1 rows2 cols2].
  repeat match goal with |- context [if ?c then _ else _] => destruct c end;
    try reflexivity; apply roughness_value_not_inf, Hrd.
Qed.

End MaskedFacts.

(** Prove that a computation writes to [solve_info] only. *)
Ltac frame :=
  repeat
    first
      [ solve [auto with frame]
      | apply preserves_bind; [ | intros ? ]
      | match goal with
        | |- preserves (match ?x with _ => _ end) => destruct x
        end ].

Section WholeStep.

Context {Domain Box Obstacle Geometry Gravity Tensor Solver Effect : Type}.

Variable phi : PhiFlow Domain Box Obstacle Geometry Gravity Tensor Solver Effect.

(** The last part of the step does not write to the object and always
    returns: the new state is the copy of the object with the masked scalar
    fields. *)
Lemma step_boundary_inv (res : Z) (dt : fl) (t : Transported)
    (h h' : SpFluid Domain Box) (r : result (SpFluid Domain Box)) :
  step_boundary res dt t h = (r, h') ->
  h' = h
  /\ exists yf_mask yf yo_mask yo temp_mask tempBC,
       species_masks (Np.shape (data (t_Yf t))) (t_Zf_max t) = inr (yf_mask, yf)
       /\ species_masks (Np.shape (data (t_Yo t))) (t_Zo_min t) = inr (yo_mask, yo)
       /\ temperature_masks (Np.shape (data (t_temperature t))) res
          = inr (temp_mask, tempBC)
       /\ r = inr (copied_with h (t_velocity t)
                     (mkGrid (masked (data (t_temperature t)) temp_mask tempBC)
                             (box (t_temperature t)))
                     (t_density t) (t_pressure t)
                     (mkGrid (masked (data (t_Yf t)) yf_mask yf) (box (t_Yf t)))
                     (mkGrid (masked (data (t_Yo t)) yo_mask yo) (box (t_Yo t)))
                     (t_wt t) (t_wkf t) (t_wko t) (age h + dt)).
Proof.
  intros H. cbv [step_boundary bind lift attr ret species_masks
                 temperature_masks rbind Np.assign Np.subscript_ok Np.sel_ok
                 andb] in H.
  inversion H; subst. split; [reflexivity|].
  do 6 eexists. repeat split.
Qed.

(** A step that returns went through its three parts. *)
Lemma step_inv (self : SpEnergy) (rd_array : Np.Array3) (res : Z) (dt : fl)
    (obstacles : list Obstacle) (gravity : Gravity)
    (density_effects velocity_effects : list Effect)
    (h h' : SpFluid Domain Box) (st' : SpFluid Domain Box) :
  step phi self rd_array res dt obstacles gravity density_effects
       velocity_effects h = (inr st', h') ->
  exists p h1 t,
    step_projection phi (pressure_solver self) rd_array res dt obstacles
      gravity density_effects velocity_effects h = (inr p, h1)
    /\ step_transport phi rd_array res dt p h1 = (inr t, h1)
    /\ step_boundary res dt t h1 = (inr st', h')
    /\ h' = h1.
Proof.
  unfold step. intros H.
  apply bind_inr in H. destruct H as (p & h1 & Ep & H).
  apply bind_inr in H. destruct H as (t & h2 & Et & H).
  pose proof Et as Et'. apply step_transport_inv in Et'. destruct Et' as [-> _].
  pose proof H as H'. apply step_boundary_inv in H'. destruct H' as [-> _].
  exists p, h1, t. auto.
Qed.

Lemma step_projection_preserves (solver : option Solver) (rd_array : Np.Array3)
    (res : Z) (dt : fl) (obstacles : list Obstacle) (gravity : Gravity)
    (density_effects velocity_effects : list Effect) :
  preserves (step_projection phi solver rd_array res dt obstacles gravity
               density_effects velocity_effects).
Proof. unfold step_projection. frame. Qed.

Lemma step_transport_preserves (rd_array : Np.Array3) (res : Z) (dt : fl)
    (p : Projected) :
  preserves (step_transport phi rd_array res dt p).
Proof. unfold step_transport. frame. Qed.

Lemma step_boundary_preserves (res : Z) (dt : fl) (t : Transported (Box := Box)) :
  preserves (step_boundary (Domain := Domain) res dt t).
Proof. unfold step_boundary. frame. Qed.

(** Whatever its outcome, the step writes to [solve_info] only. *)
Lemma step_preserves (self : SpEnergy) (rd_array : Np.Array3) (res : Z) (dt : fl)
    (obstacles : list Obstacle) (gravity : Gravity)
    (density_effects velocity_effects : list Effect) :
  preserves (step phi self rd_array res dt obstacles gravity density_effects
                  velocity_effects).
Proof.
  unfold step.
  apply preserves_bind; [apply step_projection_preserves | intros p].
  apply preserves_bind; [apply step_transport_preserves | intros t].
  apply step_boundary_preserves.
Qed.

End WholeStep.

(* ===================================================================== *)
(** ** The state equation *)
(* ===================================================================== *)

Section StateEquation.

Local Open Scope Qc_scope.

Lemma Qcmult_nonneg (a b : Qc) : 0 <= a -> 0 <= b -> 0 <= a * b.
Proof.
  unfold Qcle. intros Ha Hb. change (0 <= Qred (a * b))%Q.
  rewrite Qred_correct. now apply Qmult_le_0_compat.
Qed.

Lemma div_one_pos (w : Qc) : 0 < w -> (one / Fin w)%fl = Fin (/ w).
Proof.
  intros Hw. unfold one, of_Z. cbn [Fl.div].
  assert (Ew : sgn w = Gt) by now apply FlFacts.sgn_Gt.
  rewrite Ew. f_equal. unfold Qcdiv. apply Qcmult_1_l.
Qed.

(** The three inverse molar masses and the gas constant are positive. *)
Lemma Wf_pos : 0 < Q2Qc (16 # 1000).
Proof. reflexivity. Qed.
Lemma Wo_pos : 0 < Q2Qc (32 # 1000).
Proof. reflexivity. Qed.
Lemma Wp_pos : 0 < Q2Qc (62 # 1000).
Proof. reflexivity. Qed.
Lemma R_pos : 0 < Q2Qc (8314 # 1000).
Proof. reflexivity. Qed.

Context {Box : Type}.

(** The code's density at a cell is the specification's formula there. *)
Lemma state_equation_item (pressure temperature Yf Yo : CenteredGrid Box)
    (b y x k : nat) :
  Np.item (data (state_equation pressure temperature Yf Yo)) b y x k
  = ideal_gas_density (Np.item (data pressure) b y x k)
                      (Np.item (data temperature) b y x k)
                      (Np.item (data Yf) b y x k)
                      (Np.item (data Yo) b y x k).
Proof.
  unfold state_equation, ideal_gas_density.
  cbn [data Np.item g_mul g_map2 g_lscale g_map g_pow_neg1 g_add g_scale
       g_sub g_rsub Np.map1 Np.map2].
  change (Wf constants) with (Fin (Q2Qc (16 # 1000))).
  change (Wo constants) with (Fin (Q2Qc (32 # 1000))).
  change (Wp constants) with (Fin (Q2Qc (62 # 1000))).
  unfold dec.
  now rewrite (FlFacts.mul_inverse _ _ Wf_pos), (FlFacts.mul_inverse _ _ Wo_pos),
    (FlFacts.mul_inverse _ _ Wp_pos).
Qed.

(** The mixing term is at least [1 / Wp], the smallest inverse molar mass. *)
Lemma mixing_term_pos (f o : Qc) :
  0 <= f -> 0 <= o ->
  0 < f / Q2Qc (16 # 1000) + o / Q2Qc (32 # 1000)
      + (Q2Qc (inject_Z 1) + - f + - o) / Q2Qc (62 # 1000).
Proof.
  intros Hf Ho.
  set (A := / Q2Qc (16 # 1000)). set (B := / Q2Qc (32 # 1000)).
  set (C := / Q2Qc (62 # 1000)).
  assert (E : f / Q2Qc (16 # 1000) + o / Q2Qc (32 # 1000)
              + (Q2Qc (inject_Z 1) + - f + - o) / Q2Qc (62 # 1000)
              = C + (f * (A - C) + o * (B - C))).
  { unfold Qcdiv. fold A B C. change (Q2Qc (inject_Z 1)) with 1. ring. }
  rewrite E.
  apply Qcplus_pos_nonneg; [reflexivity|].
  apply Qcplus_nonneg_nonneg; apply Qcmult_nonneg; auto; discriminate.
Qed.

Lemma ideal_gas_density_pos (p t f o : Qc) :
  0 < p -> 0 < t -> 0 <= f -> 0 <= o ->
  exists d, ideal_gas_density (Fin p) (Fin t) (Fin f) (Fin o) = Fin d /\ 0 < d.
Proof.
  intros Hp Ht Hf Ho. unfold ideal_gas_density, dec, pow_neg1.
  pose proof (mixing_term_pos _ _ Hf Ho) as Hm.
  set (m := f / Q2Qc (16 # 1000) + o / Q2Qc (32 # 1000)
            + (Q2Qc (inject_Z 1) + - f + - o) / Q2Qc (62 # 1000)) in *.
  rewrite (div_one_pos _ R_pos).
  assert (E16 : sgn (Q2Qc (16 # 1000)) = Gt) by reflexivity.
  assert (E32 : sgn (Q2Qc (32 # 1000)) = Gt) by reflexivity.
  assert (E62 : sgn (Q2Qc (62 # 1000)) = Gt) by reflexivity.
  unfold one, of_Z. cbn [Fl.div Fl.sub Fl.add Fl.mul Fl.neg].
  rewrite E16, E32, E62. cbn [Fl.add Fl.mul]. fold m.
  assert (Hmt : 0 < m * t) by now apply FlFacts.Qcmult_pos.
  assert (Es : sgn (m * t) = Gt) by now apply FlFacts.sgn_Gt.
  rewrite Es. eexists. split; [reflexivity|].
  apply FlFacts.Qcmult_pos.
  - apply FlFacts.Qcmult_pos; [|exact Hp]. now apply FlFacts.Qcinv_pos.
  - unfold Qcdiv. rewrite Qcmult_1_l. now apply FlFacts.Qcinv_pos.
Qed.

End StateEquation.

(* ===================================================================== *)
(** ** The scalar and velocity boundary updates, cell by cell *)
(* ===================================================================== *)

Section UpdateFacts.

Import Np.

(** Species: the bottom row takes the boundary value over a finite
    transported value; the other rows are left as they are. *)
Lemma species_update_bottom (s : Shape) (v : fl) (mask bc c : ndarray)
    (b x k : nat) :
  species_masks s v = inr (mask, bc) ->
  inside s b 0 x k ->
  item (masked c mask bc) b 0 x k
  = (if is_finite (item c b 0 x k) then v else NaN).
Proof.
  intros H Hin.
  destruct (species_masks_inr s v) as (m' & bc' & E & _ & _ & Hit).
  rewrite E in H. injection H as <- <-.
  destruct (Hit b 0%nat x k) as [Hm Hb].
  rewrite (covers_bottom s b x k Hin) in Hm, Hb.
  rewrite (masked_fixed c m' bc' b 0 x k Hm), Hb. reflexivity.
Qed.

Lemma species_update_interior (s : Shape) (v : fl) (mask bc c : ndarray)
    (b y x k : nat) :
  species_masks s v = inr (mask, bc) ->
  y <> 0%nat ->
  item (masked c mask bc) b y x k = item c b y x k.
Proof.
  intros H Hy.
  destruct (species_masks_inr s v) as (m' & bc' & E & _ & _ & Hit).
  rewrite E in H. injection H as <- <-.
  destruct (Hit b y x k) as [Hm Hb].
  rewrite (covers_interior s All All All b y x k Hy) in Hm, Hb.
  now apply masked_free.
Qed.

Lemma species_pair (s : Shape) (v : fl) (mask bc : ndarray) :
  species_masks s v = inr (mask, bc) ->
  forall b y x k,
    (item mask b y x k = one /\ item bc b y x k = zero)
    \/ (item mask b y x k = zero /\ item bc b y x k = v).
Proof.
  intros H b y x k.
  destruct (species_masks_inr s v) as (m' & bc' & E & _ & _ & Hit).
  rewrite E in H. injection H as <- <-.
  destruct (Hit b y x k) as [-> ->].
  destruct (covers s All (Range 0 1) All All b y x k); auto.
Qed.

(** Temperature: with [res >= 2] rows [0] and [res - 1] differ; each takes
    its value over a finite transported value. *)
Lemma temperature_update_bottom (s : Shape) (res : Z) (mask bc c : ndarray)
    (b x k : nat) :
  temperature_masks s res = inr (mask, bc) ->
  (2 <= res)%Z ->
  inside s b 0 x k ->
  item (masked c mask bc) b 0 x k
  = (if is_finite (item c b 0 x k) then of_Z 800 else NaN).
Proof.
  intros H Hres Hin.
  destruct (temperature_masks_inr s res) as (m' & bc' & E & _ & _ & Hit).
  rewrite E in H. injection H as <- <-.
  destruct (Hit b 0%nat x k) as [Hm Hb].
  rewrite (covers_top s res b 0 x k) in Hm, Hb by (lia || assumption).
  rewrite (covers_bottom s b x k Hin) in Hm, Hb.
  destruct (Z.eqb_spec (Z.of_nat 0) (res - 1)) as [E0|_]; [simpl in E0; lia|].
  rewrite (masked_fixed c m' bc' b 0 x k Hm), Hb. reflexivity.
Qed.

Lemma temperature_update_top (s : Shape) (res : Z) (mask bc c : ndarray)
    (b y x k : nat) :
  temperature_masks s res = inr (mask, bc) ->
  (1 <= res)%Z ->
  inside s b y x k ->
  Z.of_nat y = (res - 1)%Z ->
  item (masked c mask bc) b y x k
  = (if is_finite (item c b y x k) then of_Z 2000 else NaN).
Proof.
  intros H Hres Hin Hy.
  destruct (temperature_masks_inr s res) as (m' & bc' & E & _ & _ & Hit).
  rewrite E in H. injection H as <- <-.
  destruct (Hit b y x k) as [Hm Hb].
  rewrite (covers_top s res b y x k Hres Hin) in Hm, Hb.
  apply Z.eqb_eq in Hy. rewrite Hy in Hm, Hb.
  rewrite (masked_fixed c m' bc' b y x k Hm), Hb. reflexivity.
Qed.

Lemma temperature_pair (s : Shape) (res : Z) (mask bc : ndarray) :
  temperature_masks s res = inr (mask, bc) ->
  forall b y x k,
    (item mask b y x k = one /\ item bc b y x k = zero)
    \/ (item mask b y x k = zero /\ is_inf (item bc b y x k) = false).
Proof.
  intros H b y x k.
  destruct (temperature_masks_inr s res) as (m' & bc' & E & _ & _ & Hit).
  rewrite E in H. injection H as <- <-.
  destruct (Hit b y x k) as [-> ->].
  destruct (covers s All (Range (res - 1) res) All All b y x k); auto.
  destruct (covers s All (Range 0 1) All All b y x k); auto.
Qed.

Context {Box : Type}.

(** x velocity: the bottom row of component index 0 is zero over a finite
    projected value. *)
Lemma velocity_x_update_bottom (field : StaggeredGrid Box) (f1 : CenteredGrid Box)
    (velBCx velBCxMask c : ndarray) (b x : nat) :
  VelocityBoundary_x field = inr (velBCx, velBCxMask) ->
  component field 1 = inr f1 ->
  (b < batch (shape (data f1)))%nat ->
  (0 < rows (shape (data f1)))%nat ->
  (x < cols (shape (data f1)))%nat ->
  item (map2 Fl.mul c velBCxMask) b 0 x 0
  = (if is_finite (item c b 0 x 0) then zero else NaN).
Proof.
  intros H Hf Hb Hy Hx.
  apply VelocityBoundary_x_inr in H.
  destruct H as (f1' & Hf' & Hk & _ & _ & Hit).
  rewrite Hf in Hf'. injection Hf' as <-.
  cbn [item map2]. rewrite Hit.
  assert (Hc : covers (shape (data f1)) All (Range 0 1) All (At 0) b 0 x 0 = true).
  { unfold covers.
    rewrite !NpFacts.sel_mem_All, NpFacts.sel_mem_first,
      NpFacts.sel_mem_At0_zero by assumption.
    reflexivity. }
  rewrite Hc.
  destruct (is_finite (item c b 0 x 0)) eqn:Hc'.
  - now apply FlFacts.mul_zero_finite.
  - now apply FlFacts.mul_zero_other.
Qed.

Lemma velocity_x_pair (field : StaggeredGrid Box) (velBCx velBCxMask : ndarray) :
  VelocityBoundary_x field = inr (velBCx, velBCxMask) ->
  forall b y x k,
    item velBCxMask b y x k = one \/ item velBCxMask b y x k = zero.
Proof.
  intros H b y x k.
  apply VelocityBoundary_x_inr in H.
  destruct H as (f1' & _ & _ & _ & _ & Hit).
  rewrite Hit. destruct (covers _ _ _ _ _ b y x k); auto.
Qed.

End UpdateFacts.

Section InflowFacts.

Import Np.

Lemma clip_zero (n : nat) : clip n 0 = 0%Z.
Proof. unfold clip. simpl. lia. Qed.

Lemma clip_nonneg (n : nat) (i : Z) : (0 <= i)%Z -> clip n i = Z.min i (Z.of_nat n).
Proof. intros H. unfold clip. destruct (Z.ltb_spec i 0); [lia | reflexivity]. Qed.

Lemma bidx_zero (v : nat) : bidx v 0 = 0%nat.
Proof. unfold bidx. now destruct (Nat.eqb v 1). Qed.

Lemma bidx_below (v o : nat) : (o < v)%nat -> bidx v o = o.
Proof.
  intros H. unfold bidx. destruct (Nat.eqb_spec v 1) as [->|]; [lia | reflexivity].
Qed.

Context {Box : Type}.

(** The bottom row of the y velocity, columns below [res]: the value is read
    from layer 0, column 0 of the raw roughness array, at the row of the same
    index as the column written. *)
Lemma velocity_y_update_inflow (field : StaggeredGrid Box) (f0 : CenteredGrid Box)
    (rd_array : Array3) (res : Z) (rd_yk : Array2) (equi_ratio : fl)
    (velBCy velBCyMask c : ndarray) (x : nat) :
  VelocityBoundary_y field rd_array res rd_yk equi_ratio
    = inr (velBCy, velBCyMask) ->
  component field 0 = inr f0 ->
  (0 < rows (shape (data f0)))%nat ->
  (x < cols (shape (data f0)))%nat ->
  (Z.of_nat x < res)%Z ->
  (x < rows3 rd_array)%nat ->
  item (masked c velBCyMask velBCy) 0 0 x 0
  = (if is_finite (item c 0 0 x 0)
     then abs (item3 rd_array 0 x 0) * of_Z 4 + of_Z 6 else NaN).
Proof.
  intros H Hf Hy Hx Hres Hrow.
  apply VelocityBoundary_y_inr in H.
  destruct H as (f0' & v1 & v2 & Hf' & Hv1 & Hv2 & Hok & _ & _ & Hv & Hm).
  rewrite Hf in Hf'. injection Hf' as <-.
  set (s := shape (data f0)) in *.
  assert (Hbk : (0 < batch s)%nat /\ (0 < comps s)%nat).
  { unfold subscript_ok in Hok. rewrite !andb_true_iff in Hok.
    destruct Hok as [[[Hb _] _] Hk].
    apply NpFacts.sel_ok_At0 in Hb, Hk. auto. }
  destruct Hbk as [Hb Hk].
  assert (C1 : covers s All (Range 0 1) All (At 0) 0 0 x 0 = true).
  { unfold covers.
    rewrite !NpFacts.sel_mem_All, NpFacts.sel_mem_first,
      NpFacts.sel_mem_At0_zero by assumption.
    reflexivity. }
  assert (Hmask : item velBCyMask 0 0 x 0 = zero).
  { rewrite Hm, C1.
    repeat match goal with |- context [if ?c then _ else _] => destruct c end;
      reflexivity. }
  rewrite (masked_fixed c velBCyMask velBCy 0 0 x 0 Hmask).
  destruct (is_finite (item c 0 0 x 0)); [|reflexivity].
  rewrite Hv.
  assert (C2 : covers s (At 0) (Range 0 1) (Range res (res + 1)) (At 0) 0 0 x 0
               = false).
  { unfold covers. rewrite (NpFacts.sel_mem_next (cols s) res x) by lia.
    destruct (Z.eqb_spec (Z.of_nat x) res); [lia|].
    now rewrite andb_false_r. }
  assert (C3 : covers s (At 0) (Range 0 1) (Range 0 res) (At 0) 0 0 x 0 = true).
  { unfold covers.
    rewrite NpFacts.sel_mem_first, (NpFacts.sel_mem_below (cols s) res x),
      !NpFacts.sel_mem_At0_zero by lia.
    destruct (Z.ltb_spec (Z.of_nat x) res); [reflexivity | lia]. }
  rewrite C2, C3.
  unfold slab in Hv1. destruct (sel_ok (cols3 rd_array) (At 0)); [|discriminate].
  injection Hv1 as <-. cbn [item2 rows2 cols2].
  unfold sel_off, sel_len, sel_at, sel_lo, sel_hi.
  rewrite !clip_zero, (clip_nonneg _ res) by lia.
  change (0 <? 0)%Z with false. cbv iota.
  rewrite !Z.sub_0_r, ?Nat2Z.id. change (Z.to_nat 0) with 0%nat.
  rewrite bidx_zero, bidx_below by lia.
  rewrite ?Nat2Z.id. reflexivity.
Qed.

(** The bottom row of the y velocity, column [res]: the value is read from
    layer 0, last row, column 0 of the raw roughness array. *)
Lemma velocity_y_update_corner (field : StaggeredGrid Box) (f0 : CenteredGrid Box)
    (rd_array : Array3) (res : Z) (rd_yk : Array2) (equi_ratio : fl)
    (velBCy velBCyMask c : ndarray) (x : nat) :
  VelocityBoundary_y field rd_array res rd_yk equi_ratio
    = inr (velBCy, velBCyMask) ->
  component field 0 = inr f0 ->
  (0 < rows (shape (data f0)))%nat ->
  (x < cols (shape (data f0)))%nat ->
  Z.of_nat x = res ->
  item (masked c velBCyMask velBCy) 0 0 x 0
  = (if is_finite (item c 0 0 x 0)
     then abs (item3 rd_array 0 (rows3 rd_array - 1) 0) * of_Z 4 + of_Z 6
     else NaN).
Proof.
  intros H Hf Hy Hx Hres.
  apply VelocityBoundary_y_inr in H.
  destruct H as (f0' & v1 & v2 & Hf' & Hv1 & Hv2 & Hok & _ & _ & Hv & Hm).
  rewrite Hf in Hf'. injection Hf' as <-.
  set (s := shape (data f0)) in *.
  assert (Hbk : (0 < batch s)%nat /\ (0 < comps s)%nat).
  { unfold subscript_ok in Hok. rewrite !andb_true_iff in Hok.
    destruct Hok as [[[Hb _] _] Hk].
    apply NpFacts.sel_ok_At0 in Hb, Hk. auto. }
  destruct Hbk as [Hb Hk].
  assert (C1 : covers s All (Range 0 1) All (At 0) 0 0 x 0 = true).
  { unfold covers.
    rewrite !NpFacts.sel_mem_All, NpFacts.sel_mem_first,
      NpFacts.sel_mem_At0_zero by assumption.
    reflexivity. }
  assert (Hmask : item velBCyMask 0 0 x 0 = zero).
  { rewrite Hm, C1.
    repeat match goal with |- context [if ?c then _ else _] => destruct c end;
      reflexivity. }
  rewrite (masked_fixed c velBCyMask velBCy 0 0 x 0 Hmask).
  destruct (is_finite (item c 0 0 x 0)); [|reflexivity].
  rewrite Hv.
  assert (C2 : covers s (At 0) (Range 0 1) (Range res (res + 1)) (At 0) 0 0 x 0
               = true).
  { unfold covers.
    rewrite NpFacts.sel_mem_first, (NpFacts.sel_mem_next (cols s) res x),
      !NpFacts.sel_mem_At0_zero by lia.
    destruct (Z.eqb_spec (Z.of_nat x) res); [reflexivity | lia]. }
  rewrite C2.
  unfold rod in Hv2.
  destruct (sel_ok (rows3 rd_array) (At (-1))) eqn:Er; [|discriminate].
  destruct (sel_ok (cols3 rd_array) (At 0)); [|discriminate].
  cbn [andb] in Hv2. injection Hv2 as <-. cbn [item1 len1].
  rewrite <- Hres.
  unfold sel_off, sel_len, sel_at, sel_lo, sel_hi.
  rewrite !clip_zero, (clip_nonneg _ (Z.of_nat x)) by lia.
  change (0 <? 0)%Z with false. change (-1 <? 0)%Z with true. cbv iota.
  replace (Z.of_nat x - Z.min (Z.of_nat x) (Z.of_nat (cols s)))%Z with 0%Z by lia.
  change (Z.to_nat 0) with 0%nat. rewrite bidx_zero.
  replace (Z.to_nat (-1 + Z.of_nat (rows3 rd_array)))
    with (rows3 rd_array - 1)%nat by lia.
  reflexivity.
Qed.

End InflowFacts.

(* ===================================================================== *)
(** ** The step returns when the library does *)
(* ===================================================================== *)

Section ReturnFacts.

Context {Domain Box Obstacle Geometry Gravity Tensor Solver Effect : Type}.

Variable phi : PhiFlow Domain Box Obstacle Geometry Gravity Tensor Solver Effect.

Hypothesis library_returns : Returns phi.

Lemma layout_length (v w : StaggeredGrid Box) :
  layout v = layout w -> length (sdata v) = length (sdata w).
Proof.
  unfold layout. intros E. apply (f_equal (@length _)) in E.
  now rewrite !length_map in E.
Qed.

Lemma zip_grids_inr (f : fl -> fl -> fl) (l m : list (CenteredGrid Box)) :
  length l = length m ->
  exists r,
    zip_grids f l m = inr r
    /\ map (fun c : CenteredGrid Box => Np.shape (data c)) r
       = map (fun c : CenteredGrid Box => Np.shape (data c)) l.
Proof.
  revert m. induction l as [|g l IH]; intros [|h m] Hlen; try discriminate.
  - exists []. auto.
  - injection Hlen as Hlen. destruct (IH m Hlen) as (r & Er & Hr).
    exists (g_map2 f g h :: r). cbn [zip_grids]. rewrite Er. cbn [rbind].
    split; [reflexivity|]. cbn [map]. now rewrite Hr.
Qed.

Lemma s_map2_inr (f : fl -> fl -> fl) (u v : StaggeredGrid Box) :
  length (sdata u) = length (sdata v) ->
  exists w, s_map2 f u v = inr w /\ layout w = layout u.
Proof.
  intros Hlen. destruct (zip_grids_inr f _ _ Hlen) as (r & Er & Hr).
  exists (mkStaggered r (sbox u)). unfold s_map2. rewrite Er. auto.
Qed.

Lemma apply_effects_inr (effects : list Effect) (g : CenteredGrid Box) (dt : fl) :
  exists w, apply_effects (effect_applied phi) effects g dt = inr w.
Proof.
  revert g. induction effects as [|e l IH]; intros g.
  - exists g. reflexivity.
  - destruct (effect_applied_returns library_returns e g dt) as (w & Ew).
    cbn [apply_effects]. rewrite Ew. apply IH.
Qed.

Lemma apply_effects_v_inr (effects : list Effect) (v : StaggeredGrid Box) (dt : fl) :
  exists w,
    apply_effects (effect_applied_v phi) effects v dt = inr w
    /\ layout w = layout v.
Proof.
  revert v. induction effects as [|e l IH]; intros v.
  - exists v. auto.
  - destruct (effect_applied_v_returns library_returns e v dt) as (w & Ew & Hw).
    cbn [apply_effects]. rewrite Ew. cbn [rbind].
    destruct (IH w) as (w' & Ew' & Hw'). exists w'. split; congruence.
Qed.

(** The projection returns the velocity in the layout it received and the
    info dict. *)
Lemma divergence_free_inr (velocity : StaggeredGrid Box) (density : CenteredGrid Box)
    (domain : option Domain) (obstacles : list Obstacle) (solver : option Solver) :
  length (sdata velocity) = 2%nat ->
  exists v info,
    divergence_free phi velocity density domain obstacles solver true
    = inr (v, Some info)
    /\ layout v = layout velocity.
Proof.
  intros H2. unfold divergence_free.
  set (d := match domain with Some d => d | None => open_domain phi velocity end).
  assert (Ha : exists a,
             match union_mask phi (map (geometry phi) obstacles) with
             | Some m =>
                 rbind (mask_at_centers phi m velocity)
                       (fun obstacle_grid => inr (g_rsub one obstacle_grid))
             | None => ones_active phi d
             end = inr a).
  { destruct (union_mask phi (map (geometry phi) obstacles)) as [m|].
    - destruct (mask_at_centers_returns library_returns m velocity) as (g & ->).
      eexists. reflexivity.
    - apply (ones_active_returns library_returns). }
  destruct Ha as (a & ->). cbn [rbind].
  destruct (at_returns library_returns density velocity) as (dv & -> & Hdv).
  cbn [rbind].
  destruct (s_map2_inr Fl.mul velocity dv) as (rho_u & -> & _); [congruence|].
  cbn [rbind].
  destruct (divergence_returns library_returns rho_u) as (dg & ->). cbn [rbind].
  destruct (solve_pressure_returns library_returns dg
              (mkFluidDomain d a (accessible_of phi d a)) solver)
    as ([pc it] & ->).
  cbn [rbind].
  destruct (gradient_returns library_returns (g_scale pc (dx0 phi velocity)))
    as (gp & -> & Hgp).
  cbn [rbind].
  destruct (s_map2_inr Fl.div gp dv) as (q & -> & Hq); [congruence|].
  cbn [rbind].
  destruct (with_hard_boundary_conditions_returns library_returns
              (mkFluidDomain d a (accessible_of phi d a)) q)
    as (corr & -> & Hcorr).
  cbn [rbind].
  apply layout_length in Hq.
  destruct (s_map2_inr Fl.sub velocity corr) as (v & -> & Hv); [congruence|].
  cbn [rbind]. do 2 eexists. split; [reflexivity | exact Hv].
Qed.

Lemma normalized_roughness_inr (rd_array : Np.Array3) :
  (21 <= Np.layers rd_array)%nat ->
  (0 < Np.rows3 rd_array)%nat ->
  (0 < Np.cols3 rd_array)%nat ->
  exists a, normalized_roughness rd_array = inr a.
Proof.
  intros HL HR HC. unfold normalized_roughness, Np.layer.
  assert (Hok : Np.sel_ok (Np.layers rd_array) (Np.At 20) = true).
  { cbv [Np.sel_ok Np.sel_lo]. change (20 <? 0)%Z with false. cbv iota.
    rewrite andb_true_iff, Z.leb_le, Z.ltb_lt. lia. }
  rewrite Hok. cbn [rbind].
  unfold Np.min, Np.max, Np.reduce, Np.entries. cbn [Np.rows2 Np.cols2 Np.item2].
  destruct (Np.rows3 rd_array) as [|r]; [lia|].
  destruct (Np.cols3 rd_array) as [|c]; [lia|].
  cbn [seq flat_map map app rbind]. eexists. reflexivity.
Qed.

Lemma subscript_ok_At0 (s : Np.Shape) (s1 s2 : Np.sel) :
  (0 < Np.batch s)%nat -> (0 < Np.comps s)%nat ->
  (forall n, Np.sel_ok n s1 = true) -> (forall n, Np.sel_ok n s2 = true) ->
  Np.subscript_ok s (Np.At 0) s1 s2 (Np.At 0) = true
  /\ Np.subscript_ok s Np.All s1 s2 (Np.At 0) = true.
Proof.
  intros Hb Hk H1 H2. unfold Np.subscript_ok.
  apply NpFacts.sel_ok_At0 in Hb, Hk. rewrite Hb, Hk, H1, H2. auto.
Qed.

Lemma sel_len_first (n : nat) : (1 <= n)%nat -> Np.sel_len n (Np.Range 0 1) = 1%nat.
Proof.
  intros H. unfold Np.sel_len, Np.sel_hi, Np.sel_lo, Np.clip.
  change (1 <? 0)%Z with false. change (0 <? 0)%Z with false. cbv iota. lia.
Qed.

Lemma broadcasts_one (t : nat) : Np.broadcasts 1 t = true.
Proof. unfold Np.broadcasts. cbn [Nat.eqb]. apply orb_true_r. Qed.




(** The first part of the step returns, keeps the layout of the velocity and
    leaves the pressure increment in [solve_info]. *)
Lemma step_projection_returns (solver : option Solver) (rd_array : Np.Array3)
    (res : Z) (dt : fl) (obstacles : list Obstacle) (gravity : Gravity)
    (density_effects velocity_effects : list Effect)
    (fluid : SpFluid Domain Box) :
  length (sdata (velocity fluid)) = 2%nat ->
  (21 <= Np.layers rd_array)%nat ->
  (0 < Np.rows3 rd_array)%nat -> (0 < Np.cols3 rd_array)%nat ->
  exists p h',
    step_projection phi solver rd_array res dt obstacles gravity
      density_effects velocity_effects fluid = (inr p, h')
    /\ layout (p_velocity p) = layout (velocity fluid)
    /\ exists g, solve_info h' !! "pressure_c"%string = Some (InfoGrid g).
Proof.
  intros H2 HL HR HC.
  unfold step_projection. cbv [bind lift attr].
  destruct (gravity_tensor_returns library_returns gravity
              (rank phi (domain fluid))) as (t & ->).
  unfold get_min_max_zf_zo. cbv beta iota zeta.
  destruct (normalized_roughness_inr rd_array HL HR HC) as (a & ->).
  destruct (semi_lagrangian_v_returns library_returns (velocity fluid)
              (velocity fluid) dt) as (v1 & -> & L1).
  destruct (diffuse_v_returns library_returns v1 (dec 1 10 * dt) 1)
    as (v2 & -> & L2).
  destruct (times_tensor_returns library_returns
              (state_equation (pressure fluid) (temperature fluid)
                 (Yf fluid) (Yo fluid)) t) as (w & ->).
  destruct (at_returns library_returns
              (g_scale (g_scale w (buoyancy_factor fluid)) dt) v2)
    as (force & -> & Lf).
  destruct (s_map2_inr Fl.add v2 force) as (v3 & -> & L3); [congruence|].
  destruct (apply_effects_inr density_effects
              (state_equation (pressure fluid) (temperature fluid)
                 (Yf fluid) (Yo fluid)) dt) as (d' & ->).
  destruct (apply_effects_v_inr velocity_effects v3 dt) as (v4 & -> & L4).
  assert (H4 : length (sdata v4) = 2%nat).
  { rewrite <- H2. apply layout_length. congruence. }
  destruct (divergence_free_inr v4 d' (Some (domain fluid)) obstacles solver H4)
    as (v5 & info & E5 & L5).
  rewrite E5. cbv [set_solve_info ret].
  pose proof E5 as E5'. apply divergence_free_info in E5'.
  destruct E5' as (g & Hg).
  do 2 eexists. split; [reflexivity|].
  cbn [p_velocity solve_info with_solve_info].
  split; [congruence | eauto].
Qed.



End ReturnFacts.

(* ===================================================================== *)
(** ** The roughness array: what the step reads of it *)
(* ===================================================================== *)

Section RoughnessFacts.

Import Np.








Context {Box : Type}.





End RoughnessFacts.

Section StepRoughness.

Context {Domain Box Obstacle Geometry Gravity Tensor Solver Effect : Type}.

Variable phi : PhiFlow Domain Box Obstacle Geometry Gravity Tensor Solver Effect.


End StepRoughness.

(** The stand-in library returns. *)
Lemma Still_returns : Returns Still.phi.
Proof.
  constructor; cbn; intros; eexists; try split; try reflexivity.
  unfold Still.sample. cbn. now rewrite length_map.
Qed.

(* ===================================================================== *)
(** ** Facts about IEEE arithmetic *)
(* ===================================================================== *)

Module IeeeFacts.

Import SpecFloat Ieee.

Lemma iter_pos_iter {A : Type} (f : A -> A) (n : positive) (x : A) :
  iter_pos f n x = Pos.iter f x n.
Proof.
  revert x. induction n as [n IH|n IH|]; intros x; cbn [iter_pos Pos.iter].
  - now rewrite !IH, !Pos.iter_swap.
  - now rewrite !IH.
  - reflexivity.
Qed.

(** Shifting right the bits a shift left added loses nothing. *)
Lemma shr_shl (k m : positive) :
  iter_pos shr_1 k
    {| shr_m := Zpos (Pos.iter xO m k); shr_r := false; shr_s := false |}
  = {| shr_m := Zpos m; shr_r := false; shr_s := false |}.
Proof.
  rewrite iter_pos_iter. revert m.
  induction k as [|k IH] using Pos.peano_ind; intros m; [reflexivity|].
  rewrite !Pos.iter_succ.
  rewrite <- (Pos.iter_swap k _ xO m), IH. reflexivity.
Qed.

Lemma digits_shl (k m : positive) :
  digits2_pos (Pos.iter xO m k) = (digits2_pos m + k)%positive.
Proof.
  induction k as [|k IH] using Pos.peano_ind.
  - cbn. now rewrite Pos.add_1_r.
  - rewrite Pos.iter_succ. cbn [digits2_pos]. rewrite IH. lia.
Qed.

Lemma mul_shl (k m : positive) :
  (m * Pos.iter xO 1%positive k)%positive = Pos.iter xO m k.
Proof.
  induction k as [|k IH] using Pos.peano_ind.
  - cbn. now rewrite Pos.mul_comm.
  - rewrite !Pos.iter_succ, Pos.mul_xO_r, IH. reflexivity.
Qed.

(** Rounding a mantissa that was shifted left by [k] bits gives the float
    back. *)
Lemma round_shl (prec emax : Z) (s : bool) (m : positive) (e : Z) (k : positive) :
  bounded prec emax m e = true ->
  binary_round_aux prec emax s (Zpos (Pos.iter xO m k)) (e - Zpos k) loc_Exact
  = S754_finite s m e.
Proof.
  unfold bounded, canonical_mantissa. rewrite andb_true_iff, Z.eqb_eq, Z.leb_le.
  intros [Hc He].
  unfold binary_round_aux, shr_fexp.
  cbn [Zdigits2 shr_record_of_loc]. rewrite digits_shl.
  replace (Zpos (digits2_pos m + k) + (e - Zpos k))%Z
    with (Zpos (digits2_pos m) + e)%Z by lia.
  rewrite Hc.
  replace (e - (e - Zpos k))%Z with (Zpos k) by lia.
  cbn [shr]. rewrite shr_shl.
  cbn [shr_m loc_of_shr_record round_nearest_even Zdigits2 shr_record_of_loc].
  replace (e - Zpos k + Zpos k)%Z with e by lia.
  rewrite Hc, Z.sub_diag. cbn [shr shr_m].
  apply Z.leb_le in He. now rewrite He.
Qed.

(** [x * 1.0 = x] for every float of the format. *)
Lemma mul_by_one (f : format) (x : float) :
  supported f -> valid f x = true -> mul f x (one f) = x.
Proof.
  intros Hf Hx.
  assert (H1 : exists k : positive,
             one f = S754_finite false (Pos.iter xO 1%positive k) (Zneg k)).
  { destruct Hf as [-> | ->]; [exists 23%positive | exists 52%positive];
      reflexivity. }
  destruct H1 as (k & E). rewrite E.
  destruct x as [s|s| |s m e]; try reflexivity.
  - cbn. now destruct s.
  - cbn. now destruct s.
  - unfold mul. cbn [SFmul]. rewrite mul_shl.
    replace (xorb s false) with s by now destruct s.
    change (e + Zneg k)%Z with (e - Zpos k)%Z.
    now apply round_shl.
Qed.

Lemma xorb_false (s : bool) : xorb s false = s.
Proof. now destruct s. Qed.

(** A free cell: the mask is 1 and the boundary value is [+0.0]. *)
Lemma masked_free_twice (f : format) (c : float) :
  supported f -> valid f c = true ->
  masked f (masked f c (one f) (S754_zero false)) (one f) (S754_zero false)
  = masked f c (one f) (S754_zero false).
Proof.
  intros Hf Hc. unfold masked. rewrite (mul_by_one f c Hf Hc).
  assert (Hv : valid f (add f c (S754_zero false)) = true
               /\ add f (add f c (S754_zero false)) (S754_zero false)
                  = add f c (S754_zero false)).
  { destruct c as [s|s| |s m e]; try (split; reflexivity).
    - destruct s; split; reflexivity.
    - split; [exact Hc | reflexivity]. }
  destruct Hv as [Hv E]. now rewrite (mul_by_one f _ Hf Hv).
Qed.

(** A fixed cell: the mask is [+0.0] and the boundary value is [v]. *)
Lemma masked_fixed_twice (f : format) (c v : float) :
  is_inf v = false ->
  masked f (masked f c (S754_zero false) v) (S754_zero false) v
  = masked f c (S754_zero false) v.
Proof.
  intros Hv. unfold masked, mul, add.
  destruct c as [sc|sc| |sc mc ec], v as [sv|sv| |sv mv ev];
    try discriminate Hv; try reflexivity;
    try (destruct sc, sv; reflexivity);
    try (destruct sc; reflexivity).
Qed.

Lemma masked_fixed_once (f : format) (c v : float) :
  masked f c (S754_zero false) v
  = match c with
    | S754_infinity _ | S754_nan => S754_nan
    | S754_zero s | S754_finite s _ _ =>
        match v with
        | S754_zero sv => S754_zero (s && sv)
        | _ => v
        end
    end.
Proof.
  unfold masked, mul, add.
  destruct c as [sc|sc| |sc mc ec], v as [sv|sv| |sv mv ev];
    try reflexivity; try (destruct sc, sv; reflexivity);
    try (destruct sc; reflexivity).
Qed.

(** The x velocity: [c * mask] with a mask of 1 or [+0.0]. *)
Lemma scaled_by_mask_twice (f : format) (c : float) :
  supported f -> valid f c = true ->
  scaled f (scaled f c (one f)) (one f) = scaled f c (one f)
  /\ scaled f (scaled f c (S754_zero false)) (S754_zero false)
     = scaled f c (S754_zero false).
Proof.
  intros Hf Hc. unfold scaled. split.
  - now rewrite !(mul_by_one f c Hf Hc).
  - unfold mul. destruct c as [sc|sc| |sc mc ec]; try reflexivity;
      destruct sc; reflexivity.
Qed.

End IeeeFacts.


Section DensityRange.

Local Open Scope Qc_scope.

Lemma Qcpos_neq (a : Qc) : 0 < a -> a <> 0.
Proof. intros H E. rewrite E in H. discriminate H. Qed.

Lemma Qcmult_le_both (a b c d : Qc) :
  0 <= a -> a <= b -> 0 <= c -> c <= d -> a * c <= b * d.
Proof.
  intros Ha Hab Hc Hcd.
  apply Qcle_trans with (b * c).
  - now apply Qcmult_le_compat_r.
  - rewrite (Qcmult_comm b c), (Qcmult_comm b d).
    apply Qcmult_le_compat_r; [exact Hcd|].
    now apply Qcle_trans with a.
Qed.

Lemma Qcinv_le (a b : Qc) : 0 < a -> a <= b -> / b <= / a.
Proof.
  intros Ha Hab.
  assert (Hb : 0 < b) by now apply Qclt_le_trans with a.
  assert (Hia : 0 < / a) by now apply FlFacts.Qcinv_pos.
  assert (Hib : 0 < / b) by now apply FlFacts.Qcinv_pos.
  replace (/ b) with (a * (/ a * / b))
    by (field; split; now apply Qcpos_neq).
  replace (/ a) with (b * (/ a * / b)) at 2
    by (field; split; now apply Qcpos_neq).
  apply Qcmult_le_compat_r; [exact Hab|].
  apply Qclt_le_weak. now apply FlFacts.Qcmult_pos.
Qed.

(** The mixing term lies between [1 / Wp] and [1 / Wf]. *)
Lemma mixing_term_range (f o : Qc) :
  0 <= f -> 0 <= o -> f + o <= 1 ->
  / Q2Qc (62 # 1000)
  <= f / Q2Qc (16 # 1000) + o / Q2Qc (32 # 1000)
     + (Q2Qc (inject_Z 1) + - f + - o) / Q2Qc (62 # 1000)
  <= / Q2Qc (16 # 1000).
Proof.
  intros Hf Ho Hsum.
  set (A := / Q2Qc (16 # 1000)). set (B := / Q2Qc (32 # 1000)).
  set (C := / Q2Qc (62 # 1000)).
  assert (E : f / Q2Qc (16 # 1000) + o / Q2Qc (32 # 1000)
              + (Q2Qc (inject_Z 1) + - f + - o) / Q2Qc (62 # 1000)
              = C + (f * (A - C) + o * (B - C))).
  { unfold Qcdiv. fold A B C. change (Q2Qc (inject_Z 1)) with 1. ring. }
  rewrite E. split.
  - rewrite <- (Qcplus_0_r C) at 1.
    apply Qcplus_le_compat; [apply Qcle_refl|].
    apply Qcplus_nonneg_nonneg; apply Qcmult_nonneg; auto; discriminate.
  - replace A with (C + (A - C)) at 2 by ring.
    apply Qcplus_le_compat; [apply Qcle_refl|].
    apply Qcle_trans with (f * (A - C) + o * (A - C)).
    + apply Qcplus_le_compat; [apply Qcle_refl|].
      rewrite (Qcmult_comm o (B - C)), (Qcmult_comm o (A - C)).
      apply Qcmult_le_compat_r; [discriminate | exact Ho].
    + rewrite <- Qcmult_plus_distr_l.
      rewrite <- (Qcmult_1_l (A - C)) at 2.
      apply Qcmult_le_compat_r; [exact Hsum | discriminate].
Qed.

(** The density of the state equation between bounds of the pressure and of
    the temperature. *)
Lemma ideal_gas_density_range (p t f o plo phi tlo thi : Qc) :
  0 < plo -> plo <= p -> p <= phi ->
  0 < tlo -> tlo <= t -> t <= thi ->
  0 <= f -> 0 <= o -> f + o <= 1 ->
  exists d,
    ideal_gas_density (Fin p) (Fin t) (Fin f) (Fin o) = Fin d
    /\ / Q2Qc (8314 # 1000) * plo * / (/ Q2Qc (16 # 1000) * thi) <= d
    /\ d <= / Q2Qc (8314 # 1000) * phi * / (/ Q2Qc (62 # 1000) * tlo).
Proof.
  intros Hplo Hp1 Hp2 Htlo Ht1 Ht2 Hf Ho Hsum.
  assert (Hp : 0 < p) by now apply Qclt_le_trans with plo.
  assert (Ht : 0 < t) by now apply Qclt_le_trans with tlo.
  assert (Hphi : 0 < phi) by now apply Qclt_le_trans with p.
  assert (Hthi : 0 < thi) by now apply Qclt_le_trans with t.
  unfold ideal_gas_density, dec, pow_neg1.
  pose proof (mixing_term_pos _ _ Hf Ho) as Hm.
  pose proof (mixing_term_range _ _ Hf Ho Hsum) as [Hm1 Hm2].
  set (m := f / Q2Qc (16 # 1000) + o / Q2Qc (32 # 1000)
            + (Q2Qc (inject_Z 1) + - f + - o) / Q2Qc (62 # 1000)) in *.
  rewrite (div_one_pos _ R_pos).
  assert (E16 : sgn (Q2Qc (16 # 1000)) = Gt) by reflexivity.
  assert (E32 : sgn (Q2Qc (32 # 1000)) = Gt) by reflexivity.
  assert (E62 : sgn (Q2Qc (62 # 1000)) = Gt) by reflexivity.
  unfold one, of_Z. cbn [Fl.div Fl.sub Fl.add Fl.mul Fl.neg].
  rewrite E16, E32, E62. cbn [Fl.add Fl.mul]. fold m.
  assert (Hmt : 0 < m * t) by now apply FlFacts.Qcmult_pos.
  assert (Es : sgn (m * t) = Gt) by now apply FlFacts.sgn_Gt.
  rewrite Es. eexists. split; [reflexivity|].
  unfold Qcdiv. rewrite Qcmult_1_l.
  assert (HR : 0 <= / Q2Qc (8314 # 1000)) by discriminate.
  assert (HA : 0 < / Q2Qc (16 # 1000)) by reflexivity.
  assert (HC : 0 < / Q2Qc (62 # 1000)) by reflexivity.
  split.
  - apply Qcmult_le_both.
    + apply Qcmult_nonneg; [exact HR | now apply Qclt_le_weak].
    + rewrite !(Qcmult_comm (/ Q2Qc (8314 # 1000))).
      now apply Qcmult_le_compat_r.
    + apply Qclt_le_weak, FlFacts.Qcinv_pos. now apply FlFacts.Qcmult_pos.
    + apply Qcinv_le; [exact Hmt|].
      apply Qcmult_le_both; auto using Qclt_le_weak.
  - apply Qcmult_le_both.
    + apply Qcmult_nonneg; [exact HR | now apply Qclt_le_weak].
    + rewrite !(Qcmult_comm (/ Q2Qc (8314 # 1000))).
      now apply Qcmult_le_compat_r.
    + apply Qclt_le_weak, FlFacts.Qcinv_pos. exact Hmt.
    + apply Qcinv_le; [now apply FlFacts.Qcmult_pos|].
      apply Qcmult_le_both; auto using Qclt_le_weak.
Qed.

End DensityRange.

(* ===================================================================== *)
(** ** The claims *)
(* ===================================================================== *)

Section Claims.

Context {Domain Box Obstacle Geometry Gravity Tensor Solver Effect : Type}.

Variable phi : PhiFlow Domain Box Obstacle Geometry Gravity Tensor Solver Effect.

(** C1.  When [density_effects] is empty, the density of the returned state is
    the state equation evaluated on the pressure, temperature, [Yf] and [Yo]
    of the input state, as they were when the step was called; at every
    cell it is the ideal-gas formula of the specification with the methane
    constants. *)
Theorem C1_density_from_input_state :
  forall (self : SpEnergy (Solver := Solver)) (rd_array : Np.Array3) (res : Z) (dt : fl)
         (obstacles : list Obstacle) (gravity : Gravity)
         (velocity_effects : list Effect)
         (fluid fluid' st' : SpFluid Domain Box),
    step phi self rd_array res dt obstacles gravity [] velocity_effects fluid
    = (inr st', fluid') ->
    density st'
    = state_equation (pressure fluid) (temperature fluid) (Yf fluid) (Yo fluid)
    /\ forall b y x k,
         Np.item (data (density st')) b y x k
         = ideal_gas_density (Np.item (data (pressure fluid)) b y x k)
                             (Np.item (data (temperature fluid)) b y x k)
                             (Np.item (data (Yf fluid)) b y x k)
                             (Np.item (data (Yo fluid)) b y x k).
Proof.
  intros self rd_array res dt obstacles gravity velocity_effects
         fluid fluid' st' H.
  apply step_inv in H. destruct H as (p & h1 & t & Hp & Ht & Hb & ->).
  apply step_projection_inv in Hp.
  destruct Hp as (_ & _ & _ & _ & _ & _ & _ & _ & _ & _ & Hd & _).
  apply step_transport_inv in Ht. destruct Ht as (_ & Hd' & _).
  apply step_boundary_inv in Hb.
  destruct Hb as (_ & ym & yb & om & ob & tm & tb & _ & _ & _ & Hst).
  injection Hst as ->. cbn [apply_effects] in Hd. injection Hd as Hd.
  cbn [density copied_with]. rewrite Hd', <- Hd.
  split; [reflexivity|]. intros b y x k. apply state_equation_item.
Qed.

(** C2 (amended).  The arrays [Yf.data * yf_mask + yf] and
    [Yo.data * yo_mask + yo] that the step hands to the new state hold
    [Zf_max] and [Zo_min], with the bounds of [get_min_max_zf_zo(fluid.eq)],
    at a cell of the bottom row when the value the species transport left
    there is finite, and [NaN] when that value is [NaN] or infinite.  The new
    state stores them in the dtype of its grids: for the conversion [cast]
    the struct applies on storage, the returned [Yf] holds [cast Zf_max] and
    the returned [Yo] holds [cast Zo_min] there, which is the bound itself
    only when the dtype represents it. *)
Theorem C2_species_bottom_row :
  forall (self : SpEnergy (Solver := Solver)) (rd_array : Np.Array3) (res : Z) (dt : fl)
         (obstacles : list Obstacle) (gravity : Gravity)
         (density_effects velocity_effects : list Effect)
         (fluid fluid' st' : SpFluid Domain Box),
    step phi self rd_array res dt obstacles gravity density_effects
         velocity_effects fluid = (inr st', fluid') ->
    let '(Zf_min, Zf_max, Zo_min, Zo_max) := get_min_max_zf_zo (eq fluid) in
    exists (p : Projected) (t : Transported)
           (yf_mask yf yo_mask yo : Np.ndarray),
      step_projection phi (pressure_solver self) rd_array res dt obstacles
        gravity density_effects velocity_effects fluid = (inr p, fluid')
      /\ step_transport phi rd_array res dt p fluid' = (inr t, fluid')
      /\ species_masks (Np.shape (data (t_Yf t))) Zf_max = inr (yf_mask, yf)
      /\ species_masks (Np.shape (data (t_Yo t))) Zo_min = inr (yo_mask, yo)
      /\ (forall b x k,
            Np.inside (Np.shape (data (t_Yf t))) b 0 x k ->
            Np.item (masked (data (t_Yf t)) yf_mask yf) b 0 x k
            = (if is_finite (Np.item (data (t_Yf t)) b 0 x k)
               then Zf_max else NaN))
      /\ (forall b x k,
            Np.inside (Np.shape (data (t_Yo t))) b 0 x k ->
            Np.item (masked (data (t_Yo t)) yo_mask yo) b 0 x k
            = (if is_finite (Np.item (data (t_Yo t)) b 0 x k)
               then Zo_min else NaN))
      /\ forall cast : fl -> fl,
           (forall b x k,
              Np.inside (Np.shape (data (t_Yf t))) b 0 x k ->
              Np.item (data (Yf (stored cast st'))) b 0 x k
              = (if is_finite (Np.item (data (t_Yf t)) b 0 x k)
                 then cast Zf_max else cast NaN))
           /\ (forall b x k,
                 Np.inside (Np.shape (data (t_Yo t))) b 0 x k ->
                 Np.item (data (Yo (stored cast st'))) b 0 x k
                 = (if is_finite (Np.item (data (t_Yo t)) b 0 x k)
                    then cast Zo_min else cast NaN)).
Proof.
  intros self rd_array res dt obstacles gravity density_effects
         velocity_effects fluid fluid' st' H.
  apply step_inv in H. destruct H as (p & h1 & t & Hp & Ht & Hb & ->).
  pose proof Hp as Hp'. apply step_projection_inv in Hp'.
  destruct Hp' as (_ & _ & _ & _ & _ & _ & _ & HZf & HZo & _).
  pose proof Ht as Ht'. apply step_transport_inv in Ht'.
  destruct Ht' as (_ & _ & _ & _ & _ & HZf' & HZo' & _).
  apply step_boundary_inv in Hb.
  destruct Hb as (_ & ym & yb & om & ob & tm & tb & My & Mo & _ & Hst).
  injection Hst as ->. cbv beta iota zeta.
  change ((get_min_max_zf_zo (eq fluid)).1.1.2)
    with (one / (one + of_Z 4 * dec 429 100 / dec 10 10)) in HZf.
  change ((get_min_max_zf_zo (eq fluid)).1.2)
    with (one - one / (one + of_Z 4 * dec 429 100 / dec 10 10)) in HZo.
  unfold get_min_max_zf_zo. cbv beta iota zeta.
  rewrite HZf' in My. rewrite HZo' in Mo. rewrite HZf in My. rewrite HZo in Mo.
  exists p, t, ym, yb, om, ob.
  split; [exact Hp|]. split; [exact Ht|].
  split; [exact My|]. split; [exact Mo|].
  assert (HF : forall b x k,
             Np.inside (Np.shape (data (t_Yf t))) b 0 x k ->
             Np.item (masked (data (t_Yf t)) ym yb) b 0 x k
             = (if is_finite (Np.item (data (t_Yf t)) b 0 x k)
                then one / (one + of_Z 4 * dec 429 100 / dec 10 10) else NaN)).
  { intros b x k Hin. exact (species_update_bottom _ _ _ _ _ b x k My Hin). }
  assert (HO : forall b x k,
             Np.inside (Np.shape (data (t_Yo t))) b 0 x k ->
             Np.item (masked (data (t_Yo t)) om ob) b 0 x k
             = (if is_finite (Np.item (data (t_Yo t)) b 0 x k)
                then one - one / (one + of_Z 4 * dec 429 100 / dec 10 10)
                else NaN)).
  { intros b x k Hin. exact (species_update_bottom _ _ _ _ _ b x k Mo Hin). }
  split; [exact HF|]. split; [exact HO|].
  intros cast.
  cbn [stored stored_grid g_map Yf Yo copied_with data Np.map1 Np.item].
  split; intros b x k Hin.
  - rewrite (HF b x k Hin). now destruct (is_finite _).
  - rewrite (HO b x k Hin). now destruct (is_finite _).
Qed.

(** C3 (amended).  For [res >= 2], in the returned state the temperature at a
    cell of the bottom row is 800, at a cell of row [res - 1] it is 2000, and
    the x velocity at a location of its bottom row (component index 0) is 0,
    when the value the transport, or the pressure solve, left there is
    finite; when that value is [NaN] or infinite the returned value is
    [NaN]. *)
Theorem C3_dirichlet_rows :
  forall (self : SpEnergy (Solver := Solver)) (rd_array : Np.Array3) (res : Z) (dt : fl)
         (obstacles : list Obstacle) (gravity : Gravity)
         (density_effects velocity_effects : list Effect)
         (fluid fluid' st' : SpFluid Domain Box),
    step phi self rd_array res dt obstacles gravity density_effects
         velocity_effects fluid = (inr st', fluid') ->
    (2 <= res)%Z ->
    exists (p : Projected) (t : Transported) (cx cx' : CenteredGrid Box),
      step_projection phi (pressure_solver self) rd_array res dt obstacles
        gravity density_effects velocity_effects fluid = (inr p, fluid')
      /\ step_transport phi rd_array res dt p fluid' = (inr t, fluid')
      /\ component (p_velocity p) 1 = inr cx
      /\ component (velocity st') 1 = inr cx'
      /\ (forall b x k,
            Np.inside (Np.shape (data (t_temperature t))) b 0 x k ->
            Np.item (data (temperature st')) b 0 x k
            = (if is_finite (Np.item (data (t_temperature t)) b 0 x k)
               then of_Z 800 else NaN))
      /\ (forall b y x k,
            Np.inside (Np.shape (data (t_temperature t))) b y x k ->
            Z.of_nat y = (res - 1)%Z ->
            Np.item (data (temperature st')) b y x k
            = (if is_finite (Np.item (data (t_temperature t)) b y x k)
               then of_Z 2000 else NaN))
      /\ (forall b x,
            (b < Np.batch (Np.shape (data cx)))%nat ->
            (0 < Np.rows (Np.shape (data cx)))%nat ->
            (x < Np.cols (Np.shape (data cx)))%nat ->
            Np.item (data cx') b 0 x 0
            = (if is_finite (Np.item (data cx) b 0 x 0) then zero else NaN)).
Proof.
  intros self rd_array res dt obstacles gravity density_effects
         velocity_effects fluid fluid' st' H Hres.
  apply step_inv in H. destruct H as (p & h1 & t & Hp & Ht & Hb & ->).
  pose proof Ht as Ht'. apply step_transport_inv in Ht'.
  destruct Ht' as (_ & _ & _ & _ & _ & _ & _ & cx & cy & velBCy & mY & velBCx
                   & mX & Hcx & Hcy & HVy & HVx & Hvel).
  apply step_boundary_inv in Hb.
  destruct Hb as (_ & ym & yb & om & ob & tm & tb & _ & _ & Mt & Hst).
  injection Hst as ->.
  exists p, t, cx,
    (mkGrid (Np.map2 Fl.mul (data cx) mX) (component_box phi (sbox (p_velocity p)) 1)).
  split; [exact Hp|]. split; [exact Ht|]. split; [exact Hcx|].
  cbn [velocity temperature copied_with data]. rewrite Hvel.
  split; [reflexivity|].
  split; [|split].
  - intros b x k Hin.
    exact (temperature_update_bottom _ _ _ _ _ b x k Mt Hres Hin).
  - intros b y x k Hin Hy.
    refine (temperature_update_top _ _ _ _ _ b y x k Mt _ Hin Hy). lia.
  - intros b x Hb Hy Hx.
    exact (velocity_x_update_bottom _ _ _ _ _ b x HVx Hcx Hb Hy Hx).
Qed.

(** C4.  [get_min_max_zf_zo] returns one tuple whatever its argument:
    [Zf_min = 1/(1 + 4*4.29/0.8)], [Zf_max = 1/(1 + 4*4.29/1.0)],
    [Zo_min = 1 - Zf_max], [Zo_max = 1 - Zf_min], that is
    [(20/449, 25/454, 429/454, 429/449)]. *)
Theorem C4_mixture_bounds_constant :
  forall eq1 eq2 : fl,
    get_min_max_zf_zo eq1 = get_min_max_zf_zo eq2
    /\ get_min_max_zf_zo eq1
       = (one / (one + of_Z 4 * dec 429 100 / dec 8 10),
          one / (one + of_Z 4 * dec 429 100 / dec 10 10),
          one - one / (one + of_Z 4 * dec 429 100 / dec 10 10),
          one - one / (one + of_Z 4 * dec 429 100 / dec 8 10))
    /\ get_min_max_zf_zo eq1
       = (dec 20 449, dec 25 454, dec 429 454, dec 429 449).
Proof.
  intros eq1 eq2. split; [reflexivity|]. split; [reflexivity|].
  unfold get_min_max_zf_zo.
  repeat apply f_equal2; apply FlFacts.eqb_eq; vm_compute; reflexivity.
Qed.

(** C5 (amended).  At a cell where the pressure and the temperature lie
    between 1e-10 and 1e10 and [Yf], [Yo] lie in [0, 1] with [Yf + Yo <= 1],
    the density computed by the state equation is a finite, strictly
    positive number, between 1e-23 and 1e18: with the mixing term between
    [1 / Wp] and [1 / Wf], every intermediate value stays well inside the
    range of binary32 and of binary64.  Without a bound on the pressure and
    the temperature the claim fails in floating point, where the quotient
    overflows to [inf] or underflows to zero. *)
Theorem C5_density_positive_finite :
  forall (pressure temperature Yf Yo : CenteredGrid Box) (b y x k : nat)
         (p t f o : Qc),
    Np.item (data pressure) b y x k = Fin p ->
    Np.item (data temperature) b y x k = Fin t ->
    Np.item (data Yf) b y x k = Fin f ->
    Np.item (data Yo) b y x k = Fin o ->
    (Q2Qc (1 # 10000000000) <= p)%Qc -> (p <= Q2Qc (inject_Z 10000000000))%Qc ->
    (Q2Qc (1 # 10000000000) <= t)%Qc -> (t <= Q2Qc (inject_Z 10000000000))%Qc ->
    (0 <= f)%Qc -> (f <= 1)%Qc -> (0 <= o)%Qc -> (o <= 1)%Qc ->
    (f + o <= 1)%Qc ->
    exists d : Qc,
      Np.item (data (state_equation pressure temperature Yf Yo)) b y x k = Fin d
      /\ (Q2Qc (1 # 100000000000000000000000) <= d)%Qc
      /\ (d <= Q2Qc (inject_Z 1000000000000000000))%Qc
      /\ (0 < d)%Qc
      /\ is_finite (Np.item (data (state_equation pressure temperature Yf Yo))
                             b y x k) = true.
Proof.
  intros pressure temperature Yf Yo b y x k p t f o Ep Et Ef Eo
         Hp1 Hp2 Ht1 Ht2 Hf0 Hf1 Ho0 Ho1 Hsum.
  rewrite state_equation_item, Ep, Et, Ef, Eo.
  destruct (ideal_gas_density_range p t f o
              (Q2Qc (1 # 10000000000)) (Q2Qc (inject_Z 10000000000))
              (Q2Qc (1 # 10000000000)) (Q2Qc (inject_Z 10000000000)))
    as (d & Ed & Hlo & Hhi); auto; try reflexivity.
  exists d. rewrite Ed.
  assert (L : (Q2Qc (1 # 100000000000000000000000) <= d)%Qc).
  { eapply Qcle_trans; [|exact Hlo]. vm_compute. discriminate. }
  split; [reflexivity|]. split; [exact L|]. split.
  { eapply Qcle_trans; [exact Hhi|]. vm_compute. discriminate. }
  split; [|reflexivity].
  eapply Qclt_le_trans; [|exact L]. reflexivity.
Qed.

(** C6 (amended).  The y velocity written on the bottom row of batch 0 is
    read from layer 0 of the raw roughness array, not from the normalized
    slice 20: at a column [x < res] it is [|rd_array[0, x, 0]| * 4 + 6] and
    at column [res] it is [|rd_array[0, -1, 0]| * 4 + 6], over a finite
    projected value.  [VelocityBoundary_y] receives the normalized slice and
    the equivalence ratio and reads neither. *)
Theorem C6_inflow_from_layer_zero :
  forall (self : SpEnergy (Solver := Solver)) (rd_array : Np.Array3) (res : Z) (dt : fl)
         (obstacles : list Obstacle) (gravity : Gravity)
         (density_effects velocity_effects : list Effect)
         (fluid fluid' st' : SpFluid Domain Box),
    step phi self rd_array res dt obstacles gravity density_effects
         velocity_effects fluid = (inr st', fluid') ->
    exists (p : Projected) (t : Transported) (cy cy' : CenteredGrid Box),
      step_projection phi (pressure_solver self) rd_array res dt obstacles
        gravity density_effects velocity_effects fluid = (inr p, fluid')
      /\ step_transport phi rd_array res dt p fluid' = (inr t, fluid')
      /\ component (p_velocity p) 0 = inr cy
      /\ component (velocity st') 0 = inr cy'
      /\ (forall x,
            (0 < Np.rows (Np.shape (data cy)))%nat ->
            (x < Np.cols (Np.shape (data cy)))%nat ->
            (Z.of_nat x < res)%Z ->
            (x < Np.rows3 rd_array)%nat ->
            Np.item (data cy') 0 0 x 0
            = (if is_finite (Np.item (data cy) 0 0 x 0)
               then abs (Np.item3 rd_array 0 x 0) * of_Z 4 + of_Z 6
               else NaN))
      /\ (forall x,
            (0 < Np.rows (Np.shape (data cy)))%nat ->
            (x < Np.cols (Np.shape (data cy)))%nat ->
            Z.of_nat x = res ->
            Np.item (data cy') 0 0 x 0
            = (if is_finite (Np.item (data cy) 0 0 x 0)
               then abs (Np.item3 rd_array 0 (Np.rows3 rd_array - 1) 0)
                    * of_Z 4 + of_Z 6
               else NaN))
      /\ (forall (rd_yk : Np.Array2) (equi_ratio : fl),
            VelocityBoundary_y (p_velocity p) rd_array res rd_yk equi_ratio
            = VelocityBoundary_y (p_velocity p) rd_array res (p_rd_yk p)
                                 (eq fluid)).
Proof.
  intros self rd_array res dt obstacles gravity density_effects
         velocity_effects fluid fluid' st' H.
  apply step_inv in H. destruct H as (p & h1 & t & Hp & Ht & Hb & ->).
  pose proof Ht as Ht'. apply step_transport_inv in Ht'.
  destruct Ht' as (_ & _ & _ & _ & _ & _ & _ & cx & cy & velBCy & mY & velBCx
                   & mX & Hcx & Hcy & HVy & HVx & Hvel).
  apply step_boundary_inv in Hb.
  destruct Hb as (_ & ym & yb & om & ob & tm & tb & _ & _ & _ & Hst).
  injection Hst as ->.
  exists p, t, cy,
    (mkGrid (masked (data cy) mY velBCy) (component_box phi (sbox (p_velocity p)) 0)).
  split; [exact Hp|]. split; [exact Ht|]. split; [exact Hcy|].
  cbn [velocity copied_with data]. rewrite Hvel.
  split; [reflexivity|].
  split; [|split].
  - intros x Hy Hx Hres Hrow.
    exact (velocity_y_update_inflow _ _ _ _ _ _ _ _ _ x HVy Hcy Hy Hx Hres Hrow).
  - intros x Hy Hx Hres.
    exact (velocity_y_update_corner _ _ _ _ _ _ _ _ _ x HVy Hcy Hy Hx Hres).
  - reflexivity.
Qed.

(** C7 (amended).  Each boundary update is idempotent at every cell and for
    every input field, the y-velocity update at the cells whose inflow value
    [velBCy] is not infinite: [cy * velBCyMask + velBCy], [cx * velBCxMask],
    [Yf * yf_mask + yf], [Yo * yo_mask + yo] and
    [temperature * temp_mask + tempBC], with the masks of one call of the
    boundary policy.  Every cell is free (mask 1, value 0) or fixed (mask 0),
    and in binary32 and binary64 arithmetic the update of a free cell and
    the update of a fixed cell whose value is not infinite are idempotent on
    every float, signed zeros included.  An inflow value is infinite when
    the roughness is, or when [|r| * 4 + 6] overflows. *)
Theorem C7_boundary_updates_idempotent :
  forall (field : StaggeredGrid Box) (rd_array : Np.Array3) (res : Z)
         (rd_yk : Np.Array2) (equi_ratio : fl) (s : Np.Shape)
         (velBCy velBCyMask velBCx velBCxMask : Np.ndarray)
         (yf_mask yf yo_mask yo temp_mask tempBC : Np.ndarray),
    VelocityBoundary_y field rd_array res rd_yk equi_ratio
      = inr (velBCy, velBCyMask) ->
    VelocityBoundary_x field = inr (velBCx, velBCxMask) ->
    species_masks s (snd (fst (fst (get_min_max_zf_zo equi_ratio))))
      = inr (yf_mask, yf) ->
    species_masks s (snd (fst (get_min_max_zf_zo equi_ratio)))
      = inr (yo_mask, yo) ->
    temperature_masks s res = inr (temp_mask, tempBC) ->
    (forall (c : Np.ndarray) (b y x k : nat),
       (is_inf (Np.item velBCy b y x k) = false ->
        Np.item (masked (masked c velBCyMask velBCy) velBCyMask velBCy) b y x k
        = Np.item (masked c velBCyMask velBCy) b y x k)
       /\ Np.item (Np.map2 Fl.mul (Np.map2 Fl.mul c velBCxMask) velBCxMask) b y x k
          = Np.item (Np.map2 Fl.mul c velBCxMask) b y x k
       /\ Np.item (masked (masked c yf_mask yf) yf_mask yf) b y x k
          = Np.item (masked c yf_mask yf) b y x k
       /\ Np.item (masked (masked c yo_mask yo) yo_mask yo) b y x k
          = Np.item (masked c yo_mask yo) b y x k
       /\ Np.item (masked (masked c temp_mask tempBC) temp_mask tempBC) b y x k
          = Np.item (masked c temp_mask tempBC) b y x k)
    /\ (forall b y x k : nat,
          ((Np.item velBCyMask b y x k = one /\ Np.item velBCy b y x k = zero)
           \/ Np.item velBCyMask b y x k = zero)
          /\ (Np.item velBCxMask b y x k = one
              \/ Np.item velBCxMask b y x k = zero)
          /\ ((Np.item yf_mask b y x k = one /\ Np.item yf b y x k = zero)
              \/ (Np.item yf_mask b y x k = zero
                  /\ is_inf (Np.item yf b y x k) = false))
          /\ ((Np.item yo_mask b y x k = one /\ Np.item yo b y x k = zero)
              \/ (Np.item yo_mask b y x k = zero
                  /\ is_inf (Np.item yo b y x k) = false))
          /\ ((Np.item temp_mask b y x k = one /\ Np.item tempBC b y x k = zero)
              \/ (Np.item temp_mask b y x k = zero
                  /\ is_inf (Np.item tempBC b y x k) = false)))
    /\ (forall (f : Ieee.format) (c v : Ieee.float),
          Ieee.supported f -> Ieee.valid f c = true ->
          Ieee.masked f (Ieee.masked f c (Ieee.one f) (SpecFloat.S754_zero false))
                      (Ieee.one f) (SpecFloat.S754_zero false)
          = Ieee.masked f c (Ieee.one f) (SpecFloat.S754_zero false)
          /\ (Ieee.is_inf v = false ->
              Ieee.masked f (Ieee.masked f c (SpecFloat.S754_zero false) v)
                          (SpecFloat.S754_zero false) v
              = Ieee.masked f c (SpecFloat.S754_zero false) v)
          /\ Ieee.scaled f (Ieee.scaled f c (Ieee.one f)) (Ieee.one f)
             = Ieee.scaled f c (Ieee.one f)
          /\ Ieee.scaled f (Ieee.scaled f c (SpecFloat.S754_zero false))
                         (SpecFloat.S754_zero false)
             = Ieee.scaled f c (SpecFloat.S754_zero false)).
Proof.
  intros field rd_array res rd_yk equi_ratio s velBCy velBCyMask velBCx
         velBCxMask yf_mask yf yo_mask yo temp_mask tempBC
         HVy HVx Hyf Hyo Ht.
  assert (Syf : forall b y x k,
             (Np.item yf_mask b y x k = one /\ Np.item yf b y x k = zero)
             \/ (Np.item yf_mask b y x k = zero
                 /\ is_inf (Np.item yf b y x k) = false)).
  { intros b y x k.
    destruct (species_pair _ _ _ _ Hyf b y x k) as [?|[Hm Hb]]; auto.
    right. split; [exact Hm|]. now rewrite Hb. }
  assert (Syo : forall b y x k,
             (Np.item yo_mask b y x k = one /\ Np.item yo b y x k = zero)
             \/ (Np.item yo_mask b y x k = zero
                 /\ is_inf (Np.item yo b y x k) = false)).
  { intros b y x k.
    destruct (species_pair _ _ _ _ Hyo b y x k) as [?|[Hm Hb]]; auto.
    right. split; [exact Hm|]. now rewrite Hb. }
  split; [|split].
  - intros c b y x k. repeat split.
    + intros Hn. apply masked_twice.
      destruct (VelocityBoundary_y_pair _ _ _ _ _ _ _ HVy b y x k) as [?|?]; auto.
    + apply scaled_twice. exact (velocity_x_pair _ _ _ HVx b y x k).
    + apply masked_twice, Syf.
    + apply masked_twice, Syo.
    + apply masked_twice. exact (temperature_pair _ _ _ _ Ht b y x k).
  - intros b y x k.
    split; [exact (VelocityBoundary_y_pair _ _ _ _ _ _ _ HVy b y x k)|].
    split; [exact (velocity_x_pair _ _ _ HVx b y x k)|].
    split; [apply Syf|]. split; [apply Syo|].
    exact (temperature_pair _ _ _ _ Ht b y x k).
  - intros f c v Hf Hc.
    split; [now apply IeeeFacts.masked_free_twice|].
    split; [intros Hv; now apply IeeeFacts.masked_fixed_twice|].
    now apply IeeeFacts.scaled_by_mask_twice.
Qed.



(** C10 (amended).  Whatever its outcome, a step leaves every struct field
    of the input state as it was (domain, velocity, temperature, density,
    pressure, rd, Yf, Yo, Wt, Wkf, Wko, the constants, tags, name and age);
    the attribute [solve_info] of the input state is the exception: a step
    that returns has rebound it to the info dict of the pressure solve, which
    holds the pressure increment.  The returned state is a copy of the input
    object with velocity, temperature, density, pressure, Yf, Yo and age
    replaced, [age] by [age + dt], and [Wt], [Wkf], [Wko] replaced by
    themselves. *)
Theorem C10_input_state_frame :
  forall (self : SpEnergy (Solver := Solver)) (rd_array : Np.Array3) (res : Z) (dt : fl)
         (obstacles : list Obstacle) (gravity : Gravity)
         (density_effects velocity_effects : list Effect)
         (fluid fluid' : SpFluid Domain Box) (r : result (SpFluid Domain Box)),
    step phi self rd_array res dt obstacles gravity density_effects
         velocity_effects fluid = (r, fluid') ->
    (domain fluid' = domain fluid /\ velocity fluid' = velocity fluid
     /\ temperature fluid' = temperature fluid /\ density fluid' = density fluid
     /\ pressure fluid' = pressure fluid /\ rd fluid' = rd fluid
     /\ Yf fluid' = Yf fluid /\ Yo fluid' = Yo fluid
     /\ Wt fluid' = Wt fluid /\ Wkf fluid' = Wkf fluid /\ Wko fluid' = Wko fluid
     /\ buoyancy_factor fluid' = buoyancy_factor fluid
     /\ amp fluid' = amp fluid /\ eq fluid' = eq fluid
     /\ tags fluid' = tags fluid /\ name fluid' = name fluid
     /\ age fluid' = age fluid)
    /\ forall st', r = inr st' ->
         (exists info g,
            solve_info fluid' = info
            /\ info !! "pressure_c"%string = Some (InfoGrid g))
         /\ exists velocity' temperature' density' pressure' Yf' Yo',
              st' = copied_with fluid' velocity' temperature' density'
                      pressure' Yf' Yo' (Wt fluid) (Wkf fluid) (Wko fluid)
                      (age fluid + dt).
Proof.
  intros self rd_array res dt obstacles gravity density_effects
         velocity_effects fluid fluid' r H.
  split.
  - apply step_preserves in H. unfold same_struct in H.
    rewrite H. cbn. repeat split.
  - intros st' ->.
    apply step_inv in H. destruct H as (p & h1 & t & Hp & Ht & Hb & ->).
    apply step_projection_inv in Hp.
    destruct Hp as (_ & _ & _ & _ & Hwt & Hwkf & Hwko & _ & _ & _ & _
                    & info & g & -> & Hinfo).
    apply step_transport_inv in Ht.
    destruct Ht as (_ & _ & Hwt' & Hwkf' & Hwko' & _).
    apply step_boundary_inv in Hb.
    destruct Hb as (_ & ? & ? & ? & ? & ? & ? & _ & _ & _ & Hst).
    injection Hst as ->.
    split.
    + exists info, g. split; [reflexivity | exact Hinfo].
    + rewrite Hwt', Hwkf', Hwko', Hwt, Hwkf, Hwko.
      cbn [age with_solve_info]. do 6 eexists. reflexivity.
Qed.

End Claims.

(* ===================================================================== *)
(** ** The claims on concrete runs *)
(* ===================================================================== *)

(** The scenario of the specification on the stand-in library: after one
    step the bottom row of the temperature is 800, its top row is 2000, the
    x velocity is 0 and the y velocity is 6 on the bottom row, the species are
    at their bounds there, and the density is [101325 / (8.314 * 62.5 * 800)]. *)
Example scenario_returns :
  exists st', fst Still.scenario = inr st'.
Proof. eexists. vm_compute. reflexivity. Qed.

Example scenario_temperature :
  Np.item (data (temperature (Still.returned Still.scenario))) 0 0 5 0 = of_Z 800
  /\ Np.item (data (temperature (Still.returned Still.scenario))) 0 31 5 0
     = of_Z 2000
  /\ Np.item (data (temperature (Still.returned Still.scenario))) 0 7 5 0
     = of_Z 800.
Proof. repeat split; apply FlFacts.eqb_eq; vm_compute; reflexivity. Qed.

Example scenario_species :
  Np.item (data (Yf (Still.returned Still.scenario))) 0 0 5 0 = dec 25 454
  /\ Np.item (data (Yo (Still.returned Still.scenario))) 0 0 5 0 = dec 429 454
  /\ Np.item (data (Yf (Still.returned Still.scenario))) 0 7 5 0 = one.
Proof. repeat split; apply FlFacts.eqb_eq; vm_compute; reflexivity. Qed.

Example scenario_velocity :
  Np.item (Still.velocity_y (Still.returned Still.scenario)) 0 0 5 0 = of_Z 6
  /\ Np.item (Still.velocity_x (Still.returned Still.scenario)) 0 0 5 0 = zero.
Proof. repeat split; apply FlFacts.eqb_eq; vm_compute; reflexivity. Qed.

Example scenario_density :
  Np.item (data (density (Still.returned Still.scenario))) 0 7 5 0
  = dec 4053 16628.
Proof. apply FlFacts.eqb_eq. vm_compute. reflexivity. Qed.

(** C1 on the scenario of the specification. *)
Lemma C1_witness :
  density (Still.returned Still.scenario)
  = state_equation (pressure (Still.initial 32 (of_Z 101325)))
                   (temperature (Still.initial 32 (of_Z 101325)))
                   (Yf (Still.initial 32 (of_Z 101325)))
                   (Yo (Still.initial 32 (of_Z 101325)))
  /\ forall b y x k,
       Np.item (data (density (Still.returned Still.scenario))) b y x k
       = ideal_gas_density
           (Np.item (data (pressure (Still.initial 32 (of_Z 101325)))) b y x k)
           (Np.item (data (temperature (Still.initial 32 (of_Z 101325)))) b y x k)
           (Np.item (data (Yf (Still.initial 32 (of_Z 101325)))) b y x k)
           (Np.item (data (Yo (Still.initial 32 (of_Z 101325)))) b y x k).
Proof.
  apply (C1_density_from_input_state Still.phi
           (SpeciesEnergy (Solver := unit)) (Still.roughness 32 Still.ramp)
           32 (dec 1 100) [] tt []
           (Still.initial 32 (of_Z 101325)) (snd Still.scenario)
           (Still.returned Still.scenario)).
  vm_compute. reflexivity.
Defined.

(** The amended C2 on the scenario of the specification. *)
Lemma C2_witness :
  let '(Zf_min, Zf_max, Zo_min, Zo_max) :=
    get_min_max_zf_zo (eq (Still.initial 32 (of_Z 101325))) in
  exists (p : Projected) (t : Transported)
         (yf_mask yf yo_mask yo : Np.ndarray),
    step_projection Still.phi None (Still.roughness 32 Still.ramp) 32
      (dec 1 100) [] tt [] [] (Still.initial 32 (of_Z 101325))
    = (inr p, snd Still.scenario)
    /\ step_transport Still.phi (Still.roughness 32 Still.ramp) 32 (dec 1 100)
         p (snd Still.scenario) = (inr t, snd Still.scenario)
    /\ species_masks (Np.shape (data (t_Yf t))) Zf_max = inr (yf_mask, yf)
    /\ species_masks (Np.shape (data (t_Yo t))) Zo_min = inr (yo_mask, yo)
    /\ (forall b x k,
          Np.inside (Np.shape (data (t_Yf t))) b 0 x k ->
          Np.item (masked (data (t_Yf t)) yf_mask yf) b 0 x k
          = (if is_finite (Np.item (data (t_Yf t)) b 0 x k)
             then Zf_max else NaN))
    /\ (forall b x k,
          Np.inside (Np.shape (data (t_Yo t))) b 0 x k ->
          Np.item (masked (data (t_Yo t)) yo_mask yo) b 0 x k
          = (if is_finite (Np.item (data (t_Yo t)) b 0 x k)
             then Zo_min else NaN))
    /\ forall cast : fl -> fl,
         (forall b x k,
            Np.inside (Np.shape (data (t_Yf t))) b 0 x k ->
            Np.item (data (Yf (stored cast (Still.returned Still.scenario))))
                    b 0 x k
            = (if is_finite (Np.item (data (t_Yf t)) b 0 x k)
               then cast Zf_max else cast NaN))
         /\ (forall b x k,
               Np.inside (Np.shape (data (t_Yo t))) b 0 x k ->
               Np.item (data (Yo (stored cast (Still.returned Still.scenario))))
                       b 0 x k
               = (if is_finite (Np.item (data (t_Yo t)) b 0 x k)
                  then cast Zo_min else cast NaN)).
Proof.
  apply (C2_species_bottom_row Still.phi
           (SpeciesEnergy (Solver := unit)) (Still.roughness 32 Still.ramp)
           32 (dec 1 100) [] tt [] []
           (Still.initial 32 (of_Z 101325)) (snd Still.scenario)
           (Still.returned Still.scenario)).
  vm_compute. reflexivity.
Defined.

(** C2, as stated, fails twice.  On a state whose pressure field is zero the
    density is zero, the species source term [Wkf * dt * density ** -1] is
    [0 * inf = NaN], and the bottom row of [Yf] is [NaN * 0 + Zf_max = NaN],
    with [dt = 0.01 >= 0].  And on the scenario of the specification, where
    every value is finite, the state stored in binary32 holds
    [1847711 / 2^25] on the bottom row of [Yf], the float nearest to
    [Zf_max], not [Zf_max]. *)
Lemma C2_counterexample :
  step Still.phi (SpeciesEnergy (Solver := unit)) (Still.roughness 2 Still.ramp)
       2 (dec 1 100) [] tt [] [] (Still.initial 2 zero)
  = (inr (Still.returned Still.vacuum), snd Still.vacuum)
  /\ ltb (dec 1 100) zero = false
  /\ Np.inside (Np.shape (data (Yf (Still.returned Still.vacuum)))) 0 0 0 0
  /\ Np.item (data (Yf (Still.returned Still.vacuum))) 0 0 0 0 = NaN
  /\ Np.item (data (Yf (Still.returned Still.vacuum))) 0 0 0 0
     <> snd (fst (fst (get_min_max_zf_zo (eq (Still.initial 2 zero)))))
  /\ Np.item (data (Yf (stored (Ieee.rounded Ieee.binary32)
                               (Still.returned Still.scenario)))) 0 0 0 0
     = dec 1847711 33554432
  /\ dec 1847711 33554432
     <> snd (fst (fst (get_min_max_zf_zo (eq (Still.initial 32 (of_Z 101325)))))).
Proof.
  split; [vm_compute; reflexivity|].
  split; [reflexivity|].
  split; [vm_compute; repeat split; lia|].
  split; [vm_compute; reflexivity|].
  split; [apply FlFacts.eqb_neq; vm_compute; reflexivity|].
  split; [apply FlFacts.eqb_eq; vm_compute; reflexivity|].
  apply FlFacts.eqb_neq. vm_compute. reflexivity.
Qed.

(** The amended C3 on the scenario of the specification, [res = 32]. *)
Lemma C3_witness :
  exists (p : Projected) (t : Transported) (cx cx' : CenteredGrid unit),
    step_projection Still.phi None (Still.roughness 32 Still.ramp) 32
      (dec 1 100) [] tt [] [] (Still.initial 32 (of_Z 101325))
    = (inr p, snd Still.scenario)
    /\ step_transport Still.phi (Still.roughness 32 Still.ramp) 32 (dec 1 100)
         p (snd Still.scenario) = (inr t, snd Still.scenario)
    /\ component (p_velocity p) 1 = inr cx
    /\ component (velocity (Still.returned Still.scenario)) 1 = inr cx'
    /\ (forall b x k,
          Np.inside (Np.shape (data (t_temperature t))) b 0 x k ->
          Np.item (data (temperature (Still.returned Still.scenario))) b 0 x k
          = (if is_finite (Np.item (data (t_temperature t)) b 0 x k)
             then of_Z 800 else NaN))
    /\ (forall b y x k,
          Np.inside (Np.shape (data (t_temperature t))) b y x k ->
          Z.of_nat y = (32 - 1)%Z ->
          Np.item (data (temperature (Still.returned Still.scenario))) b y x k
          = (if is_finite (Np.item (data (t_temperature t)) b y x k)
             then of_Z 2000 else NaN))
    /\ (forall b x,
          (b < Np.batch (Np.shape (data cx)))%nat ->
          (0 < Np.rows (Np.shape (data cx)))%nat ->
          (x < Np.cols (Np.shape (data cx)))%nat ->
          Np.item (data cx') b 0 x 0
          = (if is_finite (Np.item (data cx) b 0 x 0) then zero else NaN)).
Proof.
  apply (C3_dirichlet_rows Still.phi
           (SpeciesEnergy (Solver := unit)) (Still.roughness 32 Still.ramp)
           32 (dec 1 100) [] tt [] []
           (Still.initial 32 (of_Z 101325)) (snd Still.scenario)
           (Still.returned Still.scenario)).
  - vm_compute. reflexivity.
  - lia.
Defined.

(** C3, as stated, fails: on the same state, with [res = 2], the heat term
    [Wt * dt * (density * cp) ** -1] is [NaN] and the bottom row of the
    temperature is [NaN * 0 + 800 = NaN]. *)
Lemma C3_counterexample :
  step Still.phi (SpeciesEnergy (Solver := unit)) (Still.roughness 2 Still.ramp)
       2 (dec 1 100) [] tt [] [] (Still.initial 2 zero)
  = (inr (Still.returned Still.vacuum), snd Still.vacuum)
  /\ (2 <= 2)%Z
  /\ Np.inside (Np.shape (data (temperature (Still.returned Still.vacuum)))) 0 0 0 0
  /\ Np.item (data (temperature (Still.returned Still.vacuum))) 0 0 0 0 = NaN
  /\ Np.item (data (temperature (Still.returned Still.vacuum))) 0 0 0 0
     <> of_Z 800.
Proof.
  split; [vm_compute; reflexivity|].
  split; [lia|].
  split; [vm_compute; repeat split; lia|].
  split; [vm_compute; reflexivity|].
  apply FlFacts.eqb_neq. vm_compute. reflexivity.
Qed.

(** The amended C5 at a cell of the uniform initial state. *)
Lemma C5_witness :
  exists d : Qc,
    Np.item (data (state_equation
                     (Still.uniform (Np.mkShape 1 2 2 1) (of_Z 101325))
                     (Still.uniform (Np.mkShape 1 2 2 1) (of_Z 800))
                     (Still.uniform (Np.mkShape 1 2 2 1) one)
                     (Still.uniform (Np.mkShape 1 2 2 1) zero))) 0 1 1 0
    = Fin d
    /\ (Q2Qc (1 # 100000000000000000000000) <= d)%Qc
    /\ (d <= Q2Qc (inject_Z 1000000000000000000))%Qc
    /\ (0 < d)%Qc
    /\ is_finite
         (Np.item (data (state_equation
                     (Still.uniform (Np.mkShape 1 2 2 1) (of_Z 101325))
                     (Still.uniform (Np.mkShape 1 2 2 1) (of_Z 800))
                     (Still.uniform (Np.mkShape 1 2 2 1) one)
                     (Still.uniform (Np.mkShape 1 2 2 1) zero))) 0 1 1 0)
       = true.
Proof.
  apply (C5_density_positive_finite
           (Still.uniform (Np.mkShape 1 2 2 1) (of_Z 101325))
           (Still.uniform (Np.mkShape 1 2 2 1) (of_Z 800))
           (Still.uniform (Np.mkShape 1 2 2 1) one)
           (Still.uniform (Np.mkShape 1 2 2 1) zero)
           0%nat 1%nat 1%nat 0%nat
           (Q2Qc (inject_Z 101325)) (Q2Qc (inject_Z 800))
           (Q2Qc (inject_Z 1)) (Q2Qc (inject_Z 0)));
    reflexivity || (vm_compute; discriminate).
Defined.

(** C5, as stated, fails in floating point: the pressure and the
    temperature are positive and finite and [Yf = Yo = 0], and the density
    is not a positive finite number.  In binary64, [p = 1e300] and
    [T = 1e-300] give [inf], [p = 1e-300] and [T = 1e300] give [0.0], and
    the least positive [p] with [T = 1e-310] gives [0 * inf = NaN]; in
    binary32, [p = 1e30] and [T = 1e-30] give [inf], and the reverse gives
    [0.0]. *)
Lemma C5_counterexample :
  let big := Ieee.lit (inject_Z (10 ^ 300)) in
  let small := Ieee.lit (1 # Pos.pow 10 300) in
  let least := Ieee.lit (1 # Pos.pow 2 1074) in
  let tiny := Ieee.lit (1 # Pos.pow 10 310) in
  let big32 := Ieee.cast Ieee.binary32 (Ieee.lit (inject_Z (10 ^ 30))) in
  let small32 := Ieee.cast Ieee.binary32 (Ieee.lit (1 # Pos.pow 10 30)) in
  let positive_finite f x :=
    SpecFloat.SFltb (SpecFloat.S754_zero false) x = true
    /\ Ieee.is_inf x = false /\ Ieee.valid f x = true in
  (positive_finite Ieee.binary64 big /\ positive_finite Ieee.binary64 small
   /\ positive_finite Ieee.binary64 least /\ positive_finite Ieee.binary64 tiny
   /\ positive_finite Ieee.binary32 big32
   /\ positive_finite Ieee.binary32 small32)
  /\ Ieee.density Ieee.binary64 big small (Ieee.lit 0) (Ieee.lit 0)
     = SpecFloat.S754_infinity false
  /\ Ieee.density Ieee.binary64 small big (Ieee.lit 0) (Ieee.lit 0)
     = SpecFloat.S754_zero false
  /\ Ieee.density Ieee.binary64 least tiny (Ieee.lit 0) (Ieee.lit 0)
     = SpecFloat.S754_nan
  /\ Ieee.density Ieee.binary32 big32 small32 (Ieee.lit 0) (Ieee.lit 0)
     = SpecFloat.S754_infinity false
  /\ Ieee.density Ieee.binary32 small32 big32 (Ieee.lit 0) (Ieee.lit 0)
     = SpecFloat.S754_zero false.
Proof.
  cbv zeta. repeat split; vm_compute; reflexivity.
Qed.

(** The amended C6 on 2 by 2 cells with layer 0 equal to 5. *)
Lemma C6_witness :
  exists (p : Projected) (t : Transported) (cy cy' : CenteredGrid unit),
    step_projection Still.phi None (Still.roughness 2 Still.steep) 2
      (dec 1 100) [] tt [] [] (Still.initial 2 (of_Z 101325))
    = (inr p, snd (Still.small Still.steep (dec 1 100)))
    /\ step_transport Still.phi (Still.roughness 2 Still.steep) 2 (dec 1 100)
         p (snd (Still.small Still.steep (dec 1 100)))
       = (inr t, snd (Still.small Still.steep (dec 1 100)))
    /\ component (p_velocity p) 0 = inr cy
    /\ component (velocity (Still.returned (Still.small Still.steep (dec 1 100)))) 0
       = inr cy'
    /\ (forall x,
          (0 < Np.rows (Np.shape (data cy)))%nat ->
          (x < Np.cols (Np.shape (data cy)))%nat ->
          (Z.of_nat x < 2)%Z ->
          (x < Np.rows3 (Still.roughness 2 Still.steep))%nat ->
          Np.item (data cy') 0 0 x 0
          = (if is_finite (Np.item (data cy) 0 0 x 0)
             then abs (Np.item3 (Still.roughness 2 Still.steep) 0 x 0)
                  * of_Z 4 + of_Z 6
             else NaN))
    /\ (forall x,
          (0 < Np.rows (Np.shape (data cy)))%nat ->
          (x < Np.cols (Np.shape (data cy)))%nat ->
          Z.of_nat x = 2%Z ->
          Np.item (data cy') 0 0 x 0
          = (if is_finite (Np.item (data cy) 0 0 x 0)
             then abs (Np.item3 (Still.roughness 2 Still.steep) 0
                         (Np.rows3 (Still.roughness 2 Still.steep) - 1) 0)
                  * of_Z 4 + of_Z 6
             else NaN))
    /\ (forall (rd_yk : Np.Array2) (equi_ratio : fl),
          VelocityBoundary_y (p_velocity p) (Still.roughness 2 Still.steep) 2
                             rd_yk equi_ratio
          = VelocityBoundary_y (p_velocity p) (Still.roughness 2 Still.steep) 2
                               (p_rd_yk p) (eq (Still.initial 2 (of_Z 101325)))).
Proof.
  apply (C6_inflow_from_layer_zero Still.phi
           (SpeciesEnergy (Solver := unit)) (Still.roughness 2 Still.steep)
           2 (dec 1 100) [] tt [] []
           (Still.initial 2 (of_Z 101325))
           (snd (Still.small Still.steep (dec 1 100)))
           (Still.returned (Still.small Still.steep (dec 1 100)))).
  vm_compute. reflexivity.
Defined.

(** C6, as stated, fails: with layer 0 equal to 5 the step writes
    [|5| * 4 + 6 = 26] on the bottom row of the y velocity, which is
    [|r| * 4 + 6] for no entry [r] of the normalized slice 20; and with the
    same slice 20 and layer 0 equal to zero it writes 6: the step reads
    layer 0. *)
Lemma C6_counterexample :
  step Still.phi (SpeciesEnergy (Solver := unit)) (Still.roughness 2 Still.steep)
       2 (dec 1 100) [] tt [] [] (Still.initial 2 (of_Z 101325))
  = (inr (Still.returned (Still.small Still.steep (dec 1 100))),
     snd (Still.small Still.steep (dec 1 100)))
  /\ Np.item (Still.velocity_y (Still.returned (Still.small Still.steep (dec 1 100))))
             0 0 1 0 = of_Z 26
  /\ (exists rd_yk,
        normalized_roughness (Still.roughness 2 Still.steep) = inr rd_yk
        /\ forall i j, (i < 2)%nat -> (j < 2)%nat ->
             abs (Np.item2 rd_yk i j) * of_Z 4 + of_Z 6 <> of_Z 26)
  /\ Np.layer (Still.roughness 2 Still.steep) 20
     = Np.layer (Still.roughness 2 Still.ramp) 20
  /\ Np.item (Still.velocity_y (Still.returned (Still.small Still.ramp (dec 1 100))))
             0 0 1 0 = of_Z 6.
Proof.
  split; [vm_compute; reflexivity|].
  split; [apply FlFacts.eqb_eq; vm_compute; reflexivity|].
  split.
  { eexists. split; [reflexivity|].
    intros i j Hi Hj.
    destruct i as [|[|i]]; [| |lia]; destruct j as [|[|j]]; try lia;
      apply FlFacts.eqb_neq; vm_compute; reflexivity. }
  split; [reflexivity|].
  apply FlFacts.eqb_eq. vm_compute. reflexivity.
Qed.

(** The amended C7 for a velocity at rest over 2 by 2 cells and the ramp
    roughness. *)
Lemma C7_witness :
  let velBCy := fst (Still.inflow Still.ramp) in
  let velBCyMask := snd (Still.inflow Still.ramp) in
  let velBCxMask := snd Still.noslip in
  let yf_mask := fst (Still.pair_of (species_masks (Np.mkShape 1 2 2 1) (dec 25 454))) in
  let yf := snd (Still.pair_of (species_masks (Np.mkShape 1 2 2 1) (dec 25 454))) in
  let yo_mask := fst (Still.pair_of (species_masks (Np.mkShape 1 2 2 1) (dec 429 454))) in
  let yo := snd (Still.pair_of (species_masks (Np.mkShape 1 2 2 1) (dec 429 454))) in
  let temp_mask := fst (Still.pair_of (temperature_masks (Np.mkShape 1 2 2 1) 2)) in
  let tempBC := snd (Still.pair_of (temperature_masks (Np.mkShape 1 2 2 1) 2)) in
  (forall (c : Np.ndarray) (b y x k : nat),
     (is_inf (Np.item velBCy b y x k) = false ->
      Np.item (masked (masked c velBCyMask velBCy) velBCyMask velBCy) b y x k
      = Np.item (masked c velBCyMask velBCy) b y x k)
     /\ Np.item (Np.map2 Fl.mul (Np.map2 Fl.mul c velBCxMask) velBCxMask) b y x k
        = Np.item (Np.map2 Fl.mul c velBCxMask) b y x k
     /\ Np.item (masked (masked c yf_mask yf) yf_mask yf) b y x k
        = Np.item (masked c yf_mask yf) b y x k
     /\ Np.item (masked (masked c yo_mask yo) yo_mask yo) b y x k
        = Np.item (masked c yo_mask yo) b y x k
     /\ Np.item (masked (masked c temp_mask tempBC) temp_mask tempBC) b y x k
        = Np.item (masked c temp_mask tempBC) b y x k)
  /\ (forall b y x k : nat,
        ((Np.item velBCyMask b y x k = one /\ Np.item velBCy b y x k = zero)
         \/ Np.item velBCyMask b y x k = zero)
        /\ (Np.item velBCxMask b y x k = one
            \/ Np.item velBCxMask b y x k = zero)
        /\ ((Np.item yf_mask b y x k = one /\ Np.item yf b y x k = zero)
            \/ (Np.item yf_mask b y x k = zero
                /\ is_inf (Np.item yf b y x k) = false))
        /\ ((Np.item yo_mask b y x k = one /\ Np.item yo b y x k = zero)
            \/ (Np.item yo_mask b y x k = zero
                /\ is_inf (Np.item yo b y x k) = false))
        /\ ((Np.item temp_mask b y x k = one /\ Np.item tempBC b y x k = zero)
            \/ (Np.item temp_mask b y x k = zero
                /\ is_inf (Np.item tempBC b y x k) = false)))
  /\ (forall (f : Ieee.format) (c v : Ieee.float),
        Ieee.supported f -> Ieee.valid f c = true ->
        Ieee.masked f (Ieee.masked f c (Ieee.one f) (SpecFloat.S754_zero false))
                    (Ieee.one f) (SpecFloat.S754_zero false)
        = Ieee.masked f c (Ieee.one f) (SpecFloat.S754_zero false)
        /\ (Ieee.is_inf v = false ->
            Ieee.masked f (Ieee.masked f c (SpecFloat.S754_zero false) v)
                        (SpecFloat.S754_zero false) v
            = Ieee.masked f c (SpecFloat.S754_zero false) v)
        /\ Ieee.scaled f (Ieee.scaled f c (Ieee.one f)) (Ieee.one f)
           = Ieee.scaled f c (Ieee.one f)
        /\ Ieee.scaled f (Ieee.scaled f c (SpecFloat.S754_zero false))
                       (SpecFloat.S754_zero false)
           = Ieee.scaled f c (SpecFloat.S754_zero false)).
Proof.
  refine (C7_boundary_updates_idempotent
           (Still.at_rest 2) (Still.roughness 2 Still.ramp) 2
           (Np.mkArray2 0 0 (fun _ _ => zero)) one (Np.mkShape 1 2 2 1)
           (fst (Still.inflow Still.ramp)) (snd (Still.inflow Still.ramp))
           (fst Still.noslip) (snd Still.noslip)
           (fst (Still.pair_of (species_masks (Np.mkShape 1 2 2 1) (dec 25 454))))
           (snd (Still.pair_of (species_masks (Np.mkShape 1 2 2 1) (dec 25 454))))
           (fst (Still.pair_of (species_masks (Np.mkShape 1 2 2 1) (dec 429 454))))
           (snd (Still.pair_of (species_masks (Np.mkShape 1 2 2 1) (dec 429 454))))
           (fst (Still.pair_of (temperature_masks (Np.mkShape 1 2 2 1) 2)))
           (snd (Still.pair_of (temperature_masks (Np.mkShape 1 2 2 1) 2)))
           _ _ _ _ _).
  - vm_compute. reflexivity.
  - vm_compute. reflexivity.
  - apply (f_equal (fun v => species_masks (Np.mkShape 1 2 2 1) v)).
    apply FlFacts.eqb_eq. vm_compute. reflexivity.
  - apply (f_equal (fun v => species_masks (Np.mkShape 1 2 2 1) v)).
    apply FlFacts.eqb_eq. vm_compute. reflexivity.
  - reflexivity.
Defined.

(** C7, as stated, fails: with an infinite roughness on layer 0 the first
    y-velocity update writes [+Inf] on the bottom row and the second turns it
    into [Inf * 0 + Inf = NaN].  A finite roughness does the same when the
    inflow speed overflows: in binary64, [r = 1e308] gives
    [|r| * 4 + 6 = inf], the update of a zero velocity gives [inf] and the
    second update gives [NaN]. *)
Lemma C7_counterexample :
  VelocityBoundary_y (Still.at_rest 2) (Still.roughness 2 Still.torn) 2
                     (Np.mkArray2 0 0 (fun _ _ => zero)) one
  = inr (Still.inflow Still.torn)
  /\ Np.item (masked (Np.zeros (Np.mkShape 1 3 2 1))
                     (snd (Still.inflow Still.torn))
                     (fst (Still.inflow Still.torn))) 0 0 0 0 = PInf
  /\ Np.item (masked (masked (Np.zeros (Np.mkShape 1 3 2 1))
                             (snd (Still.inflow Still.torn))
                             (fst (Still.inflow Still.torn)))
                     (snd (Still.inflow Still.torn))
                     (fst (Still.inflow Still.torn))) 0 0 0 0 = NaN
  /\ Np.item (masked (masked (Np.zeros (Np.mkShape 1 3 2 1))
                             (snd (Still.inflow Still.torn))
                             (fst (Still.inflow Still.torn)))
                     (snd (Still.inflow Still.torn))
                     (fst (Still.inflow Still.torn))) 0 0 0 0
     <> Np.item (masked (Np.zeros (Np.mkShape 1 3 2 1))
                        (snd (Still.inflow Still.torn))
                        (fst (Still.inflow Still.torn))) 0 0 0 0
  /\ Ieee.is_inf (Ieee.lit (inject_Z (10 ^ 308))) = false
  /\ Ieee.inflow Ieee.binary64 (Ieee.lit (inject_Z (10 ^ 308)))
     = SpecFloat.S754_infinity false
  /\ Ieee.masked Ieee.binary64 (SpecFloat.S754_zero false)
       (SpecFloat.S754_zero false)
       (Ieee.inflow Ieee.binary64 (Ieee.lit (inject_Z (10 ^ 308))))
     = SpecFloat.S754_infinity false
  /\ Ieee.masked Ieee.binary64
       (Ieee.masked Ieee.binary64 (SpecFloat.S754_zero false)
          (SpecFloat.S754_zero false)
          (Ieee.inflow Ieee.binary64 (Ieee.lit (inject_Z (10 ^ 308)))))
       (SpecFloat.S754_zero false)
       (Ieee.inflow Ieee.binary64 (Ieee.lit (inject_Z (10 ^ 308))))
     = SpecFloat.S754_nan.
Proof.
  split; [vm_compute; reflexivity|].
  split; [vm_compute; reflexivity|].
  split; [vm_compute; reflexivity|].
  split; [apply FlFacts.eqb_neq; vm_compute; reflexivity|].
  repeat split; vm_compute; reflexivity.
Qed.





(** The amended C10 on the scenario of the specification. *)
Lemma C10_witness :
  (domain (snd Still.scenario) = domain (Still.initial 32 (of_Z 101325))
   /\ velocity (snd Still.scenario) = velocity (Still.initial 32 (of_Z 101325))
   /\ temperature (snd Still.scenario) = temperature (Still.initial 32 (of_Z 101325))
   /\ density (snd Still.scenario) = density (Still.initial 32 (of_Z 101325))
   /\ pressure (snd Still.scenario) = pressure (Still.initial 32 (of_Z 101325))
   /\ rd (snd Still.scenario) = rd (Still.initial 32 (of_Z 101325))
   /\ Yf (snd Still.scenario) = Yf (Still.initial 32 (of_Z 101325))
   /\ Yo (snd Still.scenario) = Yo (Still.initial 32 (of_Z 101325))
   /\ Wt (snd Still.scenario) = Wt (Still.initial 32 (of_Z 101325))
   /\ Wkf (snd Still.scenario) = Wkf (Still.initial 32 (of_Z 101325))
   /\ Wko (snd Still.scenario) = Wko (Still.initial 32 (of_Z 101325))
   /\ buoyancy_factor (snd Still.scenario)
      = buoyancy_factor (Still.initial 32 (of_Z 101325))
   /\ amp (snd Still.scenario) = amp (Still.initial 32 (of_Z 101325))
   /\ eq (snd Still.scenario) = eq (Still.initial 32 (of_Z 101325))
   /\ tags (snd Still.scenario) = tags (Still.initial 32 (of_Z 101325))
   /\ name (snd Still.scenario) = name (Still.initial 32 (of_Z 101325))
   /\ age (snd Still.scenario) = age (Still.initial 32 (of_Z 101325)))
  /\ forall st', fst Still.scenario = inr st' ->
       (exists info g,
          solve_info (snd Still.scenario) = info
          /\ info !! "pressure_c"%string = Some (InfoGrid g))
       /\ exists velocity' temperature' density' pressure' Yf' Yo',
            st' = copied_with (snd Still.scenario) velocity' temperature'
                    density' pressure' Yf' Yo'
                    (Wt (Still.initial 32 (of_Z 101325)))
                    (Wkf (Still.initial 32 (of_Z 101325)))
                    (Wko (Still.initial 32 (of_Z 101325)))
                    (age (Still.initial 32 (of_Z 101325)) + dec 1 100).
Proof.
  apply (C10_input_state_frame Still.phi
           (SpeciesEnergy (Solver := unit)) (Still.roughness 32 Still.ramp)
           32 (dec 1 100) [] tt [] []
           (Still.initial 32 (of_Z 101325)) (snd Still.scenario)
           (fst Still.scenario)).
  vm_compute. reflexivity.
Defined.

(** C10, as stated, fails: the input state is built with an empty
    [solve_info]; after the step its [solve_info] holds the key
    [pressure_c], so the object is not what it was. *)
Lemma C10_counterexample :
  step Still.phi (SpeciesEnergy (Solver := unit)) (Still.roughness 2 Still.ramp)
       2 (dec 1 100) [] tt [] [] (Still.initial 2 (of_Z 101325))
  = (inr (Still.returned (Still.small Still.ramp (dec 1 100))),
     snd (Still.small Still.ramp (dec 1 100)))
  /\ solve_info (Still.initial 2 (of_Z 101325)) !! "pressure_c"%string = None
  /\ solve_info (snd (Still.small Still.ramp (dec 1 100))) !! "pressure_c"%string
     <> None
  /\ snd (Still.small Still.ramp (dec 1 100)) <> Still.initial 2 (of_Z 101325).
Proof.
  split; [vm_compute; reflexivity|].
  split; [reflexivity|].
  assert (Hinfo : solve_info (snd (Still.small Still.ramp (dec 1 100)))
                    !! "pressure_c"%string <> None).
  { vm_compute. discriminate. }
  split; [exact Hinfo|].
  intros E. apply Hinfo. rewrite E. reflexivity.
Qed.

(* ===================================================================== *)
(** ** Further properties: the mixture bounds and the state equation *)
(* ===================================================================== *)

Section RationalOrder.

Local Open Scope Qc_scope.

Lemma Qcminus_nonneg (a b : Qc) : b <= a -> 0 <= a + - b.
Proof.
  intros H. apply Qcle_minus_iff in H. exact H.
Qed.

Lemma Qcminus_pos (a b : Qc) : b < a -> 0 < a + - b.
Proof.
  intros H. apply Qclt_minus_iff in H. exact H.
Qed.

Lemma Qcdiv_nonneg (a b : Qc) : 0 <= a -> 0 < b -> 0 <= a / b.
Proof.
  intros Ha Hb. unfold Qcdiv. apply Qcmult_nonneg; [exact Ha|].
  apply Qclt_le_weak. now apply FlFacts.Qcinv_pos.
Qed.

Lemma Qcdiv_le_one (a b : Qc) : a <= b -> 0 < b -> a / b <= 1.
Proof.
  intros Hab Hb. unfold Qcdiv.
  assert (Hi : 0 <= / b) by (apply Qclt_le_weak; now apply FlFacts.Qcinv_pos).
  pose proof (Qcmult_le_compat_r a b (/ b) Hab Hi) as H.
  rewrite Qcmult_inv_r in H; [exact H|].
  intros E. rewrite E in Hb. discriminate Hb.
Qed.

End RationalOrder.

(** X1.  The mixture bounds are well ordered fractions:
    [0 < Zf_min < Zf_max < 1] and [0 < Zo_min < Zo_max < 1]; the fuel and
    oxidizer bounds are complementary, [Zf_max + Zo_min = 1] and
    [Zf_min + Zo_max = 1]. *)
Theorem X1_mixture_bounds_ordered :
  forall eq : fl,
    exists zf_min zf_max zo_min zo_max : Qc,
      get_min_max_zf_zo eq = (Fin zf_min, Fin zf_max, Fin zo_min, Fin zo_max)
      /\ (0 < zf_min)%Qc /\ (zf_min < zf_max)%Qc /\ (zf_max < 1)%Qc
      /\ (0 < zo_min)%Qc /\ (zo_min < zo_max)%Qc /\ (zo_max < 1)%Qc
      /\ (zf_max + zo_min = 1)%Qc /\ (zf_min + zo_max = 1)%Qc.
Proof.
  intros eq.
  exists (Q2Qc (20 # 449)), (Q2Qc (25 # 454)), (Q2Qc (429 # 454)),
         (Q2Qc (429 # 449)).
  split.
  { unfold get_min_max_zf_zo.
    repeat apply f_equal2; apply FlFacts.eqb_eq; vm_compute; reflexivity. }
  repeat split; apply Qc_is_canon; reflexivity.
Qed.

Section FuelBoundary.

Local Open Scope Qc_scope.

(** X2.  [get_zf_bc_vector] keeps the shape of [rd_yk] and maps an entry
    [r] in [0, 1] to the fuel fraction [r * (Zf_max - Zf_min) + Zf_min],
    which lies between [Zf_min = 20/449] and [Zf_max = 25/454]; the entry 0
    gives [Zf_min] and the entry 1 gives [Zf_max]. *)
Theorem X2_fuel_boundary_within_bounds :
  forall (rd_yk : Np.Array2) (equi_ratio : fl) (i j : nat) (r : Qc),
    Np.item2 rd_yk i j = Fin r ->
    0 <= r -> r <= 1 ->
    Np.rows2 (get_zf_bc_vector rd_yk equi_ratio) = Np.rows2 rd_yk
    /\ Np.cols2 (get_zf_bc_vector rd_yk equi_ratio) = Np.cols2 rd_yk
    /\ exists z : Qc,
         Np.item2 (get_zf_bc_vector rd_yk equi_ratio) i j = Fin z
         /\ Q2Qc (20 # 449) <= z /\ z <= Q2Qc (25 # 454)
         /\ (r = 0 -> z = Q2Qc (20 # 449))
         /\ (r = 1 -> z = Q2Qc (25 # 454)).
Proof.
  intros rd_yk equi_ratio i j r Hr H0 H1.
  split; [reflexivity|]. split; [reflexivity|].
  set (lo := Q2Qc (20 # 449)). set (hi := Q2Qc (25 # 454)).
  exists (r * (hi + - lo) + lo).
  assert (Hd : 0 <= hi + - lo) by discriminate.
  split.
  { unfold get_zf_bc_vector, get_min_max_zf_zo. cbn [Np.item2 Np.map_2].
    rewrite Hr.
    assert (Elo : (one / (one + of_Z 4 * dec 429 100 / dec 8 10))%fl = Fin lo)
      by (apply FlFacts.eqb_eq; vm_compute; reflexivity).
    assert (Ehi : (one / (one + of_Z 4 * dec 429 100 / dec 10 10))%fl = Fin hi)
      by (apply FlFacts.eqb_eq; vm_compute; reflexivity).
    rewrite Elo, Ehi. reflexivity. }
  split; [|split; [|split]].
  - rewrite <- (Qcplus_0_l lo) at 1. apply Qcplus_le_compat.
    + now apply Qcmult_nonneg.
    + apply Qcle_refl.
  - replace hi with (1 * (hi + - lo) + lo) at 2 by ring.
    apply Qcplus_le_compat; [|apply Qcle_refl].
    now apply Qcmult_le_compat_r.
  - intros ->. ring.
  - intros ->. ring.
Qed.

End FuelBoundary.

Lemma X2_witness :
  Np.rows2 (get_zf_bc_vector (Np.mkArray2 1 2 (fun _ j => dec (Z.of_nat j) 2)) one)
  = 1%nat
  /\ Np.cols2 (get_zf_bc_vector (Np.mkArray2 1 2 (fun _ j => dec (Z.of_nat j) 2)) one)
     = 2%nat
  /\ exists z : Qc,
       Np.item2 (get_zf_bc_vector (Np.mkArray2 1 2 (fun _ j => dec (Z.of_nat j) 2))
                                  one) 0 1 = Fin z
       /\ (Q2Qc (20 # 449) <= z)%Qc /\ (z <= Q2Qc (25 # 454))%Qc
       /\ (Q2Qc (1 # 2) = 0%Qc -> z = Q2Qc (20 # 449))
       /\ (Q2Qc (1 # 2) = 1%Qc -> z = Q2Qc (25 # 454)).
Proof.
  apply (X2_fuel_boundary_within_bounds
           (Np.mkArray2 1 2 (fun _ j => dec (Z.of_nat j) 2)) one
           0%nat 1%nat (Q2Qc (1 # 2))).
  - reflexivity.
  - discriminate.
  - discriminate.
Defined.

Section StateEquationMore.

Local Open Scope Qc_scope.

Context {Box : Type}.

Lemma div_by_pos (a w : Qc) : 0 < w -> (Fin a / Fin w)%fl = Fin (a / w).
Proof.
  intros Hw. cbn [Fl.div].
  assert (Ew : sgn w = Gt) by now apply FlFacts.sgn_Gt.
  now rewrite Ew.
Qed.

(** The mixing term of finite mass fractions is finite. *)
Lemma mixing_term_finite (f o : Qc) :
  ((Fin f / dec 16 1000 + Fin o / dec 32 1000
    + (one - Fin f - Fin o) / dec 62 1000)%fl
   = Fin (f / Q2Qc (16 # 1000) + o / Q2Qc (32 # 1000)
          + (Q2Qc (inject_Z 1) + - f + - o) / Q2Qc (62 # 1000))).
Proof.
  unfold dec, one, of_Z. cbn [Fl.sub Fl.neg Fl.add].
  now rewrite !div_by_pos by reflexivity.
Qed.

(** X3.  For a pure species the state equation is the ideal gas law
    [density = p * W / (R * T)]: with [Yf = 1, Yo = 0] the molar mass is
    [Wf = 0.016], with [Yf = 0, Yo = 1] it is [Wo = 0.032], and with
    [Yf = Yo = 0] (pure product) it is [Wp = 0.062]; [p] is any finite
    pressure and [T] a positive temperature. *)
Theorem X3_pure_species_ideal_gas :
  forall (pressure temperature Yf Yo : CenteredGrid Box) (b y x k : nat)
         (p t : Qc),
    Np.item (data pressure) b y x k = Fin p ->
    Np.item (data temperature) b y x k = Fin t ->
    0 < t ->
    (Np.item (data Yf) b y x k = one -> Np.item (data Yo) b y x k = zero ->
     Np.item (data (state_equation pressure temperature Yf Yo)) b y x k
     = Fin (p * Q2Qc (16 # 1000) / (Q2Qc (8314 # 1000) * t)))
    /\ (Np.item (data Yf) b y x k = zero -> Np.item (data Yo) b y x k = one ->
        Np.item (data (state_equation pressure temperature Yf Yo)) b y x k
        = Fin (p * Q2Qc (32 # 1000) / (Q2Qc (8314 # 1000) * t)))
    /\ (Np.item (data Yf) b y x k = zero -> Np.item (data Yo) b y x k = zero ->
        Np.item (data (state_equation pressure temperature Yf Yo)) b y x k
        = Fin (p * Q2Qc (62 # 1000) / (Q2Qc (8314 # 1000) * t))).
Proof.
  intros pressure temperature Yf Yo b y x k p t Ep Et Ht.
  assert (Hne : t <> 0).
  { intros E. rewrite E in Ht. discriminate Ht. }
  assert (Hgen : forall f o m : Qc,
             f / Q2Qc (16 # 1000) + o / Q2Qc (32 # 1000)
             + (Q2Qc (inject_Z 1) + - f + - o) / Q2Qc (62 # 1000) = / m ->
             0 < m ->
             ideal_gas_density (Fin p) (Fin t) (Fin f) (Fin o)
             = Fin (p * m / (Q2Qc (8314 # 1000) * t))).
  { intros f o m Em Hm. unfold ideal_gas_density, pow_neg1.
    rewrite mixing_term_finite, Em. unfold dec.
    rewrite (div_one_pos _ R_pos). cbn [Fl.mul].
    assert (Hpos : 0 < / m * t).
    { apply FlFacts.Qcmult_pos; [now apply FlFacts.Qcinv_pos | exact Ht]. }
    unfold one, of_Z. rewrite (div_by_pos _ _ Hpos). cbn [Fl.mul]. f_equal.
    assert (Hm0 : m <> 0).
    { intros E. rewrite E in Hm. discriminate Hm. }
    change (Q2Qc (inject_Z 1)) with 1.
    field. repeat split; auto; discriminate. }
  rewrite state_equation_item, Ep, Et.
  repeat split; intros -> ->.
  - apply (Hgen (Q2Qc (inject_Z 1)) (Q2Qc (inject_Z 0)) (Q2Qc (16 # 1000)));
      [apply Qc_is_canon|]; reflexivity.
  - apply (Hgen (Q2Qc (inject_Z 0)) (Q2Qc (inject_Z 1)) (Q2Qc (32 # 1000)));
      [apply Qc_is_canon|]; reflexivity.
  - apply (Hgen (Q2Qc (inject_Z 0)) (Q2Qc (inject_Z 0)) (Q2Qc (62 # 1000)));
      [apply Qc_is_canon|]; reflexivity.
Qed.

End StateEquationMore.

Lemma X3_witness :
  (Np.item (data (Still.uniform (Np.mkShape 1 2 2 1) one)) 0 1 1 0 = one ->
   Np.item (data (Still.uniform (Np.mkShape 1 2 2 1) zero)) 0 1 1 0 = zero ->
   Np.item (data (state_equation
                    (Still.uniform (Np.mkShape 1 2 2 1) (of_Z 101325))
                    (Still.uniform (Np.mkShape 1 2 2 1) (of_Z 800))
                    (Still.uniform (Np.mkShape 1 2 2 1) one)
                    (Still.uniform (Np.mkShape 1 2 2 1) zero))) 0 1 1 0
   = Fin (Q2Qc (inject_Z 101325) * Q2Qc (16 # 1000)
          / (Q2Qc (8314 # 1000) * Q2Qc (inject_Z 800)))%Qc)
  /\ (Np.item (data (Still.uniform (Np.mkShape 1 2 2 1) one)) 0 1 1 0 = zero ->
      Np.item (data (Still.uniform (Np.mkShape 1 2 2 1) zero)) 0 1 1 0 = one ->
      Np.item (data (state_equation
                       (Still.uniform (Np.mkShape 1 2 2 1) (of_Z 101325))
                       (Still.uniform (Np.mkShape 1 2 2 1) (of_Z 800))
                       (Still.uniform (Np.mkShape 1 2 2 1) one)
                       (Still.uniform (Np.mkShape 1 2 2 1) zero))) 0 1 1 0
      = Fin (Q2Qc (inject_Z 101325) * Q2Qc (32 # 1000)
             / (Q2Qc (8314 # 1000) * Q2Qc (inject_Z 800)))%Qc)
  /\ (Np.item (data (Still.uniform (Np.mkShape 1 2 2 1) one)) 0 1 1 0 = zero ->
      Np.item (data (Still.uniform (Np.mkShape 1 2 2 1) zero)) 0 1 1 0 = zero ->
      Np.item (data (state_equation
                       (Still.uniform (Np.mkShape 1 2 2 1) (of_Z 101325))
                       (Still.uniform (Np.mkShape 1 2 2 1) (of_Z 800))
                       (Still.uniform (Np.mkShape 1 2 2 1) one)
                       (Still.uniform (Np.mkShape 1 2 2 1) zero))) 0 1 1 0
      = Fin (Q2Qc (inject_Z 101325) * Q2Qc (62 # 1000)
             / (Q2Qc (8314 # 1000) * Q2Qc (inject_Z 800)))%Qc).
Proof.
  apply (X3_pure_species_ideal_gas
           (Still.uniform (Np.mkShape 1 2 2 1) (of_Z 101325))
           (Still.uniform (Np.mkShape 1 2 2 1) (of_Z 800))
           (Still.uniform (Np.mkShape 1 2 2 1) one)
           (Still.uniform (Np.mkShape 1 2 2 1) zero)
           0%nat 1%nat 1%nat 0%nat
           (Q2Qc (inject_Z 101325)) (Q2Qc (inject_Z 800))).
  - reflexivity.
  - reflexivity.
  - reflexivity.
Defined.

(** X4.  In binary32 and binary64, where the temperature is a zero of either
    sign and the mixing term is neither infinite nor NaN, the state equation
    divides by zero without raising: the density is NaN when
    [(1.0 / 8.314) * pressure] is a zero or a NaN, and otherwise an infinity
    whose sign is the exclusive or of the signs of
    [(1.0 / 8.314) * pressure], of the mixing term and of the temperature. *)
Theorem X4_zero_temperature_density :
  forall (f : Ieee.format) (pressure temperature Yf Yo : Ieee.float),
    Ieee.supported f ->
    Ieee.is_zero temperature = true ->
    Ieee.is_inf (Ieee.mixing f Yf Yo) = false ->
    Ieee.is_nan (Ieee.mixing f Yf Yo) = false ->
    Ieee.density f pressure temperature Yf Yo
    = if Ieee.is_zero (Ieee.prefactor f pressure)
         || Ieee.is_nan (Ieee.prefactor f pressure)
      then SpecFloat.S754_nan
      else SpecFloat.S754_infinity
             (xorb (Ieee.sign (Ieee.prefactor f pressure))
                   (xorb (Ieee.sign (Ieee.mixing f Yf Yo))
                         (Ieee.sign temperature))).
Proof.
  intros f pressure temperature Yf Yo Hf HT Hinf Hnan.
  unfold Ieee.density, Ieee.pow_neg1.
  assert (H1 : Ieee.one f
               = SpecFloat.S754_finite false
                   (Z.to_pos (2 ^ (Ieee.prec f - 1))) (1 - Ieee.prec f)).
  { destruct Hf as [-> | ->]; vm_compute; reflexivity. }
  rewrite H1.
  destruct temperature as [st| | |]; try discriminate HT.
  destruct (Ieee.mixing f Yf Yo) as [sm|sm| |sm mm em];
    try discriminate Hinf; try discriminate Hnan;
    destruct (Ieee.prefactor f pressure) as [sp|sp| |sp mp ep];
    reflexivity.
Qed.

(** The state equation in binary64 at [pressure = 101325], [Yf = -1],
    [Yo = 0] and a temperature [+0.0]: the mixing term is negative and the
    density is [-inf]. *)
Lemma X4_witness :
  Ieee.density Ieee.binary64 (Ieee.lit (inject_Z 101325))
               (SpecFloat.S754_zero false)
               (Ieee.lit (inject_Z (-1))) (Ieee.lit 0)
  = SpecFloat.S754_infinity true.
Proof.
  apply (X4_zero_temperature_density Ieee.binary64
           (Ieee.lit (inject_Z 101325)) (SpecFloat.S754_zero false)
           (Ieee.lit (inject_Z (-1))) (Ieee.lit 0)).
  - right. reflexivity.
  - reflexivity.
  - vm_compute. reflexivity.
  - vm_compute. reflexivity.
Defined.

(* ===================================================================== *)
(** ** Further properties: the roughness normalisation *)
(* ===================================================================== *)

Section Extrema.

Local Open Scope Qc_scope.

Lemma min2_finite (a b : Qc) :
  min2 (Fin a) (Fin b) = Fin (if Qclt_le_dec b a then b else a).
Proof.
  unfold min2, ltb. destruct (Qclt_le_dec b a) as [H|H].
  - now rewrite (proj1 (Qclt_alt b a) H).
  - destruct (Qccompare b a) eqn:E; try reflexivity.
    apply Qclt_alt in E. exfalso. exact (Qcle_not_lt _ _ H E).
Qed.

Lemma max2_finite (a b : Qc) :
  max2 (Fin a) (Fin b) = Fin (if Qclt_le_dec a b then b else a).
Proof.
  unfold max2, ltb. destruct (Qclt_le_dec a b) as [H|H].
  - now rewrite (proj1 (Qclt_alt a b) H).
  - destruct (Qccompare a b) eqn:E; try reflexivity.
    apply Qclt_alt in E. exfalso. exact (Qcle_not_lt _ _ H E).
Qed.

(** The running minimum of finite values is the least of them. *)
Lemma fold_min_finite (l : list fl) (q : Qc) :
  Forall (fun v => is_finite v = true) l ->
  exists m,
    fold_left min2 l (Fin q) = Fin m
    /\ In (Fin m) (Fin q :: l)
    /\ m <= q
    /\ forall r, In (Fin r) l -> m <= r.
Proof.
  intros Hl. revert q. induction Hl as [|v l Hv _ IH]; intros q.
  - exists q. cbn. repeat split; auto using Qcle_refl. intros r [].
  - destruct v as [a| | |]; try discriminate Hv.
    cbn [fold_left]. rewrite min2_finite.
    destruct (Qclt_le_dec a q) as [H|H].
    + destruct (IH a) as (m & E & Hin & Hle & Hall).
      exists m. split; [exact E|]. split; [|split].
      * destruct Hin as [Hin|Hin]; [right; left; exact Hin | right; right; exact Hin].
      * apply Qcle_trans with a; [exact Hle | now apply Qclt_le_weak].
      * intros r [Hr|Hr]; [injection Hr as <-; exact Hle | now apply Hall].
    + destruct (IH q) as (m & E & Hin & Hle & Hall).
      exists m. split; [exact E|]. split; [|split].
      * destruct Hin as [Hin|Hin]; [left; exact Hin | right; right; exact Hin].
      * exact Hle.
      * intros r [Hr|Hr]; [injection Hr as <-; now apply Qcle_trans with q
                          | now apply Hall].
Qed.

(** The running maximum of finite values is the greatest of them. *)
Lemma fold_max_finite (l : list fl) (q : Qc) :
  Forall (fun v => is_finite v = true) l ->
  exists m,
    fold_left max2 l (Fin q) = Fin m
    /\ In (Fin m) (Fin q :: l)
    /\ q <= m
    /\ forall r, In (Fin r) l -> r <= m.
Proof.
  intros Hl. revert q. induction Hl as [|v l Hv _ IH]; intros q.
  - exists q. cbn. repeat split; auto using Qcle_refl. intros r [].
  - destruct v as [a| | |]; try discriminate Hv.
    cbn [fold_left]. rewrite max2_finite.
    destruct (Qclt_le_dec q a) as [H|H].
    + destruct (IH a) as (m & E & Hin & Hle & Hall).
      exists m. split; [exact E|]. split; [|split].
      * destruct Hin as [Hin|Hin]; [right; left; exact Hin | right; right; exact Hin].
      * apply Qcle_trans with a; [now apply Qclt_le_weak | exact Hle].
      * intros r [Hr|Hr]; [injection Hr as <-; exact Hle | now apply Hall].
    + destruct (IH q) as (m & E & Hin & Hle & Hall).
      exists m. split; [exact E|]. split; [|split].
      * destruct Hin as [Hin|Hin]; [left; exact Hin | right; right; exact Hin].
      * exact Hle.
      * intros r [Hr|Hr]; [injection Hr as <-; now apply Qcle_trans with q
                          | now apply Hall].
Qed.

(** A [NaN] among the values is the running minimum and maximum. *)
Lemma fold_nan (f : fl -> fl -> fl) (l : list fl) :
  (forall y, f NaN y = NaN) -> fold_left f l NaN = NaN.
Proof.
  intros Hf. induction l as [|y l IH]; [reflexivity|].
  cbn [fold_left]. now rewrite Hf.
Qed.

Lemma fold_in_nan (f : fl -> fl -> fl) (l : list fl) (x : fl) :
  (forall y, f NaN y = NaN) -> (forall y, f y NaN = NaN) ->
  In NaN (x :: l) -> fold_left f l x = NaN.
Proof.
  intros Hl Hr. revert x. induction l as [|y l IH]; intros x Hin.
  - destruct Hin as [->|[]]. reflexivity.
  - cbn [fold_left]. destruct Hin as [->|[->|Hin]].
    + rewrite Hl. now apply fold_nan.
    + rewrite Hr. now apply fold_nan.
    + apply IH. now right.
Qed.

Lemma min2_nan_l (y : fl) : min2 NaN y = NaN.
Proof. reflexivity. Qed.

Lemma min2_nan_r (y : fl) : min2 y NaN = NaN.
Proof. now destruct y. Qed.

Lemma max2_nan_l (y : fl) : max2 NaN y = NaN.
Proof. reflexivity. Qed.

Lemma max2_nan_r (y : fl) : max2 y NaN = NaN.
Proof. now destruct y. Qed.

End Extrema.

Section Normalisation.

Import Np.

Local Open Scope Qc_scope.

Lemma in_entries (a : Array2) (v : fl) :
  In v (entries a) <->
  exists i j, (i < rows2 a)%nat /\ (j < cols2 a)%nat /\ item2 a i j = v.
Proof.
  unfold entries. rewrite List.in_flat_map. split.
  - intros (i & Hi & Hx). apply List.in_map_iff in Hx.
    destruct Hx as (j & E & Hj). apply List.in_seq in Hi, Hj.
    exists i, j. repeat split; (lia || assumption).
  - intros (i & j & Hi & Hj & E). exists i. split.
    + apply List.in_seq. lia.
    + apply List.in_map_iff. exists j. split; [exact E|].
      apply List.in_seq. lia.
Qed.

Lemma layer_inr (rd_array : Array3) (rd_yk : Array2) :
  layer rd_array 20 = inr rd_yk ->
  (21 <= layers rd_array)%nat
  /\ rd_yk = mkArray2 (rows3 rd_array) (cols3 rd_array) (item3 rd_array 20).
Proof.
  unfold layer. destruct (sel_ok (layers rd_array) (At 20)) eqn:E; [|discriminate].
  intros H. injection H as <-. split; [|reflexivity].
  cbv [sel_ok sel_lo] in E. change (20 <? 0)%Z with false in E. cbv iota in E.
  rewrite andb_true_iff, Z.leb_le, Z.ltb_lt in E. lia.
Qed.

Lemma reduce_inr (f : fl -> fl -> fl) (a : Array2) (v : fl) :
  reduce f a = inr v ->
  exists x l, entries a = x :: l /\ v = fold_left f l x.
Proof.
  unfold reduce. destruct (entries a) as [|x l]; [discriminate|].
  intros H. injection H as <-. eauto.
Qed.

(** X5.  When the values of slice 20 of the roughness array are finite, at
    most [1e30] in magnitude and not all equal, the range [max - min] of the
    slice is positive and at most [2e30], within binary32 and binary64, and
    the normalisation of the step maps the slice into [0, 1]: the result has
    the shape of the slice, every entry is a finite number between 0 and 1,
    the entry at a least value of the slice is exactly 0 and the entry at a
    greatest value is exactly 1. *)
Theorem X5_normalized_roughness_unit_range :
  forall (rd_array : Array3) (rd_yk : Array2) (i1 j1 i2 j2 : nat),
    normalized_roughness rd_array = inr rd_yk ->
    (forall i j, (i < rows3 rd_array)%nat -> (j < cols3 rd_array)%nat ->
       exists q, item3 rd_array 20 i j = Fin q
                 /\ - Q2Qc (inject_Z 1000000000000000000000000000000) <= q
                 /\ q <= Q2Qc (inject_Z 1000000000000000000000000000000)) ->
    (i1 < rows3 rd_array)%nat -> (j1 < cols3 rd_array)%nat ->
    (i2 < rows3 rd_array)%nat -> (j2 < cols3 rd_array)%nat ->
    item3 rd_array 20 i1 j1 <> item3 rd_array 20 i2 j2 ->
    rows2 rd_yk = rows3 rd_array /\ cols2 rd_yk = cols3 rd_array
    /\ (forall i j, (i < rows3 rd_array)%nat -> (j < cols3 rd_array)%nat ->
          exists q, item2 rd_yk i j = Fin q /\ 0 <= q /\ q <= 1)
    /\ (exists i j, (i < rows3 rd_array)%nat /\ (j < cols3 rd_array)%nat
                    /\ item2 rd_yk i j = zero
                    /\ forall i' j', (i' < rows3 rd_array)%nat ->
                                     (j' < cols3 rd_array)%nat ->
                                     ltb (item3 rd_array 20 i' j')
                                         (item3 rd_array 20 i j) = false)
    /\ (exists i j, (i < rows3 rd_array)%nat /\ (j < cols3 rd_array)%nat
                    /\ item2 rd_yk i j = one
                    /\ forall i' j', (i' < rows3 rd_array)%nat ->
                                     (j' < cols3 rd_array)%nat ->
                                     ltb (item3 rd_array 20 i j)
                                         (item3 rd_array 20 i' j') = false)
    /\ (exists lo hi,
          min (mkArray2 (rows3 rd_array) (cols3 rd_array) (item3 rd_array 20))
          = inr (Fin lo)
          /\ max (mkArray2 (rows3 rd_array) (cols3 rd_array)
                           (item3 rd_array 20))
             = inr (Fin hi)
          /\ 0 < hi - lo
          /\ hi - lo <= Q2Qc (inject_Z 2000000000000000000000000000000)).
Proof.
  intros rd_array rd_yk i1 j1 i2 j2 H Hbnd Hi1 Hj1 Hi2 Hj2 Hne.
  assert (Hfin : forall i j, (i < rows3 rd_array)%nat ->
                             (j < cols3 rd_array)%nat ->
                             is_finite (item3 rd_array 20 i j) = true).
  { intros i j Hi Hj. destruct (Hbnd i j Hi Hj) as (q & -> & _). reflexivity. }
  unfold normalized_roughness in H. rinv H.
  match goal with E : layer _ _ = _ |- _ => apply layer_inr in E; destruct E as [HL ->] end.
  set (a := mkArray2 (rows3 rd_array) (cols3 rd_array) (item3 rd_array 20)) in *.
  repeat match goal with
  | E1 : min a = inr ?x, E2 : min a = inr ?y |- _ =>
      rewrite E1 in E2; injection E2 as <-
  end.
  match goal with E : min a = inr ?x |- _ => rename x into lo; rename E into Emin end.
  match goal with E : max a = inr ?x |- _ => rename x into hi; rename E into Emax end.
  injection H as <-.
  pose proof Emin as Emin'. pose proof Emax as Emax'.
  apply reduce_inr in Emin. destruct Emin as (x & l & El & Elo).
  apply reduce_inr in Emax. destruct Emax as (x' & l' & El' & Ehi).
  rewrite El in El'. injection El' as <- <-.
  assert (Hall : Forall (fun v => is_finite v = true) (x :: l)).
  { rewrite <- El. apply List.Forall_forall. intros v Hv.
    apply in_entries in Hv. destruct Hv as (i & j & Hi & Hj & <-).
    now apply Hfin. }
  inversion Hall as [|? ? Hx Hl]; subst x0 l0.
  destruct x as [q| | |]; try discriminate Hx.
  destruct (fold_min_finite l q Hl) as (m & Em & Hmin & Hmq & Hml).
  destruct (fold_max_finite l q Hl) as (M & EM & Hmax & HqM & HMl).
  rewrite Em in Elo. rewrite EM in Ehi. subst lo hi.
  assert (Hbound : forall i j, (i < rows3 rd_array)%nat -> (j < cols3 rd_array)%nat ->
                     exists r, item3 rd_array 20 i j = Fin r /\ m <= r /\ r <= M).
  { intros i j Hi Hj.
    assert (Hin : In (item3 rd_array 20 i j) (Fin q :: l)).
    { rewrite <- El. apply in_entries. exists i, j. auto. }
    destruct (item3 rd_array 20 i j) as [r| | |] eqn:Er;
      try (specialize (Hfin i j Hi Hj); rewrite Er in Hfin; discriminate).
    exists r. split; [reflexivity|].
    destruct Hin as [Hin|Hin].
    - injection Hin as <-. auto.
    - auto. }
  assert (HmM : m < M).
  { destruct (Hbound i1 j1 Hi1 Hj1) as (r1 & E1 & L1 & U1).
    destruct (Hbound i2 j2 Hi2 Hj2) as (r2 & E2 & L2 & U2).
    destruct (Qclt_le_dec m M) as [Hlt|Hle]; [exact Hlt|].
    exfalso. apply Hne. rewrite E1, E2. f_equal.
    apply Qcle_antisym.
    - apply Qcle_trans with M; [exact U1|]. now apply Qcle_trans with m.
    - apply Qcle_trans with M; [exact U2|]. now apply Qcle_trans with m. }
  assert (Hd : 0 < M + - m) by now apply Qcminus_pos.
  assert (Hd0 : M + - m <> 0).
  { intros E. rewrite E in Hd. discriminate Hd. }
  assert (Hval : forall r, ((Fin r - Fin m) / (Fin M - Fin m))%fl
                           = Fin ((r + - m) / (M + - m))).
  { intros r. cbn [Fl.sub Fl.neg Fl.add Fl.div].
    now rewrite (proj2 (FlFacts.sgn_Gt _) Hd). }
  cbn [rows2 cols2 item2 map_2 a].
  split; [reflexivity|]. split; [reflexivity|]. split; [|split; [|split]].
  - intros i j Hi Hj. destruct (Hbound i j Hi Hj) as (r & -> & Lr & Ur).
    rewrite Hval. eexists. split; [reflexivity|]. split.
    + apply Qcdiv_nonneg; [now apply Qcminus_nonneg | exact Hd].
    + apply Qcdiv_le_one; [|exact Hd].
      apply Qcplus_le_compat; [exact Ur | apply Qcle_refl].
  - rewrite <- El in Hmin. apply in_entries in Hmin.
    destruct Hmin as (i & j & Hi & Hj & E). cbn [rows2 cols2 item2 a] in Hi, Hj, E.
    exists i, j. split; [exact Hi|]. split; [exact Hj|]. split.
    + rewrite E, Hval. unfold zero, of_Z. f_equal.
      rewrite Qcplus_opp_r. unfold Qcdiv. now rewrite Qcmult_0_l.
    + intros i' j' Hi' Hj'. destruct (Hbound i' j' Hi' Hj') as (r & -> & Lr & _).
      rewrite E. cbn [ltb]. destruct (Qccompare r m) eqn:C; try reflexivity.
      apply Qclt_alt in C. exfalso. exact (Qcle_not_lt _ _ Lr C).
  - rewrite <- El in Hmax. apply in_entries in Hmax.
    destruct Hmax as (i & j & Hi & Hj & E). cbn [rows2 cols2 item2 a] in Hi, Hj, E.
    exists i, j. split; [exact Hi|]. split; [exact Hj|]. split.
    + rewrite E, Hval. unfold one, of_Z. f_equal.
      unfold Qcdiv. now rewrite Qcmult_inv_r.
    + intros i' j' Hi' Hj'. destruct (Hbound i' j' Hi' Hj') as (r & -> & _ & Ur).
      rewrite E. cbn [ltb]. destruct (Qccompare M r) eqn:C; try reflexivity.
      apply Qclt_alt in C. exfalso. exact (Qcle_not_lt _ _ Ur C).
  - exists m, M. split; [exact Emin'|]. split; [exact Emax'|].
    split; [exact Hd|].
    rewrite <- El in Hmin, Hmax. apply in_entries in Hmin, Hmax.
    destruct Hmin as (i & j & Hi & Hj & E).
    destruct Hmax as (i' & j' & Hi' & Hj' & E').
    cbn [rows2 cols2 item2 a] in Hi, Hj, E, Hi', Hj', E'.
    destruct (Hbnd i j Hi Hj) as (r & Er & Lr & _).
    destruct (Hbnd i' j' Hi' Hj') as (r' & Er' & _ & Ur').
    rewrite E in Er. injection Er as <-.
    rewrite E' in Er'. injection Er' as <-.
    change (Q2Qc (inject_Z 2000000000000000000000000000000))
      with (Q2Qc (inject_Z 1000000000000000000000000000000)
            + Q2Qc (inject_Z 1000000000000000000000000000000)).
    apply Qcplus_le_compat; [exact Ur'|].
    apply Qcopp_le_compat in Lr. rewrite Qcopp_involutive in Lr. exact Lr.
Qed.

(** X6.  One [NaN] entry in slice 20 of the roughness array makes every
    entry of the normalised slice [NaN]: [np.min] and [np.max] return [NaN]
    and nothing is raised. *)
Theorem X6_normalized_roughness_nan_spreads :
  forall (rd_array : Array3) (i0 j0 : nat),
    (21 <= layers rd_array)%nat ->
    (i0 < rows3 rd_array)%nat -> (j0 < cols3 rd_array)%nat ->
    item3 rd_array 20 i0 j0 = NaN ->
    exists rd_yk,
      normalized_roughness rd_array = inr rd_yk
      /\ rows2 rd_yk = rows3 rd_array /\ cols2 rd_yk = cols3 rd_array
      /\ forall i j, item2 rd_yk i j = NaN.
Proof.
  intros rd_array i0 j0 HL Hi Hj E0.
  unfold normalized_roughness, layer.
  assert (Hok : sel_ok (layers rd_array) (At 20) = true).
  { cbv [sel_ok sel_lo]. change (20 <? 0)%Z with false. cbv iota.
    rewrite andb_true_iff, Z.leb_le, Z.ltb_lt. lia. }
  rewrite Hok. cbn [rbind].
  change (sel_at (layers rd_array) (At 20)) with 20%nat.
  set (a := mkArray2 (rows3 rd_array) (cols3 rd_array) (item3 rd_array 20)).
  assert (Hin : In NaN (entries a)).
  { apply in_entries. exists i0, j0. auto. }
  assert (Emin : min a = inr NaN).
  { unfold min, reduce. destruct (entries a) as [|x l]; [destruct Hin|].
    f_equal. apply fold_in_nan; auto using min2_nan_l, min2_nan_r. }
  assert (Emax : max a = inr NaN).
  { unfold max, reduce. destruct (entries a) as [|x l]; [destruct Hin|].
    f_equal. apply fold_in_nan; auto using max2_nan_l, max2_nan_r. }
  rewrite Emin, Emax. cbn [rbind].
  eexists. split; [reflexivity|]. cbn [rows2 cols2 item2 map_2 a].
  repeat split. intros i j. now destruct (item3 rd_array 20 i j).
Qed.

(** X7.  The outcome of the normalisation is decided by the shape of the
    roughness array: [IndexError] when it has fewer than 21 layers,
    [ValueError] (the minimum of an empty array) when it has 21 layers but no
    row or no column, and otherwise an array of the shape of a layer; no
    other exception is raised. *)
Theorem X7_normalized_roughness_outcome :
  forall rd_array : Array3,
    match normalized_roughness rd_array with
    | inl IndexError => (layers rd_array < 21)%nat
    | inl ValueError =>
        (21 <= layers rd_array)%nat
        /\ (rows3 rd_array = 0%nat \/ cols3 rd_array = 0%nat)
    | inl _ => False
    | inr rd_yk =>
        (21 <= layers rd_array)%nat
        /\ (0 < rows3 rd_array)%nat /\ (0 < cols3 rd_array)%nat
        /\ rows2 rd_yk = rows3 rd_array /\ cols2 rd_yk = cols3 rd_array
    end.
Proof.
  intros rd_array. unfold normalized_roughness, layer.
  destruct (sel_ok (layers rd_array) (At 20)) eqn:Hok.
  - assert (HL : (21 <= layers rd_array)%nat).
    { cbv [sel_ok sel_lo] in Hok. change (20 <? 0)%Z with false in Hok.
      cbv iota in Hok. rewrite andb_true_iff, Z.leb_le, Z.ltb_lt in Hok. lia. }
    cbn [rbind]. unfold min, max, reduce, entries.
    cbn [rows2 cols2 item2].
    destruct (rows3 rd_array) as [|r].
    { cbn. auto. }
    destruct (cols3 rd_array) as [|c].
    { assert (E : flat_map (fun i : nat => map (item3 rd_array (sel_at (layers rd_array) (At 20)) i) (seq 0 0))
                           (seq 0 (S r)) = []).
      { generalize (seq 0 (S r)). intros l. induction l; [reflexivity | exact IHl]. }
      rewrite E. cbn. auto. }
    cbn [seq flat_map map app rbind rows2 cols2 map_2].
    repeat split; (lia || reflexivity).
  - cbn [rbind].
    cbv [sel_ok sel_lo] in Hok. change (20 <? 0)%Z with false in Hok.
    cbv iota in Hok. rewrite andb_false_iff, Z.leb_gt, Z.ltb_ge in Hok. lia.
Qed.

End Normalisation.

(** The normalisation of the ramp roughness over 2 by 2 cells, whose slice
    20 holds the values 0, 1, 1, 2. *)
Lemma X5_witness :
  Np.rows2 (Np.map_2 (fun r => (r - zero) / (of_Z 2 - zero))
              (Np.mkArray2 2 2 (Still.ramp 20))) = 2%nat
  /\ Np.cols2 (Np.map_2 (fun r => (r - zero) / (of_Z 2 - zero))
                 (Np.mkArray2 2 2 (Still.ramp 20))) = 2%nat
  /\ (forall i j, (i < 2)%nat -> (j < 2)%nat ->
        exists q,
          Np.item2 (Np.map_2 (fun r => (r - zero) / (of_Z 2 - zero))
                      (Np.mkArray2 2 2 (Still.ramp 20))) i j = Fin q
          /\ (0 <= q)%Qc /\ (q <= 1)%Qc)
  /\ (exists i j, (i < 2)%nat /\ (j < 2)%nat
        /\ Np.item2 (Np.map_2 (fun r => (r - zero) / (of_Z 2 - zero))
                       (Np.mkArray2 2 2 (Still.ramp 20))) i j = zero
        /\ forall i' j', (i' < 2)%nat -> (j' < 2)%nat ->
             ltb (Still.ramp 20 i' j') (Still.ramp 20 i j) = false)
  /\ (exists i j, (i < 2)%nat /\ (j < 2)%nat
        /\ Np.item2 (Np.map_2 (fun r => (r - zero) / (of_Z 2 - zero))
                       (Np.mkArray2 2 2 (Still.ramp 20))) i j = one
        /\ forall i' j', (i' < 2)%nat -> (j' < 2)%nat ->
             ltb (Still.ramp 20 i j) (Still.ramp 20 i' j') = false)
  /\ (exists lo hi,
        Np.min (Np.mkArray2 2 2 (Still.ramp 20)) = inr (Fin lo)
        /\ Np.max (Np.mkArray2 2 2 (Still.ramp 20)) = inr (Fin hi)
        /\ (0 < hi - lo)%Qc
        /\ (hi - lo <= Q2Qc (inject_Z 2000000000000000000000000000000))%Qc).
Proof.
  apply (X5_normalized_roughness_unit_range
           (Still.roughness 2 Still.ramp)
           (Np.map_2 (fun r => (r - zero) / (of_Z 2 - zero))
              (Np.mkArray2 2 2 (Still.ramp 20)))
           0%nat 0%nat 1%nat 1%nat).
  - vm_compute. reflexivity.
  - intros i j Hi Hj. cbn in Hi, Hj.
    assert (Hc : (i = 0 \/ i = 1)%nat /\ (j = 0 \/ j = 1)%nat) by lia.
    destruct Hc as [[-> | ->] [-> | ->]]; eexists;
      (split; [reflexivity | split; vm_compute; discriminate]).
  - cbn. lia.
  - cbn. lia.
  - cbn. lia.
  - cbn. lia.
  - cbn. discriminate.
Defined.

(** Beyond that bound the range can overflow.  In binary64 the slice
    [[-1e308, 0], [0, 1e308]] has the range [inf], and its normalisation is
    [[0, 0], [0, nan]]. *)
Example normalisation_overflow :
  let lo := Ieee.lit (inject_Z (- 10 ^ 308)) in
  let hi := Ieee.lit (inject_Z (10 ^ 308)) in
  Ieee.is_inf lo = false /\ Ieee.is_inf hi = false
  /\ Ieee.sub Ieee.binary64 hi lo = SpecFloat.S754_infinity false
  /\ Ieee.normalised Ieee.binary64 lo lo hi = SpecFloat.S754_zero false
  /\ Ieee.normalised Ieee.binary64 (Ieee.lit 0) lo hi
     = SpecFloat.S754_zero false
  /\ Ieee.normalised Ieee.binary64 hi lo hi = SpecFloat.S754_nan.
Proof.
  cbv zeta. repeat split; vm_compute; reflexivity.
Qed.

Lemma X6_witness :
  exists rd_yk,
    normalized_roughness
      (Still.roughness 2 (fun l r c => if Nat.eqb r 1 then NaN else Still.ramp l r c))
    = inr rd_yk
    /\ Np.rows2 rd_yk = 2%nat /\ Np.cols2 rd_yk = 2%nat
    /\ forall i j, Np.item2 rd_yk i j = NaN.
Proof.
  apply (X6_normalized_roughness_nan_spreads
           (Still.roughness 2
              (fun l r c => if Nat.eqb r 1 then NaN else Still.ramp l r c))
           1%nat 0%nat).
  - cbn. lia.
  - cbn. lia.
  - cbn. lia.
  - reflexivity.
Defined.

(* ===================================================================== *)
(** ** Further properties: the velocity boundary policy *)
(* ===================================================================== *)

Section InflowProfile.

Import Np.

Local Open Scope Qc_scope.

Lemma Qcabs_nonneg (q : Qc) : 0 <= (match sgn q with Lt => - q | _ => q end).
Proof.
  unfold sgn. destruct (Qccompare q 0) eqn:E.
  - apply Qceq_alt in E. subst q. apply Qcle_refl.
  - apply Qclt_alt in E. apply Qclt_le_weak. apply Qclt_minus_iff in E.
    now rewrite Qcplus_0_l in E.
  - apply Qcgt_alt in E. now apply Qclt_le_weak.
Qed.

(** The inflow speed [|r| * 4 + 6] of a roughness value [r]: at least 6 for a
    finite [r], [+Inf] for an infinite one, [NaN] for [NaN]. *)
Lemma inflow_speed (r : fl) :
  match (abs r * of_Z 4 + of_Z 6)%fl with
  | Fin q => is_finite r = true /\ Q2Qc (inject_Z 6) <= q
  | PInf => is_inf r = true
  | NaN => is_nan r = true
  | NInf => False
  end.
Proof.
  destruct r as [q| | |]; try reflexivity.
  cbn [abs Fl.mul Fl.add of_Z]. split; [reflexivity|].
  rewrite <- (Qcplus_0_l (Q2Qc (inject_Z 6))) at 1.
  apply Qcplus_le_compat; [|apply Qcle_refl].
  apply Qcmult_nonneg; [apply Qcabs_nonneg | discriminate].
Qed.

Context {Box : Type}.

(** X8.  The value array [velBCy] of [VelocityBoundary_y] is zero outside
    the bottom row of the first batch member at component index 0 and the
    columns [0 .. res]; where it is written it holds an inflow speed
    [|r| * 4 + 6], which is at least 6 for a finite roughness value,
    [+Inf] for an infinite one and [NaN] for a [NaN]: it is never negative
    and never between 0 and 6. *)
Theorem X8_inflow_profile_support :
  forall (field : StaggeredGrid Box) (rd_array : Array3) (res : Z)
         (rd_yk : Array2) (equi_ratio : fl) (velBCy velBCyMask : ndarray)
         (b y x k : nat),
    VelocityBoundary_y field rd_array res rd_yk equi_ratio
      = inr (velBCy, velBCyMask) ->
    (0 <= res)%Z ->
    item velBCy b y x k = zero
    \/ (b = 0%nat /\ y = 0%nat /\ k = 0%nat /\ (Z.of_nat x <= res)%Z
        /\ match item velBCy b y x k with
           | Fin q => Q2Qc (inject_Z 6) <= q
           | PInf | NaN => True
           | NInf => False
           end).
Proof.
  intros field rd_array res rd_yk equi_ratio velBCy velBCyMask b y x k H Hres.
  apply VelocityBoundary_y_inr in H.
  destruct H as (f0 & v1 & v2 & _ & _ & _ & Hok & _ & _ & Hv & _).
  rewrite Hv. set (s := shape (data f0)) in *.
  assert (Hpos : forall (s2 : sel) (lim : Z),
             (forall n i, sel_mem n s2 i = true -> (Z.of_nat i <= lim)%Z) ->
             covers s (At 0) (Range 0 1) s2 (At 0) b y x k = true ->
             b = 0%nat /\ y = 0%nat /\ k = 0%nat /\ (Z.of_nat x <= lim)%Z).
  { intros s2 lim Hs2 Hc. unfold covers in Hc. rewrite !andb_true_iff in Hc.
    destruct Hc as [[[Hb Hy] Hx] Hk].
    apply NpFacts.sel_mem_At0 in Hb, Hk.
    apply NpFacts.sel_mem_first_inv in Hy. destruct Hy as [Hy _].
    apply Hs2 in Hx. auto. }
  destruct (covers s (At 0) (Range 0 1) (Range res (res + 1)) (At 0) b y x k) eqn:C2.
  { right. apply (Hpos _ res) in C2.
    - destruct C2 as (-> & -> & -> & Hx). repeat split; auto.
      match goal with |- match ?v with _ => _ end =>
        pose proof (inflow_speed (item1 v2 (bidx (len1 v2)
                     (sel_off (cols s) (Range res (res + 1)) x)))) as Hs;
        destruct v; tauto
      end.
    - intros n i Hm. apply NpFacts.sel_mem_iff in Hm. cbn [sel_lo sel_hi] in Hm.
      unfold clip in Hm.
      destruct (Z.ltb_spec res 0), (Z.ltb_spec (res + 1) 0); lia. }
  destruct (covers s (At 0) (Range 0 1) (Range 0 res) (At 0) b y x k) eqn:C3.
  { right. apply (Hpos _ res) in C3.
    - destruct C3 as (-> & -> & -> & Hx). repeat split; auto.
      match goal with |- match ?v with _ => _ end =>
        pose proof (inflow_speed
                      (item2 v1
                         (bidx (rows2 v1) (sel_off (rows s) (Range 0 1) 0))
                         (bidx (cols2 v1) (sel_off (cols s) (Range 0 res) x))))
          as Hs;
        destruct v; tauto
      end.
    - intros n i Hm. apply NpFacts.sel_mem_iff in Hm. cbn [sel_lo sel_hi] in Hm.
      unfold clip in Hm.
      destruct (Z.ltb_spec res 0), (Z.ltb_spec 0 0); lia. }
  now left.
Qed.

(** The mask of [VelocityBoundary_y] at component index 0, for [res >= 1]:
    zero on the bottom row and, from row [res // 4] on, on column 0 and on
    the columns from [res - 1]; one elsewhere. *)
Lemma VelocityBoundary_y_mask (field : StaggeredGrid Box) (f0 : CenteredGrid Box)
    (rd_array : Array3) (res : Z) (rd_yk : Array2) (equi_ratio : fl)
    (velBCy velBCyMask : ndarray) (b y x : nat) :
  VelocityBoundary_y field rd_array res rd_yk equi_ratio
    = inr (velBCy, velBCyMask) ->
  component field 0 = inr f0 ->
  (1 <= res)%Z ->
  inside (shape (data f0)) b y x 0 ->
  item velBCyMask b y x 0
  = (if (y =? 0)%nat
        || ((Z.quot res 4 <=? Z.of_nat y)%Z
            && ((x =? 0)%nat || (res - 1 <=? Z.of_nat x)%Z))
     then zero else one).
Proof.
  intros H Hf Hres (Hb & Hy & Hx & Hk).
  apply VelocityBoundary_y_inr in H.
  destruct H as (f0' & v1 & v2 & Hf' & _ & _ & _ & _ & _ & _ & Hm).
  rewrite Hf in Hf'. injection Hf' as <-.
  rewrite Hm. set (s := shape (data f0)) in *.
  assert (Hq : (0 <= Z.quot res 4)%Z) by (apply Z.quot_pos; lia).
  assert (Erow : sel_mem (rows s) (From (Z.quot res 4)) y
                 = (Z.quot res 4 <=? Z.of_nat y)%Z).
  { unfold sel_mem. cbn [sel_lo sel_hi]. rewrite (clip_nonneg _ _ Hq).
    destruct (Z.leb_spec (Z.quot res 4) (Z.of_nat y)).
    - destruct (Z.leb_spec (Z.min (Z.quot res 4) (Z.of_nat (rows s))) (Z.of_nat y));
        [|lia].
      destruct (Z.ltb_spec (Z.of_nat y) (Z.of_nat (rows s))); [reflexivity | lia].
    - destruct (Z.leb_spec (Z.min (Z.quot res 4) (Z.of_nat (rows s))) (Z.of_nat y));
        [lia | reflexivity]. }
  assert (Ecol : sel_mem (cols s) (From (res - 1)) x = (res - 1 <=? Z.of_nat x)%Z).
  { unfold sel_mem. cbn [sel_lo sel_hi]. rewrite (clip_nonneg _ (res - 1)) by lia.
    destruct (Z.leb_spec (res - 1) (Z.of_nat x)).
    - destruct (Z.leb_spec (Z.min (res - 1) (Z.of_nat (cols s))) (Z.of_nat x));
        [|lia].
      destruct (Z.ltb_spec (Z.of_nat x) (Z.of_nat (cols s))); [reflexivity | lia].
    - destruct (Z.leb_spec (Z.min (res - 1) (Z.of_nat (cols s))) (Z.of_nat x));
        [lia | reflexivity]. }
  unfold covers.
  rewrite !NpFacts.sel_mem_All, !NpFacts.sel_mem_first, NpFacts.sel_mem_At0_zero,
    Erow, Ecol by assumption.
  cbn [andb]. rewrite !andb_true_r.
  destruct (y =? 0)%nat, (Z.quot res 4 <=? Z.of_nat y)%Z, (x =? 0)%nat,
    (res - 1 <=? Z.of_nat x)%Z; reflexivity.
Qed.

(** The value array is zero off the bottom row and off the first batch
    member. *)
Lemma VelocityBoundary_y_value_zero (field : StaggeredGrid Box)
    (rd_array : Array3) (res : Z) (rd_yk : Array2) (equi_ratio : fl)
    (velBCy velBCyMask : ndarray) (b y x k : nat) :
  VelocityBoundary_y field rd_array res rd_yk equi_ratio
    = inr (velBCy, velBCyMask) ->
  (1 <= y)%nat \/ (1 <= b)%nat \/ (1 <= k)%nat ->
  item velBCy b y x k = zero.
Proof.
  intros H Hby.
  apply VelocityBoundary_y_inr in H.
  destruct H as (f0 & v1 & v2 & _ & _ & _ & _ & _ & _ & Hv & _).
  rewrite Hv. set (s := shape (data f0)) in *.
  assert (Hno : forall s2, covers s (At 0) (Range 0 1) s2 (At 0) b y x k = false).
  { intros s2. apply not_true_is_false. unfold covers. rewrite !andb_true_iff.
    intros [[[Hb Hy] _] Hk].
    apply NpFacts.sel_mem_At0 in Hb, Hk.
    apply NpFacts.sel_mem_first_inv in Hy. lia. }
  now rewrite !Hno.
Qed.

(** X9.  For [res >= 1] the y velocity is held at zero on the two upper side
    walls: at component index 0, on every row [y >= 1] from row [res // 4]
    on, at column 0 and at the columns from [res - 1], the update
    [cy * velBCyMask + velBCy] gives 0 over a finite value and [NaN] over a
    [NaN] or an infinite one. *)
Theorem X9_side_walls_zero :
  forall (field : StaggeredGrid Box) (f0 : CenteredGrid Box)
         (rd_array : Array3) (res : Z) (rd_yk : Array2) (equi_ratio : fl)
         (velBCy velBCyMask c : ndarray) (b y x : nat),
    VelocityBoundary_y field rd_array res rd_yk equi_ratio
      = inr (velBCy, velBCyMask) ->
    component field 0 = inr f0 ->
    (1 <= res)%Z ->
    inside (shape (data f0)) b y x 0 ->
    (1 <= y)%nat ->
    (Z.quot res 4 <= Z.of_nat y)%Z ->
    x = 0%nat \/ (res - 1 <= Z.of_nat x)%Z ->
    item (masked c velBCyMask velBCy) b y x 0
    = (if is_finite (item c b y x 0) then zero else NaN).
Proof.
  intros field f0 rd_array res rd_yk equi_ratio velBCy velBCyMask c b y x
         H Hf Hres Hin Hy Hq Hx.
  assert (Hm : item velBCyMask b y x 0 = zero).
  { rewrite (VelocityBoundary_y_mask _ _ _ _ _ _ _ _ b y x H Hf Hres Hin).
    destruct (Z.leb_spec (Z.quot res 4) (Z.of_nat y)); [|lia].
    destruct Hx as [->|Hx].
    - cbn [Nat.eqb orb andb]. now rewrite orb_true_r.
    - destruct (Z.leb_spec (res - 1) (Z.of_nat x)); [|lia].
      now rewrite !orb_true_r. }
  rewrite (masked_fixed c velBCyMask velBCy b y x 0 Hm).
  rewrite (VelocityBoundary_y_value_zero _ _ _ _ _ _ _ b y x 0 H) by auto.
  reflexivity.
Qed.

(** X10.  For [res >= 1] the update [cy * velBCyMask + velBCy] leaves the y
    velocity as the pressure solve gave it at every location off the bottom
    row that lies below row [res // 4] or strictly between column 0 and
    column [res - 1]: whatever the value there, [NaN] and infinities
    included. *)
Theorem X10_interior_velocity_kept :
  forall (field : StaggeredGrid Box) (f0 : CenteredGrid Box)
         (rd_array : Array3) (res : Z) (rd_yk : Array2) (equi_ratio : fl)
         (velBCy velBCyMask c : ndarray) (b y x : nat),
    VelocityBoundary_y field rd_array res rd_yk equi_ratio
      = inr (velBCy, velBCyMask) ->
    component field 0 = inr f0 ->
    (1 <= res)%Z ->
    inside (shape (data f0)) b y x 0 ->
    (1 <= y)%nat ->
    (Z.of_nat y < Z.quot res 4)%Z
    \/ ((1 <= x)%nat /\ (Z.of_nat x < res - 1)%Z) ->
    item (masked c velBCyMask velBCy) b y x 0 = item c b y x 0.
Proof.
  intros field f0 rd_array res rd_yk equi_ratio velBCy velBCyMask c b y x
         H Hf Hres Hin Hy Hfree.
  apply masked_free.
  - rewrite (VelocityBoundary_y_mask _ _ _ _ _ _ _ _ b y x H Hf Hres Hin).
    destruct (Nat.eqb_spec y 0); [lia|]. cbn [orb].
    destruct Hfree as [Hq|[Hx1 Hx2]].
    + destruct (Z.leb_spec (Z.quot res 4) (Z.of_nat y)); [lia | reflexivity].
    + destruct (Nat.eqb_spec x 0); [lia|].
      destruct (Z.leb_spec (res - 1) (Z.of_nat x)); [lia|].
      cbn [orb]. now rewrite andb_false_r.
  - apply (VelocityBoundary_y_value_zero _ _ _ _ _ _ _ b y x 0 H). auto.
Qed.

(** X11.  Only the first member of the batch receives the inflow profile:
    the values are written at batch index 0 while the mask is cleared for
    every batch member, so for a batch member [b >= 1] the bottom row of the
    y velocity is held at zero (over a finite value; [NaN] otherwise). *)
Theorem X11_inflow_first_batch_only :
  forall (field : StaggeredGrid Box) (f0 : CenteredGrid Box)
         (rd_array : Array3) (res : Z) (rd_yk : Array2) (equi_ratio : fl)
         (velBCy velBCyMask c : ndarray) (b x : nat),
    VelocityBoundary_y field rd_array res rd_yk equi_ratio
      = inr (velBCy, velBCyMask) ->
    component field 0 = inr f0 ->
    inside (shape (data f0)) b 0 x 0 ->
    (1 <= b)%nat ->
    item (masked c velBCyMask velBCy) b 0 x 0
    = (if is_finite (item c b 0 x 0) then zero else NaN).
Proof.
  intros field f0 rd_array res rd_yk equi_ratio velBCy velBCyMask c b x
         H Hf (Hb & Hy & Hx & Hk) Hb1.
  assert (Hm : item velBCyMask b 0 x 0 = zero).
  { pose proof H as H'. apply VelocityBoundary_y_inr in H'.
    destruct H' as (f0' & v1 & v2 & Hf' & _ & _ & _ & _ & _ & _ & Hm).
    rewrite Hf in Hf'. injection Hf' as <-. rewrite Hm.
    assert (C : covers (shape (data f0)) All (Range 0 1) All (At 0) b 0 x 0 = true).
    { unfold covers.
      rewrite !NpFacts.sel_mem_All, NpFacts.sel_mem_first,
        NpFacts.sel_mem_At0_zero by assumption.
      reflexivity. }
    rewrite C.
    repeat match goal with |- context [if ?c then _ else _] => destruct c end;
      reflexivity. }
  rewrite (masked_fixed c velBCyMask velBCy b 0 x 0 Hm).
  rewrite (VelocityBoundary_y_value_zero _ _ _ _ _ _ _ b 0 x 0 H) by auto.
  reflexivity.
Qed.

(** X12.  [VelocityBoundary_x] returns exactly when the field has a second
    component with at least one entry on its last axis, and raises
    [IndexError] otherwise.  The value and the mask it returns are one array
    of the shape of that component, and the update [cx * velBCxMask] leaves
    the x velocity as it is on every row but the bottom one. *)
Theorem X12_velocity_x_policy :
  forall field : StaggeredGrid Box,
    match VelocityBoundary_x field with
    | inr (velBCx, velBCxMask) =>
        velBCx = velBCxMask
        /\ exists f1,
             nth_error (sdata field) 1 = Some f1
             /\ (0 < comps (shape (data f1)))%nat
             /\ shape velBCxMask = shape (data f1)
             /\ forall (c : ndarray) (b y x k : nat),
                  (1 <= y)%nat ->
                  item (map2 Fl.mul c velBCxMask) b y x k = item c b y x k
    | inl IndexError =>
        (length (sdata field) < 2)%nat
        \/ exists f1, nth_error (sdata field) 1 = Some f1
                      /\ comps (shape (data f1)) = 0%nat
    | inl _ => False
    end.
Proof.
  intros field.
  destruct (VelocityBoundary_x field) as [e|[velBCx velBCxMask]] eqn:E.
  - unfold VelocityBoundary_x, component in E.
    destruct (nth_error (sdata field) 1) as [f1|] eqn:N.
    + cbn [rbind] in E. unfold assign, subscript_ok in E.
      cbn [shape ones full] in E.
      destruct (sel_ok (comps (shape (data f1))) (At 0)) eqn:Ek.
      * cbn [sel_ok andb rbind] in E. discriminate E.
      * cbn [sel_ok andb rbind] in E.
        injection E as <-. right. exists f1. split; [reflexivity|].
        destruct (comps (shape (data f1))) as [|n] eqn:Ec; [reflexivity|].
        assert (Hk : sel_ok (S n) (At 0) = true) by (apply NpFacts.sel_ok_At0; lia).
        congruence.
    + cbn [rbind] in E. injection E as <-. left.
      apply nth_error_None in N. lia.
  - apply VelocityBoundary_x_inr in E.
    destruct E as (f1 & Hf & Hk & He & Hs & Hit).
    split; [exact He|]. exists f1.
    unfold component in Hf.
    destruct (nth_error (sdata field) 1) as [g|]; [|discriminate].
    injection Hf as ->.
    repeat split; auto.
    intros c b y x k Hy. cbn [item map2]. rewrite Hit.
    rewrite covers_interior by lia. apply FlFacts.mul_one.
Qed.

End InflowProfile.

Lemma X8_witness :
  Np.item (fst (Still.inflow Still.steep)) 0 0 1 0 = zero
  \/ (0%nat = 0%nat /\ 0%nat = 0%nat /\ 0%nat = 0%nat /\ (Z.of_nat 1 <= 2)%Z
      /\ match Np.item (fst (Still.inflow Still.steep)) 0 0 1 0 with
         | Fin q => (Q2Qc (inject_Z 6) <= q)%Qc
         | PInf | NaN => True
         | NInf => False
         end).
Proof.
  apply (X8_inflow_profile_support
           (Still.at_rest 2) (Still.roughness 2 Still.steep) 2
           (Np.mkArray2 0 0 (fun _ _ => zero)) one
           (fst (Still.inflow Still.steep)) (snd (Still.inflow Still.steep))
           0%nat 0%nat 1%nat 0%nat).
  - vm_compute. reflexivity.
  - lia.
Defined.

Lemma X9_witness :
  Np.item (masked (Np.full (Np.mkShape 1 5 4 1) (of_Z 3))
             (snd (Still.pair_of
                     (VelocityBoundary_y (Still.at_rest 4)
                        (Still.roughness 4 Still.steep) 4
                        (Np.mkArray2 0 0 (fun _ _ => zero)) one)))
             (fst (Still.pair_of
                     (VelocityBoundary_y (Still.at_rest 4)
                        (Still.roughness 4 Still.steep) 4
                        (Np.mkArray2 0 0 (fun _ _ => zero)) one))))
          0 2 3 0
  = (if is_finite (Np.item (Np.full (Np.mkShape 1 5 4 1) (of_Z 3)) 0 2 3 0)
     then zero else NaN).
Proof.
  apply (X9_side_walls_zero
           (Still.at_rest 4) (Still.uniform (Np.mkShape 1 5 4 1) zero)
           (Still.roughness 4 Still.steep) 4
           (Np.mkArray2 0 0 (fun _ _ => zero)) one
           (fst (Still.pair_of
                   (VelocityBoundary_y (Still.at_rest 4)
                      (Still.roughness 4 Still.steep) 4
                      (Np.mkArray2 0 0 (fun _ _ => zero)) one)))
           (snd (Still.pair_of
                   (VelocityBoundary_y (Still.at_rest 4)
                      (Still.roughness 4 Still.steep) 4
                      (Np.mkArray2 0 0 (fun _ _ => zero)) one)))
           (Np.full (Np.mkShape 1 5 4 1) (of_Z 3)) 0%nat 2%nat 3%nat).
  - vm_compute. reflexivity.
  - reflexivity.
  - lia.
  - unfold Np.inside. cbn. lia.
  - lia.
  - vm_compute. discriminate.
  - right. lia.
Defined.

Lemma X10_witness :
  Np.item (masked (Np.full (Np.mkShape 1 5 4 1) (of_Z 3))
             (snd (Still.pair_of
                     (VelocityBoundary_y (Still.at_rest 4)
                        (Still.roughness 4 Still.steep) 4
                        (Np.mkArray2 0 0 (fun _ _ => zero)) one)))
             (fst (Still.pair_of
                     (VelocityBoundary_y (Still.at_rest 4)
                        (Still.roughness 4 Still.steep) 4
                        (Np.mkArray2 0 0 (fun _ _ => zero)) one))))
          0 2 1 0
  = Np.item (Np.full (Np.mkShape 1 5 4 1) (of_Z 3)) 0 2 1 0.
Proof.
  apply (X10_interior_velocity_kept
           (Still.at_rest 4) (Still.uniform (Np.mkShape 1 5 4 1) zero)
           (Still.roughness 4 Still.steep) 4
           (Np.mkArray2 0 0 (fun _ _ => zero)) one
           (fst (Still.pair_of
                   (VelocityBoundary_y (Still.at_rest 4)
                      (Still.roughness 4 Still.steep) 4
                      (Np.mkArray2 0 0 (fun _ _ => zero)) one)))
           (snd (Still.pair_of
                   (VelocityBoundary_y (Still.at_rest 4)
                      (Still.roughness 4 Still.steep) 4
                      (Np.mkArray2 0 0 (fun _ _ => zero)) one)))
           (Np.full (Np.mkShape 1 5 4 1) (of_Z 3)) 0%nat 2%nat 1%nat).
  - vm_compute. reflexivity.
  - reflexivity.
  - lia.
  - unfold Np.inside. cbn. lia.
  - lia.
  - right. lia.
Defined.

Lemma X11_witness :
  Np.item (masked (Np.full (Np.mkShape 2 3 2 1) (of_Z 3))
             (snd (Still.pair_of
                     (VelocityBoundary_y
                        (mkStaggered
                           [Still.uniform (Np.mkShape 2 3 2 1) zero;
                            Still.uniform (Np.mkShape 2 2 3 1) zero] tt)
                        (Still.roughness 2 Still.steep) 2
                        (Np.mkArray2 0 0 (fun _ _ => zero)) one)))
             (fst (Still.pair_of
                     (VelocityBoundary_y
                        (mkStaggered
                           [Still.uniform (Np.mkShape 2 3 2 1) zero;
                            Still.uniform (Np.mkShape 2 2 3 1) zero] tt)
                        (Still.roughness 2 Still.steep) 2
                        (Np.mkArray2 0 0 (fun _ _ => zero)) one))))
          1 0 1 0
  = (if is_finite (Np.item (Np.full (Np.mkShape 2 3 2 1) (of_Z 3)) 1 0 1 0)
     then zero else NaN).
Proof.
  apply (X11_inflow_first_batch_only
           (mkStaggered
              [Still.uniform (Np.mkShape 2 3 2 1) zero;
               Still.uniform (Np.mkShape 2 2 3 1) zero] tt)
           (Still.uniform (Np.mkShape 2 3 2 1) zero)
           (Still.roughness 2 Still.steep) 2
           (Np.mkArray2 0 0 (fun _ _ => zero)) one
           (fst (Still.pair_of
                   (VelocityBoundary_y
                      (mkStaggered
                         [Still.uniform (Np.mkShape 2 3 2 1) zero;
                          Still.uniform (Np.mkShape 2 2 3 1) zero] tt)
                      (Still.roughness 2 Still.steep) 2
                      (Np.mkArray2 0 0 (fun _ _ => zero)) one)))
           (snd (Still.pair_of
                   (VelocityBoundary_y
                      (mkStaggered
                         [Still.uniform (Np.mkShape 2 3 2 1) zero;
                          Still.uniform (Np.mkShape 2 2 3 1) zero] tt)
                      (Still.roughness 2 Still.steep) 2
                      (Np.mkArray2 0 0 (fun _ _ => zero)) one)))
           (Np.full (Np.mkShape 2 3 2 1) (of_Z 3)) 1%nat 1%nat).
  - vm_compute. reflexivity.
  - reflexivity.
  - unfold Np.inside. cbn. lia.
  - lia.
Defined.

(* ===================================================================== *)
(** ** Further properties: how the step fails *)
(* ===================================================================== *)

(** Case analysis on the outcome of the operation a computation is waiting
    for. *)
Ltac split_on x :=
  lazymatch x with
  | match ?y with _ => _ end => split_on y
  | (match ?y with _ => _ end) _ => split_on y
  | _ => let E := fresh "E" in destruct x eqn:E
  end.

Ltac outcome H :=
  repeat
    (cbv beta iota zeta in H;
     match type of H with
     | match ?x with _ => _ end = _ => split_on x
     | (match ?x with _ => _ end) _ = _ => split_on x
     end).

Section ShapeCheck.

Import Np.

Context {Box : Type}.

Lemma sel_len_below (n : nat) (res : Z) :
  (0 <= res)%Z -> sel_len n (Range 0 res) = Nat.min (Z.to_nat res) n.
Proof.
  intros H. unfold sel_len. cbn [sel_lo sel_hi].
  rewrite clip_zero, (clip_nonneg _ _ H). lia.
Qed.

(** [VelocityBoundary_y] stands or falls with the broadcast of the roughness
    rows into the bottom row of the y component. *)
Lemma VelocityBoundary_y_broadcast :
  forall (field : StaggeredGrid Box) (f0 : CenteredGrid Box)
         (rd_array : Array3) (res : Z) (rd_yk : Array2) (equi_ratio : fl),
    component field 0 = inr f0 ->
    (0 < batch (shape (data f0)))%nat -> (0 < comps (shape (data f0)))%nat ->
    (1 <= layers rd_array)%nat ->
    (0 < rows3 rd_array)%nat -> (0 < cols3 rd_array)%nat ->
    (0 <= res)%Z ->
    if broadcasts (Nat.min (Z.to_nat res) (rows3 rd_array))
                  (Nat.min (Z.to_nat res) (cols (shape (data f0))))
    then exists masks,
           VelocityBoundary_y field rd_array res rd_yk equi_ratio = inr masks
    else VelocityBoundary_y field rd_array res rd_yk equi_ratio
         = inl ValueError.
Proof.
  intros field f0 rd_array res rd_yk equi_ratio Hf Hb Hk HL HR HC Hres.
  unfold VelocityBoundary_y. rewrite Hf. cbn [rbind].
  set (s := shape (data f0)) in *.
  assert (HC0 : sel_ok (cols3 rd_array) (At 0) = true)
    by now apply NpFacts.sel_ok_At0.
  assert (HR1 : sel_ok (rows3 rd_array) (At (-1)) = true).
  { cbv [sel_ok sel_lo]. change (-1 <? 0)%Z with true. cbv iota.
    rewrite andb_true_iff, Z.leb_le, Z.ltb_lt. lia. }
  unfold slab. rewrite HC0. cbn [rbind].
  unfold assign2. cbn [shape zeros full map_2 rows2 cols2]. fold s.
  destruct (subscript_ok_At0 s (Range 0 1) (Range 0 res) Hb Hk)
    as [Ok1 _]; [reflexivity | reflexivity |].
  rewrite Ok1, (sel_len_first _ HL), broadcasts_one, !(sel_len_below _ _ Hres).
  cbn [andb].
  destruct (broadcasts (Nat.min (Z.to_nat res) (rows3 rd_array))
                       (Nat.min (Z.to_nat res) (cols s))); [|reflexivity].
  cbn [rbind].
  unfold rod. rewrite HR1, HC0. cbn [andb rbind].
  unfold assign1. cbn [shape map_1 len1]. fold s.
  destruct (subscript_ok_At0 s (Range 0 1) (Range res (res + 1)) Hb Hk)
    as [Ok2 _]; [reflexivity | reflexivity |].
  rewrite Ok2, (sel_len_first _ HL), broadcasts_one. cbn [rbind].
  unfold assign. cbn [shape ones full]. fold s.
  destruct (subscript_ok_At0 s (Range 0 1) All Hb Hk)
    as [_ Ok3]; [reflexivity | reflexivity |].
  destruct (subscript_ok_At0 s (From (Z.quot res 4)) (Range 0 1) Hb Hk)
    as [_ Ok4]; [reflexivity | reflexivity |].
  destruct (subscript_ok_At0 s (From (Z.quot res 4)) (From (res - 1)) Hb Hk)
    as [_ Ok5]; [reflexivity | reflexivity |].
  rewrite Ok3. cbn [rbind shape]. fold s. rewrite Ok4. cbn [rbind shape].
  fold s. rewrite Ok5. cbn [rbind]. eexists. reflexivity.
Qed.


End ShapeCheck.

Section Failure.

Context {Domain Box Obstacle Geometry Gravity Tensor Solver Effect : Type}.

Variable phi : PhiFlow Domain Box Obstacle Geometry Gravity Tensor Solver Effect.

(** The first part of the step writes to the object last: when it raises,
    the object is as it was. *)
Lemma step_projection_raises (solver : option Solver) (rd_array : Np.Array3)
    (res : Z) (dt : fl) (obstacles : list Obstacle) (gravity : Gravity)
    (density_effects velocity_effects : list Effect)
    (h h' : SpFluid Domain Box) (e : exn) :
  step_projection phi solver rd_array res dt obstacles gravity
    density_effects velocity_effects h = (inl e, h') ->
  h' = h.
Proof.
  unfold step_projection, get_min_max_zf_zo.
  cbv [bind lift attr set_solve_info ret raise]. intros H.
  outcome H; try (injection H as _ <-; reflexivity); discriminate H.
Qed.

(** The second part of the step does not write to the object, whatever its
    outcome. *)
Lemma step_transport_state (rd_array : Np.Array3) (res : Z) (dt : fl)
    (p : Projected) (h h' : SpFluid Domain Box) (r : result Transported) :
  step_transport phi rd_array res dt p h = (r, h') -> h' = h.
Proof.
  unfold step_transport. cbv [bind lift attr ret raise]. intros H.
  outcome H; injection H as _ <-; reflexivity.
Qed.

(** X14.  A step that raises has failed in one of two places.  Either it
    failed before the pressure solve had returned, and the input object is
    untouched; or the pressure solve had returned, [fluid.solve_info] has
    been rebound to its info dict, and the failure is in the part from the
    velocity boundary conditions to the species transport.  The part that
    applies the species and temperature boundary conditions never raises. *)
Theorem X14_failure_points :
  forall (self : SpEnergy (Solver := Solver)) (rd_array : Np.Array3) (res : Z)
         (dt : fl) (obstacles : list Obstacle) (gravity : Gravity)
         (density_effects velocity_effects : list Effect)
         (fluid fluid' : SpFluid Domain Box) (e : exn),
    step phi self rd_array res dt obstacles gravity density_effects
         velocity_effects fluid = (inl e, fluid') ->
    (fluid' = fluid
     /\ step_projection phi (pressure_solver self) rd_array res dt obstacles
          gravity density_effects velocity_effects fluid = (inl e, fluid))
    \/ (exists (p : Projected) (info : gmap string (Info Box)) (g : CenteredGrid Box),
          step_projection phi (pressure_solver self) rd_array res dt obstacles
            gravity density_effects velocity_effects fluid = (inr p, fluid')
          /\ fluid' = with_solve_info fluid info
          /\ info !! "pressure_c"%string = Some (InfoGrid g)
          /\ step_transport phi rd_array res dt p fluid' = (inl e, fluid')).
Proof.
  intros self rd_array res dt obstacles gravity density_effects
         velocity_effects fluid fluid' e H.
  unfold step, bind in H.
  destruct (step_projection phi (pressure_solver self) rd_array res dt obstacles
              gravity density_effects velocity_effects fluid)
    as [[e1|p] h1] eqn:Ep.
  - injection H as -> ->. left.
    pose proof (step_projection_raises _ _ _ _ _ _ _ _ _ _ _ Ep) as ->.
    auto.
  - destruct (step_transport phi rd_array res dt p h1) as [[e2|t] h2] eqn:Et.
    + injection H as -> ->. right.
      pose proof (step_transport_state _ _ _ _ _ _ _ Et) as ->.
      pose proof Ep as Ep'. apply step_projection_inv in Ep'.
      destruct Ep' as (_ & _ & _ & _ & _ & _ & _ & _ & _ & _ & _
                       & info & g & Hh & Hg).
      exists p, info, g. auto.
    + apply step_boundary_inv in H.
      destruct H as (_ & ? & ? & ? & ? & ? & ? & _ & _ & _ & Hst).
      discriminate Hst.
Qed.

(** X15.  When the roughness array cannot be normalised (fewer than 21
    layers: [IndexError]; an empty slice 20: [ValueError]) and the gravity
    tensor is built, the step raises that exception before any transport or
    pressure solve: whatever the other library operators would do, the
    outcome is that exception and the input object is untouched,
    [solve_info] included. *)
Theorem X15_roughness_checked_first :
  forall (self : SpEnergy (Solver := Solver)) (rd_array : Np.Array3) (res : Z)
         (dt : fl) (obstacles : list Obstacle) (gravity : Gravity)
         (density_effects velocity_effects : list Effect)
         (fluid : SpFluid Domain Box) (t : Tensor) (e : exn),
    gravity_tensor phi gravity (rank phi (domain fluid)) = inr t ->
    normalized_roughness rd_array = inl e ->
    step phi self rd_array res dt obstacles gravity density_effects
         velocity_effects fluid = (inl e, fluid).
Proof.
  intros self rd_array res dt obstacles gravity density_effects
         velocity_effects fluid t e Hg Hn.
  unfold step, step_projection, get_min_max_zf_zo.
  cbv [bind lift attr]. now rewrite Hg, Hn.
Qed.

Hypothesis library_returns : Returns phi.

(** X16.  The broadcast of the roughness rows into the bottom row of the y
    velocity is checked only after the pressure solve: with a library whose
    operators return, a two-component velocity and a roughness array of 21
    non-empty layers whose rows do not broadcast ([min(res, rows)] is
    neither [min(res, columns of the y component)] nor 1), the step raises
    [ValueError] and leaves [fluid.solve_info] rebound to the info dict of
    the pressure solve. *)
Theorem X16_late_shape_error :
  forall (self : SpEnergy (Solver := Solver)) (rd_array : Np.Array3) (res : Z)
         (dt : fl) (obstacles : list Obstacle) (gravity : Gravity)
         (density_effects velocity_effects : list Effect)
         (fluid : SpFluid Domain Box) (sy sx : Np.Shape),
    layout (velocity fluid) = [sy; sx] ->
    (0 < Np.batch sy)%nat -> (0 < Np.comps sy)%nat ->
    (21 <= Np.layers rd_array)%nat ->
    (0 < Np.rows3 rd_array)%nat -> (0 < Np.cols3 rd_array)%nat ->
    (0 <= res)%Z ->
    Np.broadcasts (Nat.min (Z.to_nat res) (Np.rows3 rd_array))
                  (Nat.min (Z.to_nat res) (Np.cols sy)) = false ->
    exists (info : gmap string (Info Box)) (g : CenteredGrid Box),
      step phi self rd_array res dt obstacles gravity density_effects
           velocity_effects fluid
      = (inl ValueError, with_solve_info fluid info)
      /\ info !! "pressure_c"%string = Some (InfoGrid g).
Proof.
  intros self rd_array res dt obstacles gravity density_effects
         velocity_effects fluid sy sx Hl Hb Hky HL HR HC Hres Hbr.
  assert (H2 : length (sdata (velocity fluid)) = 2%nat).
  { unfold layout in Hl. apply (f_equal (@length _)) in Hl.
    now rewrite length_map in Hl. }
  destruct (step_projection_returns phi library_returns (pressure_solver self)
              rd_array res dt obstacles gravity density_effects
              velocity_effects fluid H2 HL HR HC)
    as (p & h' & Ep & Lp & _).
  rewrite Hl in Lp.
  pose proof Ep as Ep'. apply step_projection_inv in Ep'.
  destruct Ep' as (_ & _ & _ & _ & _ & _ & _ & _ & _ & _ & _
                   & info & g & -> & Hg).
  exists info, g. split; [|exact Hg].
  unfold step, bind. rewrite Ep.
  unfold layout in Lp.
  destruct (sdata (p_velocity p)) as [|cy [|cx [|? ?]]] eqn:Ed; try discriminate.
  cbn [map] in Lp. injection Lp as <- <-.
  assert (Hcy : component (p_velocity p) 0 = inr cy)
    by (unfold component; now rewrite Ed).
  assert (Hcx : component (p_velocity p) 1 = inr cx)
    by (unfold component; now rewrite Ed).
  pose proof (VelocityBoundary_y_broadcast (p_velocity p) cy rd_array res (p_rd_yk p)
                (eq (with_solve_info fluid info)) Hcy Hb Hky ltac:(lia) HR HC Hres)
    as Hv.
  rewrite Hbr in Hv.
  unfold step_transport. cbv [bind lift attr]. rewrite Hcx, Hcy, Hv.
  reflexivity.
Qed.

End Failure.


Lemma X14_witness :
  (snd (step Still.phi (SpeciesEnergy (Solver := unit))
          (Np.mkArray3 21 3 3 Still.ramp) 3 (dec 1 100) [] tt [] []
          (Still.initial 2 (of_Z 101325)))
   = Still.initial 2 (of_Z 101325)
   /\ step_projection Still.phi (pressure_solver (SpeciesEnergy (Solver := unit)))
        (Np.mkArray3 21 3 3 Still.ramp) 3 (dec 1 100) [] tt [] []
        (Still.initial 2 (of_Z 101325))
      = (inl ValueError, Still.initial 2 (of_Z 101325)))
  \/ (exists (p : Projected) (info : gmap string (Info unit)) (g : CenteredGrid unit),
        step_projection Still.phi (pressure_solver (SpeciesEnergy (Solver := unit)))
          (Np.mkArray3 21 3 3 Still.ramp) 3 (dec 1 100) [] tt [] []
          (Still.initial 2 (of_Z 101325))
        = (inr p,
           snd (step Still.phi (SpeciesEnergy (Solver := unit))
                  (Np.mkArray3 21 3 3 Still.ramp) 3 (dec 1 100) [] tt [] []
                  (Still.initial 2 (of_Z 101325))))
        /\ snd (step Still.phi (SpeciesEnergy (Solver := unit))
                  (Np.mkArray3 21 3 3 Still.ramp) 3 (dec 1 100) [] tt [] []
                  (Still.initial 2 (of_Z 101325)))
           = with_solve_info (Still.initial 2 (of_Z 101325)) info
        /\ info !! "pressure_c"%string = Some (InfoGrid g)
        /\ step_transport Still.phi (Np.mkArray3 21 3 3 Still.ramp) 3 (dec 1 100) p
             (snd (step Still.phi (SpeciesEnergy (Solver := unit))
                     (Np.mkArray3 21 3 3 Still.ramp) 3 (dec 1 100) [] tt [] []
                     (Still.initial 2 (of_Z 101325))))
           = (inl ValueError,
              snd (step Still.phi (SpeciesEnergy (Solver := unit))
                     (Np.mkArray3 21 3 3 Still.ramp) 3 (dec 1 100) [] tt [] []
                     (Still.initial 2 (of_Z 101325))))).
Proof.
  apply (X14_failure_points Still.phi (SpeciesEnergy (Solver := unit))
           (Np.mkArray3 21 3 3 Still.ramp) 3 (dec 1 100) [] tt [] []
           (Still.initial 2 (of_Z 101325))
           (snd (step Still.phi (SpeciesEnergy (Solver := unit))
                   (Np.mkArray3 21 3 3 Still.ramp) 3 (dec 1 100) [] tt [] []
                   (Still.initial 2 (of_Z 101325))))
           ValueError).
  vm_compute. reflexivity.
Defined.

Lemma X15_witness :
  step Still.phi (SpeciesEnergy (Solver := unit))
       (Np.mkArray3 3 2 2 Still.flat) 2 (dec 1 100) [] tt [] []
       (Still.initial 2 (of_Z 101325))
  = (inl IndexError, Still.initial 2 (of_Z 101325)).
Proof.
  apply (X15_roughness_checked_first Still.phi (SpeciesEnergy (Solver := unit))
           (Np.mkArray3 3 2 2 Still.flat) 2 (dec 1 100) [] tt [] []
           (Still.initial 2 (of_Z 101325)) tt IndexError).
  - reflexivity.
  - reflexivity.
Defined.

Lemma X16_witness :
  exists (info : gmap string (Info unit)) (g : CenteredGrid unit),
    step Still.phi (SpeciesEnergy (Solver := unit))
         (Np.mkArray3 21 3 3 Still.ramp) 3 (dec 1 100) [] tt [] []
         (Still.initial 2 (of_Z 101325))
    = (inl ValueError, with_solve_info (Still.initial 2 (of_Z 101325)) info)
    /\ info !! "pressure_c"%string = Some (InfoGrid g).
Proof.
  apply (X16_late_shape_error Still.phi Still_returns
           (SpeciesEnergy (Solver := unit))
           (Np.mkArray3 21 3 3 Still.ramp) 3 (dec 1 100) [] tt [] []
           (Still.initial 2 (of_Z 101325))
           (Np.mkShape 1 3 2 1) (Np.mkShape 1 2 3 1)).
  - reflexivity.
  - cbn. lia.
  - cbn. lia.
  - cbn. lia.
  - cbn. lia.
  - cbn. lia.
  - lia.
  - reflexivity.
Defined.

(* ===================================================================== *)
(** ** Further properties: the fields of the returned state *)
(* ===================================================================== *)

Section ReturnedFields.

Context {Domain Box Obstacle Geometry Gravity Tensor Solver Effect : Type}.

Variable phi : PhiFlow Domain Box Obstacle Geometry Gravity Tensor Solver Effect.

(** What the second part of the step leaves in the scalar fields: each is
    advected along the velocity the boundary policy corrected, diffused, and
    given its source term over the density of the state equation. *)
Lemma step_transport_fields (rd_array : Np.Array3) (res : Z) (dt : fl)
    (p : Projected) (h h' : SpFluid Domain Box) (t : Transported) :
  step_transport phi rd_array res dt p h = (inr t, h') ->
  (forall g, solve_info h !! "pressure_c"%string = Some (InfoGrid g) ->
             t_pressure t = g_add (p_pressure p) g)
  /\ exists T1 T2 F1 F2 O1 O2,
       semi_lagrangian phi (p_temperature p) (t_velocity t) dt = inr T1
       /\ diffuse phi T1 (dt * dec 1 10) 1 = inr T2
       /\ t_temperature t
          = g_sub T2 (g_mul (g_scale (p_wt p) dt)
                            (g_pow_neg1 (g_scale (p_density p) (cp constants))))
       /\ semi_lagrangian phi (p_Yf p) (t_velocity t) dt = inr F1
       /\ diffuse phi F1 (dec 1 10 * dt) 1 = inr F2
       /\ t_Yf t = g_add F2 (g_mul (g_scale (p_wkf p) dt)
                                   (g_pow_neg1 (p_density p)))
       /\ semi_lagrangian phi (p_Yo p) (t_velocity t) dt = inr O1
       /\ diffuse phi O1 (dec 1 10 * dt) 1 = inr O2
       /\ t_Yo t = g_add O2 (g_mul (g_scale (p_wko p) dt)
                                   (g_pow_neg1 (p_density p))).
Proof.
  unfold step_transport. intros H. minv H. reads.
  apply ret_inr in H. destruct H as [-> ->].
  cbn [t_velocity t_temperature t_density t_pressure t_Yf t_Yo].
  split.
  - intros g Hg.
    lazymatch goal with
    | E : context [match ?o with Some _ => _ | None => _ end] |- _ =>
        rewrite Hg in E; apply ret_inr in E; destruct E as [-> _]
    end.
    reflexivity.
  - do 6 eexists. repeat split; eauto.
Qed.

(** X17.  The pressure of the returned state is the pressure of the input
    state plus the pressure increment [pressure_c] that the pressure solve
    left in [fluid.solve_info], cell by cell; the returned state carries the
    same info dict. *)
Theorem X17_pressure_accumulates :
  forall (self : SpEnergy (Solver := Solver)) (rd_array : Np.Array3) (res : Z)
         (dt : fl) (obstacles : list Obstacle) (gravity : Gravity)
         (density_effects velocity_effects : list Effect)
         (fluid fluid' st' : SpFluid Domain Box),
    step phi self rd_array res dt obstacles gravity density_effects
         velocity_effects fluid = (inr st', fluid') ->
    exists pressure_c : CenteredGrid Box,
      solve_info fluid' !! "pressure_c"%string = Some (InfoGrid pressure_c)
      /\ solve_info st' = solve_info fluid'
      /\ pressure st' = g_add (pressure fluid) pressure_c
      /\ forall b y x k,
           Np.item (data (pressure st')) b y x k
           = Np.item (data (pressure fluid)) b y x k
             + Np.item (data pressure_c) b y x k.
Proof.
  intros self rd_array res dt obstacles gravity density_effects
         velocity_effects fluid fluid' st' H.
  apply step_inv in H. destruct H as (p & h1 & t & Hp & Ht & Hb & ->).
  apply step_projection_inv in Hp.
  destruct Hp as (_ & Hpr & _ & _ & _ & _ & _ & _ & _ & _ & _
                  & info & g & -> & Hinfo).
  apply step_transport_fields in Ht. destruct Ht as (Hpress & _).
  apply step_boundary_inv in Hb.
  destruct Hb as (_ & ? & ? & ? & ? & ? & ? & _ & _ & _ & Hst).
  injection Hst as ->.
  exists g. cbn [solve_info with_solve_info copied_with pressure].
  rewrite (Hpress g Hinfo), Hpr.
  repeat split; auto.
Qed.

(** X18.  The temperature of the returned state off its two fixed rows.
    The input temperature is advected along the velocity of the returned
    state (the projected velocity under the boundary policy), then diffused
    with [dt * 0.1]; at a cell of a row other than 0 and [res - 1] the
    returned temperature is that value minus [Wt * dt * (density * cp)^-1],
    with [Wt] of the input state, the density of the returned state and
    [cp = 1450]. *)
Theorem X18_temperature_update :
  forall (self : SpEnergy (Solver := Solver)) (rd_array : Np.Array3) (res : Z)
         (dt : fl) (obstacles : list Obstacle) (gravity : Gravity)
         (density_effects velocity_effects : list Effect)
         (fluid fluid' st' : SpFluid Domain Box),
    step phi self rd_array res dt obstacles gravity density_effects
         velocity_effects fluid = (inr st', fluid') ->
    (1 <= res)%Z ->
    exists T1 T2 : CenteredGrid Box,
      semi_lagrangian phi (temperature fluid) (velocity st') dt = inr T1
      /\ diffuse phi T1 (dt * dec 1 10) 1 = inr T2
      /\ Np.shape (data (temperature st')) = Np.shape (data T2)
      /\ forall b y x k,
           Np.inside (Np.shape (data T2)) b y x k ->
           y <> 0%nat -> Z.of_nat y <> (res - 1)%Z ->
           Np.item (data (temperature st')) b y x k
           = Np.item (data T2) b y x k
             - Np.item (data (Wt fluid)) b y x k * dt
               * pow_neg1 (Np.item (data (density st')) b y x k * of_Z 1450).
Proof.
  intros self rd_array res dt obstacles gravity density_effects
         velocity_effects fluid fluid' st' H Hres.
  apply step_inv in H. destruct H as (p & h1 & t & Hp & Ht & Hb & ->).
  apply step_projection_inv in Hp.
  destruct Hp as (HT & _ & _ & _ & Hwt & _).
  pose proof Ht as Ht'. apply step_transport_inv in Ht'.
  destruct Ht' as (_ & Hd & _).
  apply step_transport_fields in Ht.
  destruct Ht as (_ & T1 & T2 & F1 & F2 & O1 & O2 & ET1 & ET2 & ET & _).
  apply step_boundary_inv in Hb.
  destruct Hb as (_ & ym & yb & om & ob & tm & tb & _ & _ & Mt & Hst).
  injection Hst as ->.
  cbn [velocity temperature density copied_with data].
  exists T1, T2. rewrite <- HT. split; [exact ET1|]. split; [exact ET2|].
  split; [cbn [masked Np.map2 Np.shape]; now rewrite ET|].
  intros b y x k Hin Hy Htop.
  assert (Hin' : Np.inside (Np.shape (data (t_temperature t))) b y x k)
    by (rewrite ET; exact Hin).
  destruct (temperature_masks_inr (Np.shape (data (t_temperature t))) res)
    as (m' & bc' & E & _ & _ & Hit).
  rewrite E in Mt. injection Mt as <- <-.
  destruct (Hit b y x k) as [Hm Hv].
  rewrite (covers_top _ res b y x k Hres Hin') in Hm, Hv.
  rewrite (covers_interior _ Np.All Np.All Np.All b y x k Hy) in Hm, Hv.
  destruct (Z.eqb_spec (Z.of_nat y) (res - 1)) as [E1|_]; [contradiction|].
  rewrite (masked_free _ _ _ b y x k Hm Hv).
  rewrite ET, Hd, Hwt. reflexivity.
Qed.

(** X19.  The species of the returned state above the bottom row.  [Yf] and
    [Yo] of the input state are advected along the velocity of the returned
    state and diffused with [0.1 * dt]; at a cell of a row other than 0 the
    returned value is that value plus [Wkf * dt * density^-1] (for [Yo]:
    [Wko]), with the source terms of the input state and the density of the
    returned state.  No bound is enforced: the result is not clipped to
    [0, 1]. *)
Theorem X19_species_update :
  forall (self : SpEnergy (Solver := Solver)) (rd_array : Np.Array3) (res : Z)
         (dt : fl) (obstacles : list Obstacle) (gravity : Gravity)
         (density_effects velocity_effects : list Effect)
         (fluid fluid' st' : SpFluid Domain Box),
    step phi self rd_array res dt obstacles gravity density_effects
         velocity_effects fluid = (inr st', fluid') ->
    exists F1 F2 O1 O2 : CenteredGrid Box,
      semi_lagrangian phi (Yf fluid) (velocity st') dt = inr F1
      /\ diffuse phi F1 (dec 1 10 * dt) 1 = inr F2
      /\ semi_lagrangian phi (Yo fluid) (velocity st') dt = inr O1
      /\ diffuse phi O1 (dec 1 10 * dt) 1 = inr O2
      /\ forall b y x k,
           y <> 0%nat ->
           Np.item (data (Yf st')) b y x k
           = Np.item (data F2) b y x k
             + Np.item (data (Wkf fluid)) b y x k * dt
               * pow_neg1 (Np.item (data (density st')) b y x k)
           /\ Np.item (data (Yo st')) b y x k
              = Np.item (data O2) b y x k
                + Np.item (data (Wko fluid)) b y x k * dt
                  * pow_neg1 (Np.item (data (density st')) b y x k).
Proof.
  intros self rd_array res dt obstacles gravity density_effects
         velocity_effects fluid fluid' st' H.
  apply step_inv in H. destruct H as (p & h1 & t & Hp & Ht & Hb & ->).
  apply step_projection_inv in Hp.
  destruct Hp as (_ & _ & HF & HO & _ & Hwkf & Hwko & _).
  pose proof Ht as Ht'. apply step_transport_inv in Ht'.
  destruct Ht' as (_ & Hd & _).
  apply step_transport_fields in Ht.
  destruct Ht as (_ & T1 & T2 & F1 & F2 & O1 & O2 & _ & _ & _
                  & EF1 & EF2 & EF & EO1 & EO2 & EO).
  apply step_boundary_inv in Hb.
  destruct Hb as (_ & ym & yb & om & ob & tm & tb & My & Mo & _ & Hst).
  injection Hst as ->.
  cbn [velocity Yf Yo density copied_with data].
  exists F1, F2, O1, O2. rewrite <- HF, <- HO.
  split; [exact EF1|]. split; [exact EF2|]. split; [exact EO1|].
  split; [exact EO2|].
  intros b y x k Hy.
  rewrite (species_update_interior _ _ _ _ _ b y x k My Hy).
  rewrite (species_update_interior _ _ _ _ _ b y x k Mo Hy).
  rewrite EF, EO, Hd, Hwkf, Hwko. split; reflexivity.
Qed.

(** X20.  For [res = 1] the two fixed temperature rows coincide and the
    later assignment wins: the bottom row of the returned temperature is
    2000, not 800, over a finite transported value. *)
Theorem X20_single_row_temperature :
  forall (self : SpEnergy (Solver := Solver)) (rd_array : Np.Array3)
         (dt : fl) (obstacles : list Obstacle) (gravity : Gravity)
         (density_effects velocity_effects : list Effect)
         (fluid fluid' st' : SpFluid Domain Box),
    step phi self rd_array 1 dt obstacles gravity density_effects
         velocity_effects fluid = (inr st', fluid') ->
    exists (p : Projected) (t : Transported),
      step_projection phi (pressure_solver self) rd_array 1 dt obstacles
        gravity density_effects velocity_effects fluid = (inr p, fluid')
      /\ step_transport phi rd_array 1 dt p fluid' = (inr t, fluid')
      /\ forall b x k,
           Np.inside (Np.shape (data (t_temperature t))) b 0 x k ->
           Np.item (data (temperature st')) b 0 x k
           = (if is_finite (Np.item (data (t_temperature t)) b 0 x k)
              then of_Z 2000 else NaN).
Proof.
  intros self rd_array dt obstacles gravity density_effects
         velocity_effects fluid fluid' st' H.
  apply step_inv in H. destruct H as (p & h1 & t & Hp & Ht & Hb & ->).
  apply step_boundary_inv in Hb.
  destruct Hb as (_ & ym & yb & om & ob & tm & tb & _ & _ & Mt & Hst).
  injection Hst as ->.
  exists p, t. split; [exact Hp|]. split; [exact Ht|].
  cbn [temperature copied_with data].
  intros b x k Hin.
  refine (temperature_update_top _ _ _ _ _ b 0 x k Mt _ Hin _); reflexivity.
Qed.

(** X21.  The top row is found by [res], not by the shape of the grid: when
    [res] exceeds the number of rows of the temperature field, the slice
    [(res-1):res] is empty, nothing is raised and no row is held at 2000;
    every row but the bottom one keeps its transported value. *)
Theorem X21_top_row_off_grid :
  forall (self : SpEnergy (Solver := Solver)) (rd_array : Np.Array3) (res : Z)
         (dt : fl) (obstacles : list Obstacle) (gravity : Gravity)
         (density_effects velocity_effects : list Effect)
         (fluid fluid' st' : SpFluid Domain Box),
    step phi self rd_array res dt obstacles gravity density_effects
         velocity_effects fluid = (inr st', fluid') ->
    (Z.of_nat (Np.rows (Np.shape (data (temperature st')))) < res)%Z ->
    exists (p : Projected) (t : Transported),
      step_projection phi (pressure_solver self) rd_array res dt obstacles
        gravity density_effects velocity_effects fluid = (inr p, fluid')
      /\ step_transport phi rd_array res dt p fluid' = (inr t, fluid')
      /\ forall b y x k,
           Np.inside (Np.shape (data (t_temperature t))) b y x k ->
           y <> 0%nat ->
           Np.item (data (temperature st')) b y x k
           = Np.item (data (t_temperature t)) b y x k.
Proof.
  intros self rd_array res dt obstacles gravity density_effects
         velocity_effects fluid fluid' st' H Hres.
  apply step_inv in H. destruct H as (p & h1 & t & Hp & Ht & Hb & ->).
  apply step_boundary_inv in Hb.
  destruct Hb as (_ & ym & yb & om & ob & tm & tb & _ & _ & Mt & Hst).
  injection Hst as ->.
  exists p, t. split; [exact Hp|]. split; [exact Ht|].
  cbn [temperature copied_with data Np.shape masked Np.map2] in Hres |- *.
  intros b y x k Hin Hy.
  destruct (temperature_masks_inr (Np.shape (data (t_temperature t))) res)
    as (m' & bc' & E & _ & _ & Hit).
  rewrite E in Mt. injection Mt as <- <-.
  destruct (Hit b y x k) as [Hm Hv].
  rewrite (covers_top _ res b y x k) in Hm, Hv by (lia || assumption).
  rewrite (covers_interior _ Np.All Np.All Np.All b y x k Hy) in Hm, Hv.
  destruct Hin as (_ & Hrow & _).
  destruct (Z.eqb_spec (Z.of_nat y) (res - 1)) as [E1|_]; [lia|].
  now apply masked_free.
Qed.

(** X22.  The velocity of the returned state has exactly two components,
    the first two of the projected velocity under the boundary policy, in
    the box of the projected velocity: a third component, if the pressure
    solve returned one, is dropped. *)
Theorem X22_velocity_two_components :
  forall (self : SpEnergy (Solver := Solver)) (rd_array : Np.Array3) (res : Z)
         (dt : fl) (obstacles : list Obstacle) (gravity : Gravity)
         (density_effects velocity_effects : list Effect)
         (fluid fluid' st' : SpFluid Domain Box),
    step phi self rd_array res dt obstacles gravity density_effects
         velocity_effects fluid = (inr st', fluid') ->
    exists (p : Projected) (cy cx : CenteredGrid Box),
      step_projection phi (pressure_solver self) rd_array res dt obstacles
        gravity density_effects velocity_effects fluid = (inr p, fluid')
      /\ component (p_velocity p) 0 = inr cy
      /\ component (p_velocity p) 1 = inr cx
      /\ layout (velocity st') = [Np.shape (data cy); Np.shape (data cx)]
      /\ sbox (velocity st') = sbox (p_velocity p).
Proof.
  intros self rd_array res dt obstacles gravity density_effects
         velocity_effects fluid fluid' st' H.
  apply step_inv in H. destruct H as (p & h1 & t & Hp & Ht & Hb & ->).
  apply step_transport_inv in Ht.
  destruct Ht as (_ & _ & _ & _ & _ & _ & _ & cx & cy & velBCy & mY & velBCx
                  & mX & Hcx & Hcy & HVy & HVx & Hvel).
  apply step_boundary_inv in Hb.
  destruct Hb as (_ & ? & ? & ? & ? & ? & ? & _ & _ & _ & Hst).
  injection Hst as ->.
  exists p, cy, cx. split; [exact Hp|]. split; [exact Hcy|]. split; [exact Hcx|].
  cbn [velocity copied_with]. rewrite Hvel. split; reflexivity.
Qed.

(** X23.  The density of the returned state is the density of the state
    equation on the input state with the density effects applied to it in
    list order; the velocity effects, the pressure solve and the transport
    do not change it.  With one density effect it is that effect applied to
    the state-equation density. *)
Theorem X23_density_effects_applied :
  forall (self : SpEnergy (Solver := Solver)) (rd_array : Np.Array3) (res : Z)
         (dt : fl) (obstacles : list Obstacle) (gravity : Gravity)
         (density_effects velocity_effects : list Effect)
         (fluid fluid' st' : SpFluid Domain Box),
    step phi self rd_array res dt obstacles gravity density_effects
         velocity_effects fluid = (inr st', fluid') ->
    apply_effects (effect_applied phi) density_effects
      (state_equation (pressure fluid) (temperature fluid) (Yf fluid) (Yo fluid))
      dt
    = inr (density st')
    /\ forall effect,
         density_effects = [effect] ->
         effect_applied phi effect
           (state_equation (pressure fluid) (temperature fluid)
              (Yf fluid) (Yo fluid)) dt
         = inr (density st').
Proof.
  intros self rd_array res dt obstacles gravity density_effects
         velocity_effects fluid fluid' st' H.
  apply step_inv in H. destruct H as (p & h1 & t & Hp & Ht & Hb & ->).
  apply step_projection_inv in Hp.
  destruct Hp as (_ & _ & _ & _ & _ & _ & _ & _ & _ & _ & Hd & _).
  apply step_transport_inv in Ht. destruct Ht as (_ & Hd' & _).
  apply step_boundary_inv in Hb.
  destruct Hb as (_ & ? & ? & ? & ? & ? & ? & _ & _ & _ & Hst).
  injection Hst as ->. cbn [density copied_with]. rewrite Hd', <- Hd.
  split; [reflexivity|].
  intros effect ->. cbn [apply_effects].
  now destruct (effect_applied phi effect _ dt).
Qed.

End ReturnedFields.

Lemma X17_witness :
  exists pressure_c : CenteredGrid unit,
    solve_info (snd (Still.run 2 (of_Z 101325) (Still.roughness 2 Still.ramp) 2 (dec 1 100))) !! "pressure_c"%string = Some (InfoGrid pressure_c)
    /\ solve_info (Still.returned (Still.run 2 (of_Z 101325) (Still.roughness 2 Still.ramp) 2 (dec 1 100))) = solve_info (snd (Still.run 2 (of_Z 101325) (Still.roughness 2 Still.ramp) 2 (dec 1 100)))
    /\ pressure (Still.returned (Still.run 2 (of_Z 101325) (Still.roughness 2 Still.ramp) 2 (dec 1 100)))
       = g_add (pressure (Still.initial 2 (of_Z 101325))) pressure_c
    /\ forall b y x k,
         Np.item (data (pressure (Still.returned (Still.run 2 (of_Z 101325) (Still.roughness 2 Still.ramp) 2 (dec 1 100))))) b y x k
         = Np.item (data (pressure (Still.initial 2 (of_Z 101325)))) b y x k
           + Np.item (data pressure_c) b y x k.
Proof.
  apply (X17_pressure_accumulates Still.phi (SpeciesEnergy (Solver := unit))
           (Still.roughness 2 Still.ramp) 2 (dec 1 100) [] tt [] []
           (Still.initial 2 (of_Z 101325))
           (snd (Still.run 2 (of_Z 101325) (Still.roughness 2 Still.ramp) 2 (dec 1 100)))
           (Still.returned (Still.run 2 (of_Z 101325) (Still.roughness 2 Still.ramp) 2 (dec 1 100)))).
  vm_compute. reflexivity.
Defined.

Lemma X18_witness :
  exists T1 T2 : CenteredGrid unit,
    semi_lagrangian Still.phi (temperature (Still.initial 4 (of_Z 101325)))
      (velocity (Still.returned (Still.run 4 (of_Z 101325) (Still.roughness 4 Still.ramp) 4 (dec 1 100)))) (dec 1 100) = inr T1
    /\ diffuse Still.phi T1 (dec 1 100 * dec 1 10) 1 = inr T2
    /\ Np.shape (data (temperature (Still.returned (Still.run 4 (of_Z 101325) (Still.roughness 4 Still.ramp) 4 (dec 1 100))))) = Np.shape (data T2)
    /\ forall b y x k,
         Np.inside (Np.shape (data T2)) b y x k ->
         y <> 0%nat -> Z.of_nat y <> (4 - 1)%Z ->
         Np.item (data (temperature (Still.returned (Still.run 4 (of_Z 101325) (Still.roughness 4 Still.ramp) 4 (dec 1 100))))) b y x k
         = Np.item (data T2) b y x k
           - Np.item (data (Wt (Still.initial 4 (of_Z 101325)))) b y x k * dec 1 100
             * pow_neg1 (Np.item (data (density (Still.returned (Still.run 4 (of_Z 101325) (Still.roughness 4 Still.ramp) 4 (dec 1 100))))) b y x k
                         * of_Z 1450).
Proof.
  apply (X18_temperature_update Still.phi (SpeciesEnergy (Solver := unit))
           (Still.roughness 4 Still.ramp) 4 (dec 1 100) [] tt [] []
           (Still.initial 4 (of_Z 101325))
           (snd (Still.run 4 (of_Z 101325) (Still.roughness 4 Still.ramp) 4 (dec 1 100)))
           (Still.returned (Still.run 4 (of_Z 101325) (Still.roughness 4 Still.ramp) 4 (dec 1 100)))).
  - vm_compute. reflexivity.
  - lia.
Defined.

Lemma X19_witness :
  exists F1 F2 O1 O2 : CenteredGrid unit,
    semi_lagrangian Still.phi (Yf (Still.initial 2 (of_Z 101325)))
      (velocity (Still.returned (Still.run 2 (of_Z 101325) (Still.roughness 2 Still.ramp) 2 (dec 1 100)))) (dec 1 100) = inr F1
    /\ diffuse Still.phi F1 (dec 1 10 * dec 1 100) 1 = inr F2
    /\ semi_lagrangian Still.phi (Yo (Still.initial 2 (of_Z 101325)))
         (velocity (Still.returned (Still.run 2 (of_Z 101325) (Still.roughness 2 Still.ramp) 2 (dec 1 100)))) (dec 1 100) = inr O1
    /\ diffuse Still.phi O1 (dec 1 10 * dec 1 100) 1 = inr O2
    /\ forall b y x k,
         y <> 0%nat ->
         Np.item (data (Yf (Still.returned (Still.run 2 (of_Z 101325) (Still.roughness 2 Still.ramp) 2 (dec 1 100))))) b y x k
         = Np.item (data F2) b y x k
           + Np.item (data (Wkf (Still.initial 2 (of_Z 101325)))) b y x k * dec 1 100
             * pow_neg1 (Np.item (data (density (Still.returned (Still.run 2 (of_Z 101325) (Still.roughness 2 Still.ramp) 2 (dec 1 100))))) b y x k)
         /\ Np.item (data (Yo (Still.returned (Still.run 2 (of_Z 101325) (Still.roughness 2 Still.ramp) 2 (dec 1 100))))) b y x k
            = Np.item (data O2) b y x k
              + Np.item (data (Wko (Still.initial 2 (of_Z 101325)))) b y x k * dec 1 100
                * pow_neg1 (Np.item (data (density (Still.returned (Still.run 2 (of_Z 101325) (Still.roughness 2 Still.ramp) 2 (dec 1 100))))) b y x k).
Proof.
  apply (X19_species_update Still.phi (SpeciesEnergy (Solver := unit))
           (Still.roughness 2 Still.ramp) 2 (dec 1 100) [] tt [] []
           (Still.initial 2 (of_Z 101325))
           (snd (Still.run 2 (of_Z 101325) (Still.roughness 2 Still.ramp) 2 (dec 1 100)))
           (Still.returned (Still.run 2 (of_Z 101325) (Still.roughness 2 Still.ramp) 2 (dec 1 100)))).
  vm_compute. reflexivity.
Defined.

Lemma X20_witness :
  exists (p : Projected) (t : Transported),
    step_projection Still.phi (pressure_solver (SpeciesEnergy (Solver := unit)))
      (Still.roughness 2 Still.ramp) 1 (dec 1 100) [] tt [] []
      (Still.initial 2 (of_Z 101325))
    = (inr p, snd (Still.run 2 (of_Z 101325) (Still.roughness 2 Still.ramp) 1 (dec 1 100)))
    /\ step_transport Still.phi (Still.roughness 2 Still.ramp) 1 (dec 1 100) p
         (snd (Still.run 2 (of_Z 101325) (Still.roughness 2 Still.ramp) 1 (dec 1 100)))
       = (inr t, snd (Still.run 2 (of_Z 101325) (Still.roughness 2 Still.ramp) 1 (dec 1 100)))
    /\ forall b x k,
         Np.inside (Np.shape (data (t_temperature t))) b 0 x k ->
         Np.item (data (temperature (Still.returned (Still.run 2 (of_Z 101325) (Still.roughness 2 Still.ramp) 1 (dec 1 100))))) b 0 x k
         = (if is_finite (Np.item (data (t_temperature t)) b 0 x k)
            then of_Z 2000 else NaN).
Proof.
  apply (X20_single_row_temperature Still.phi (SpeciesEnergy (Solver := unit))
           (Still.roughness 2 Still.ramp) (dec 1 100) [] tt [] []
           (Still.initial 2 (of_Z 101325))
           (snd (Still.run 2 (of_Z 101325) (Still.roughness 2 Still.ramp) 1 (dec 1 100)))
           (Still.returned (Still.run 2 (of_Z 101325) (Still.roughness 2 Still.ramp) 1 (dec 1 100)))).
  vm_compute. reflexivity.
Defined.

Lemma X21_witness :
  exists (p : Projected) (t : Transported),
    step_projection Still.phi (pressure_solver (SpeciesEnergy (Solver := unit)))
      (Still.roughness 2 Still.ramp) 3 (dec 1 100) [] tt [] []
      (Still.initial 2 (of_Z 101325))
    = (inr p, snd (Still.run 2 (of_Z 101325) (Still.roughness 2 Still.ramp) 3 (dec 1 100)))
    /\ step_transport Still.phi (Still.roughness 2 Still.ramp) 3 (dec 1 100) p
         (snd (Still.run 2 (of_Z 101325) (Still.roughness 2 Still.ramp) 3 (dec 1 100)))
       = (inr t, snd (Still.run 2 (of_Z 101325) (Still.roughness 2 Still.ramp) 3 (dec 1 100)))
    /\ forall b y x k,
         Np.inside (Np.shape (data (t_temperature t))) b y x k ->
         y <> 0%nat ->
         Np.item (data (temperature (Still.returned (Still.run 2 (of_Z 101325) (Still.roughness 2 Still.ramp) 3 (dec 1 100))))) b y x k
         = Np.item (data (t_temperature t)) b y x k.
Proof.
  apply (X21_top_row_off_grid Still.phi (SpeciesEnergy (Solver := unit))
           (Still.roughness 2 Still.ramp) 3 (dec 1 100) [] tt [] []
           (Still.initial 2 (of_Z 101325))
           (snd (Still.run 2 (of_Z 101325) (Still.roughness 2 Still.ramp) 3 (dec 1 100)))
           (Still.returned (Still.run 2 (of_Z 101325) (Still.roughness 2 Still.ramp) 3 (dec 1 100)))).
  - vm_compute. reflexivity.
  - vm_compute. reflexivity.
Defined.

Lemma X22_witness :
  exists (p : Projected) (cy cx : CenteredGrid unit),
    step_projection Still.phi (pressure_solver (SpeciesEnergy (Solver := unit)))
      (Still.roughness 2 Still.ramp) 2 (dec 1 100) [] tt [] []
      (Still.initial 2 (of_Z 101325))
    = (inr p, snd (Still.run 2 (of_Z 101325) (Still.roughness 2 Still.ramp) 2 (dec 1 100)))
    /\ component (p_velocity p) 0 = inr cy
    /\ component (p_velocity p) 1 = inr cx
    /\ layout (velocity (Still.returned (Still.run 2 (of_Z 101325) (Still.roughness 2 Still.ramp) 2 (dec 1 100))))
       = [Np.shape (data cy); Np.shape (data cx)]
    /\ sbox (velocity (Still.returned (Still.run 2 (of_Z 101325) (Still.roughness 2 Still.ramp) 2 (dec 1 100)))) = sbox (p_velocity p).
Proof.
  apply (X22_velocity_two_components Still.phi (SpeciesEnergy (Solver := unit))
           (Still.roughness 2 Still.ramp) 2 (dec 1 100) [] tt [] []
           (Still.initial 2 (of_Z 101325))
           (snd (Still.run 2 (of_Z 101325) (Still.roughness 2 Still.ramp) 2 (dec 1 100)))
           (Still.returned (Still.run 2 (of_Z 101325) (Still.roughness 2 Still.ramp) 2 (dec 1 100)))).
  vm_compute. reflexivity.
Defined.

Lemma X23_witness :
  apply_effects (effect_applied Still.phi) [tt]
    (state_equation (pressure (Still.initial 2 (of_Z 101325)))
       (temperature (Still.initial 2 (of_Z 101325)))
       (Yf (Still.initial 2 (of_Z 101325)))
       (Yo (Still.initial 2 (of_Z 101325))))
    (dec 1 100)
  = inr (density
           (Still.returned
              (step Still.phi (SpeciesEnergy (Solver := unit))
                 (Still.roughness 2 Still.ramp) 2 (dec 1 100) [] tt [tt] []
                 (Still.initial 2 (of_Z 101325)))))
  /\ forall effect,
       [tt] = [effect] ->
       effect_applied Still.phi effect
         (state_equation (pressure (Still.initial 2 (of_Z 101325)))
            (temperature (Still.initial 2 (of_Z 101325)))
            (Yf (Still.initial 2 (of_Z 101325)))
            (Yo (Still.initial 2 (of_Z 101325))))
         (dec 1 100)
       = inr (density
                (Still.returned
                   (step Still.phi (SpeciesEnergy (Solver := unit))
                      (Still.roughness 2 Still.ramp) 2 (dec 1 100) [] tt [tt] []
                      (Still.initial 2 (of_Z 101325))))).
Proof.
  apply (X23_density_effects_applied Still.phi (SpeciesEnergy (Solver := unit))
           (Still.roughness 2 Still.ramp) 2 (dec 1 100) [] tt [tt] []
           (Still.initial 2 (of_Z 101325))
           (snd (step Still.phi (SpeciesEnergy (Solver := unit))
                   (Still.roughness 2 Still.ramp) 2 (dec 1 100) [] tt [tt] []
                   (Still.initial 2 (of_Z 101325))))
           (Still.returned
              (step Still.phi (SpeciesEnergy (Solver := unit))
                 (Still.roughness 2 Still.ramp) 2 (dec 1 100) [] tt [tt] []
                 (Still.initial 2 (of_Z 101325))))).
  vm_compute. reflexivity.
Defined.

(* ===================================================================== *)
(** ** Further properties: what the step does not read *)
(* ===================================================================== *)

(** Case analysis on the operation at the head of two runs of one
    computation. *)
Ltac head_scrutinee x :=
  lazymatch x with
  | fst ?y => head_scrutinee y
  | match ?y with _ => _ end => head_scrutinee y
  | (match ?y with _ => _ end) _ => head_scrutinee y
  | _ => destruct x
  end.

Ltac lockstep :=
  repeat
    (cbv beta iota zeta;
     cbn [fst domain velocity temperature density pressure rd Yf Yo Wt Wkf Wko
          buoyancy_factor amp eq tags name age solve_info];
     lazymatch goal with
     | |- fst ?a = fst _ => head_scrutinee a
     | |- match fst ?a with _ => _ end => head_scrutinee a
     end).

Section DeadInputs.

Context {Domain Box Obstacle Geometry Gravity Tensor Solver Effect : Type}.

Variable phi : PhiFlow Domain Box Obstacle Geometry Gravity Tensor Solver Effect.

(** X24.  The step reads neither the density nor the [solve_info] of the
    input state: the density is recomputed from the state equation and
    [solve_info] is rebound before it is read.  Two input states that differ
    in these two attributes only give the same result, returned state or
    exception. *)
Theorem X24_density_and_info_not_read :
  forall (self : SpEnergy (Solver := Solver)) (rd_array : Np.Array3) (res : Z)
         (dt : fl) (obstacles : list Obstacle) (gravity : Gravity)
         (density_effects velocity_effects : list Effect)
         (fluid : SpFluid Domain Box)
         (density' : CenteredGrid Box) (info' : gmap string (Info Box)),
    fst (step phi self rd_array res dt obstacles gravity density_effects
              velocity_effects
              (mkFluid (domain fluid) (velocity fluid) (temperature fluid)
                       density' (pressure fluid) (rd fluid) (Yf fluid)
                       (Yo fluid) (Wt fluid) (Wkf fluid) (Wko fluid)
                       (buoyancy_factor fluid) (amp fluid) (eq fluid)
                       (tags fluid) (name fluid) (age fluid) info'))
    = fst (step phi self rd_array res dt obstacles gravity density_effects
                velocity_effects fluid).
Proof.
  intros self rd_array res dt obstacles gravity density_effects
         velocity_effects fluid density' info'.
  unfold step, step_projection, step_transport, step_boundary,
    get_min_max_zf_zo.
  cbv [bind lift attr ret raise set_solve_info with_solve_info copied_with].
  cbn [domain velocity temperature density pressure rd Yf Yo Wt Wkf Wko
       buoyancy_factor amp eq tags name age solve_info].
  lockstep; reflexivity.
Qed.

(** X25.  The equivalence ratio [fluid.eq] has no effect on the step: it is
    passed to [get_min_max_zf_zo] and to [VelocityBoundary_y], which do not
    read it.  Two input states that differ in [eq] only raise the same
    exception or return states that differ in [eq] only. *)
Theorem X25_equivalence_ratio_unused :
  forall (self : SpEnergy (Solver := Solver)) (rd_array : Np.Array3) (res : Z)
         (dt : fl) (obstacles : list Obstacle) (gravity : Gravity)
         (density_effects velocity_effects : list Effect)
         (fluid : SpFluid Domain Box) (eq' : fl),
    match
      fst (step phi self rd_array res dt obstacles gravity density_effects
                velocity_effects fluid),
      fst (step phi self rd_array res dt obstacles gravity density_effects
                velocity_effects
                (mkFluid (domain fluid) (velocity fluid) (temperature fluid)
                         (density fluid) (pressure fluid) (rd fluid) (Yf fluid)
                         (Yo fluid) (Wt fluid) (Wkf fluid) (Wko fluid)
                         (buoyancy_factor fluid) (amp fluid) eq'
                         (tags fluid) (name fluid) (age fluid)
                         (solve_info fluid)))
    with
    | inr st, inr st' =>
        st' = mkFluid (domain st) (velocity st) (temperature st) (density st)
                      (pressure st) (rd st) (Yf st) (Yo st) (Wt st) (Wkf st)
                      (Wko st) (buoyancy_factor st) (amp st) eq'
                      (tags st) (name st) (age st) (solve_info st)
    | inl e, inl e' => e = e'
    | _, _ => False
    end.
Proof.
  intros self rd_array res dt obstacles gravity density_effects
         velocity_effects fluid eq'.
  unfold step, step_projection, step_transport, step_boundary,
    get_min_max_zf_zo, VelocityBoundary_y.
  cbv [bind lift attr ret raise set_solve_info with_solve_info copied_with].
  cbn [domain velocity temperature density pressure rd Yf Yo Wt Wkf Wko
       buoyancy_factor amp eq tags name age solve_info].
  lockstep; reflexivity.
Qed.

End DeadInputs.

(* ===================================================================== *)
(** ** Further properties: the projection and the effects *)
(* ===================================================================== *)

Section Projection.

Context {Domain Box Obstacle Geometry Gravity Tensor Solver Effect : Type}.

Variable phi : PhiFlow Domain Box Obstacle Geometry Gravity Tensor Solver Effect.

(** X26.  The info dict of [divergence_free] has exactly three keys.
    [iterations] and the pressure are what [solve_pressure] returned for
    the divergence stored under [divergence]; the grid stored under
    [pressure_c] is that pressure already multiplied by [velocity.dx[0]]. *)
Theorem X26_solve_info_contents :
  forall (velocity : StaggeredGrid Box) (density : CenteredGrid Box)
         (domain : option Domain) (obstacles : list Obstacle)
         (solver : option Solver) (v : StaggeredGrid Box)
         (info : gmap string (Info Box)),
    divergence_free phi velocity density domain obstacles solver true
    = inr (v, Some info) ->
    exists (rho_u : StaggeredGrid Box) (divergence_field pressure_c : CenteredGrid Box)
           (iterations : nat) (fluiddomain : FluidDomain Domain Box),
      divergence phi rho_u = inr divergence_field
      /\ solve_pressure phi divergence_field fluiddomain solver
         = inr (pressure_c, iterations)
      /\ info !! "pressure_c"%string
         = Some (InfoGrid (g_scale pressure_c (dx0 phi velocity)))
      /\ info !! "iterations"%string = Some (InfoCount iterations)
      /\ info !! "divergence"%string = Some (InfoGrid divergence_field)
      /\ forall key : string,
           key <> "pressure_c"%string -> key <> "iterations"%string ->
           key <> "divergence"%string -> info !! key = None.
Proof.
  intros velocity density domain obstacles solver v info H.
  unfold divergence_free in H. rinv H.
  injection H as _ <-.
  do 5 eexists. split; [eassumption|]. split; [eassumption|].
  split; [apply lookup_insert_eq|].
  split; [rewrite lookup_insert_ne by discriminate; apply lookup_insert_eq|].
  split; [rewrite !lookup_insert_ne by discriminate; apply lookup_insert_eq|].
  intros key H1 H2 H3.
  rewrite !lookup_insert_ne by congruence. apply lookup_empty.
Qed.

(** X27.  The flag [return_info] changes neither the projected velocity nor
    the outcome of [divergence_free]: with and without the flag the same
    exception is raised or the same velocity is returned; the info dict is
    built only with the flag. *)
Theorem X27_return_info_flag :
  forall (velocity : StaggeredGrid Box) (density : CenteredGrid Box)
         (domain : option Domain) (obstacles : list Obstacle)
         (solver : option Solver),
    match divergence_free phi velocity density domain obstacles solver false,
          divergence_free phi velocity density domain obstacles solver true
    with
    | inr (v, o), inr (v', o') => v = v' /\ o = None /\ o' <> None
    | inl e, inl e' => e = e'
    | _, _ => False
    end.
Proof.
  intros velocity density domain obstacles solver.
  unfold divergence_free.
  repeat
    (cbv beta iota zeta;
     lazymatch goal with
     | |- match rbind ?r _ with _ => _ end =>
         destruct r as [?|?]; cbn [rbind]
     | |- match (let (_, _) := ?r in _) with _ => _ end => destruct r
     end);
    try reflexivity.
  repeat split. discriminate.
Qed.

(** X28.  The effects of a list are applied in order, each to the result of
    the one before: a list in two parts is the first part then the second.
    An effect that raises ends the loop with its exception, and the effects
    after it are not applied. *)
Theorem X28_effects_in_order :
  forall (F : Type) (apply : Effect -> F -> fl -> result F)
         (first rest : list Effect) (effect : Effect) (field : F) (dt : fl),
    apply_effects apply (first ++ rest) field dt
    = rbind (apply_effects apply first field dt)
            (fun field' => apply_effects apply rest field' dt)
    /\ match apply_effects apply first field dt with
       | inr field' =>
           match apply effect field' dt with
           | inl e => apply_effects apply (first ++ effect :: rest) field dt = inl e
           | inr field'' =>
               apply_effects apply (first ++ effect :: rest) field dt
               = apply_effects apply rest field'' dt
           end
       | inl e => apply_effects apply (first ++ effect :: rest) field dt = inl e
       end.
Proof.
  intros F apply first rest effect field dt.
  assert (Happ : forall l1 l2 x,
             apply_effects apply (l1 ++ l2) x dt
             = rbind (apply_effects apply l1 x dt)
                     (fun y => apply_effects apply l2 y dt)).
  { induction l1 as [|e l IH]; intros l2 x; [reflexivity|].
    cbn [app apply_effects].
    destruct (apply e x dt) as [err|x']; [reflexivity|].
    cbn [rbind]. apply IH. }
  split; [apply Happ|].
  rewrite Happ.
  destruct (apply_effects apply first field dt) as [e|field']; [reflexivity|].
  cbn [rbind apply_effects].
  destruct (apply effect field' dt) as [e|field'']; reflexivity.
Qed.

End Projection.

Lemma X26_witness :
  exists (rho_u : StaggeredGrid unit) (divergence_field pressure_c : CenteredGrid unit)
         (iterations : nat) (fluiddomain : FluidDomain unit unit),
    divergence Still.phi rho_u = inr divergence_field
    /\ solve_pressure Still.phi divergence_field fluiddomain None
       = inr (pressure_c, iterations)
    /\ solve_info (snd Still.vacuum) !! "pressure_c"%string
       = Some (InfoGrid (g_scale pressure_c (dx0 Still.phi (Still.at_rest 2))))
    /\ solve_info (snd Still.vacuum) !! "iterations"%string
       = Some (InfoCount iterations)
    /\ solve_info (snd Still.vacuum) !! "divergence"%string
       = Some (InfoGrid divergence_field)
    /\ forall key : string,
         key <> "pressure_c"%string -> key <> "iterations"%string ->
         key <> "divergence"%string -> solve_info (snd Still.vacuum) !! key = None.
Proof.
  apply (X26_solve_info_contents Still.phi (Still.at_rest 2)
           (state_equation (pressure (Still.initial 2 zero))
              (temperature (Still.initial 2 zero))
              (Yf (Still.initial 2 zero)) (Yo (Still.initial 2 zero)))
           (Some tt) [] None
           (match divergence_free Still.phi (Still.at_rest 2)
                    (state_equation (pressure (Still.initial 2 zero))
                       (temperature (Still.initial 2 zero))
                       (Yf (Still.initial 2 zero)) (Yo (Still.initial 2 zero)))
                    (Some tt) [] None true
            with
            | inr (v, _) => v
            | inl _ => Still.at_rest 2
            end)
           (solve_info (snd Still.vacuum))).
  vm_compute. reflexivity.
Defined.
